(** * Booking lifecycle and seat inventory of the travel booking application

    A shallow embedding of the booking and inventory logic of
    [src/travel/models.py], [src/bookings/models.py], [src/bookings/forms.py]
    and [src/bookings/views.py], and the properties of it that the
    specification states.

    Conventions of the embedding.
    - A Python [int] is a [Z]; a [Decimal] with two decimal places is the [Z]
      of its hundredths; a [float] is a binary64 [float]; a [str] is a
      [string]; a nullable column is an [option].
    - A [datetime] is the [Z] of its microseconds on the UTC time line, a
      [timedelta] a [Z] of microseconds, a [date] the [Z] of its day number.
      [timezone.now()] and the datetimes of stored rows are in UTC, so
      [.date()] is the UTC day.
    - A model instance is a record of its columns.  A method that assigns to
      [self] returns the instance it leaves behind next to its result.
    - The database, and the messages queued for the user, are the [World]
      that the monad [M] threads; an exception leaves the writes done before
      it in place (Django's autocommit). *)

From Stdlib Require Import ZArith Lia Bool List String.
From Stdlib Require Import Floats.PrimFloat Numbers.Cyclic.Int63.Uint63.
From stdpp Require Import base option gmap strings pretty.

Set Warnings "-inexact-float".

Import ListNotations.
Local Open Scope string_scope.
Local Open Scope Z_scope.

(** ** Python values *)

(** The numbers a property can return: [refund_amount] returns the [int] 0
    on some paths and a [float] on the others. *)
Inductive PyNum : Type :=
| PyInt (n : Z)
| PyFloat (x : float).

(** [float(d)] for a [Decimal] [d] of [cents] hundredths.  The quotient of
    two exactly represented numbers is correctly rounded, as [float(d)] is;
    [cents] is exactly represented below 2^53, and [max_digits=10] keeps a
    price below 10^10 hundredths. *)
Definition float_of_decimal (cents : Z) : float :=
  let q := PrimFloat.div (PrimFloat.of_uint63 (Uint63.of_Z (Z.abs cents)))
                         (PrimFloat.of_uint63 100%uint63) in
  if cents <? 0 then PrimFloat.opp q else q.

(** ** Time *)

Definition microseconds_per_hour : Z := 3600 * 1000000.
Definition microseconds_per_day : Z := 24 * microseconds_per_hour.

(** [timedelta(hours=h)] *)
Definition timedelta_hours (h : Z) : Z := h * microseconds_per_hour.

(** [dt.date()]: the calendar day of an instant. *)
Definition date (dt : Z) : Z := dt / microseconds_per_day.

(** ** Model instances: the columns *)

Module TravelOptionFields.

Record t : Type := mk {
  pk : Z;
  travel_id : string;
  travel_type : string;
  source : string;
  destination : string;
  departure_datetime : Z;
  arrival_datetime : Z;
  duration : Z;
  base_price : Z;
  available_seats : Z;
  total_seats : Z;
  status : string
}.

Definition with_travel_id (v : string) (o : t) : t :=
  mk (pk o) v (travel_type o) (source o) (destination o)
     (departure_datetime o) (arrival_datetime o) (duration o) (base_price o)
     (available_seats o) (total_seats o) (status o).

Definition with_travel_type (v : string) (o : t) : t :=
  mk (pk o) (travel_id o) v (source o) (destination o)
     (departure_datetime o) (arrival_datetime o) (duration o) (base_price o)
     (available_seats o) (total_seats o) (status o).

Definition with_source (v : string) (o : t) : t :=
  mk (pk o) (travel_id o) (travel_type o) v (destination o)
     (departure_datetime o) (arrival_datetime o) (duration o) (base_price o)
     (available_seats o) (total_seats o) (status o).

Definition with_destination (v : string) (o : t) : t :=
  mk (pk o) (travel_id o) (travel_type o) (source o) v
     (departure_datetime o) (arrival_datetime o) (duration o) (base_price o)
     (available_seats o) (total_seats o) (status o).

Definition with_departure_datetime (v : Z) (o : t) : t :=
  mk (pk o) (travel_id o) (travel_type o) (source o) (destination o)
     v (arrival_datetime o) (duration o) (base_price o)
     (available_seats o) (total_seats o) (status o).

Definition with_arrival_datetime (v : Z) (o : t) : t :=
  mk (pk o) (travel_id o) (travel_type o) (source o) (destination o)
     (departure_datetime o) v (duration o) (base_price o)
     (available_seats o) (total_seats o) (status o).

Definition with_duration (v : Z) (o : t) : t :=
  mk (pk o) (travel_id o) (travel_type o) (source o) (destination o)
     (departure_datetime o) (arrival_datetime o) v (base_price o)
     (available_seats o) (total_seats o) (status o).

Definition with_base_price (v : Z) (o : t) : t :=
  mk (pk o) (travel_id o) (travel_type o) (source o) (destination o)
     (departure_datetime o) (arrival_datetime o) (duration o) v
     (available_seats o) (total_seats o) (status o).

Definition with_available_seats (v : Z) (o : t) : t :=
  mk (pk o) (travel_id o) (travel_type o) (source o) (destination o)
     (departure_datetime o) (arrival_datetime o) (duration o) (base_price o)
     v (total_seats o) (status o).

Definition with_total_seats (v : Z) (o : t) : t :=
  mk (pk o) (travel_id o) (travel_type o) (source o) (destination o)
     (departure_datetime o) (arrival_datetime o) (duration o) (base_price o)
     (available_seats o) v (status o).

Definition with_status (v : string) (o : t) : t :=
  mk (pk o) (travel_id o) (travel_type o) (source o) (destination o)
     (departure_datetime o) (arrival_datetime o) (duration o) (base_price o)
     (available_seats o) (total_seats o) v.

(** The column [f] of [dst] takes its value from [src]: what an UPDATE of
    the column [f] does to the stored row. *)
Definition copy_column (f : string) (src dst : t) : t :=
  if String.eqb f "travel_id" then with_travel_id (travel_id src) dst
  else if String.eqb f "travel_type" then with_travel_type (travel_type src) dst
  else if String.eqb f "source" then with_source (source src) dst
  else if String.eqb f "destination" then with_destination (destination src) dst
  else if String.eqb f "departure_datetime"
       then with_departure_datetime (departure_datetime src) dst
  else if String.eqb f "arrival_datetime"
       then with_arrival_datetime (arrival_datetime src) dst
  else if String.eqb f "duration" then with_duration (duration src) dst
  else if String.eqb f "base_price" then with_base_price (base_price src) dst
  else if String.eqb f "available_seats"
       then with_available_seats (available_seats src) dst
  else if String.eqb f "total_seats" then with_total_seats (total_seats src) dst
  else if String.eqb f "status" then with_status (status src) dst
  else dst.

End TravelOptionFields.

Module BookingFields.

(** The columns of a booking.  [T] is what [travel_option] holds: the
    related instance in memory ([TravelOptionFields.t]), its primary key in
    the stored row ([Z]).  [pk] is [None] until the first save. *)
Record t (T : Type) : Type := mk {
  pk : option Z;
  booking_id : string;
  user : Z;
  travel_option : T;
  number_of_seats : Z;
  total_price : Z;
  status : string;
  payment_status : string;
  confirmation_date : option Z;
  cancellation_date : option Z
}.

Arguments mk {T}.
Arguments pk {T}.
Arguments booking_id {T}.
Arguments user {T}.
Arguments travel_option {T}.
Arguments number_of_seats {T}.
Arguments total_price {T}.
Arguments status {T}.
Arguments payment_status {T}.
Arguments confirmation_date {T}.
Arguments cancellation_date {T}.

Section Setters.
Context {T : Type}.

Definition with_pk (v : option Z) (o : t T) : t T :=
  mk v (booking_id o) (user o) (travel_option o) (number_of_seats o)
     (total_price o) (status o) (payment_status o)
     (confirmation_date o) (cancellation_date o).

Definition with_booking_id (v : string) (o : t T) : t T :=
  mk (pk o) v (user o) (travel_option o) (number_of_seats o)
     (total_price o) (status o) (payment_status o)
     (confirmation_date o) (cancellation_date o).

Definition with_user (v : Z) (o : t T) : t T :=
  mk (pk o) (booking_id o) v (travel_option o) (number_of_seats o)
     (total_price o) (status o) (payment_status o)
     (confirmation_date o) (cancellation_date o).

Definition with_travel_option {U : Type} (v : U) (o : t T) : t U :=
  mk (pk o) (booking_id o) (user o) v (number_of_seats o)
     (total_price o) (status o) (payment_status o)
     (confirmation_date o) (cancellation_date o).

Definition with_number_of_seats (v : Z) (o : t T) : t T :=
  mk (pk o) (booking_id o) (user o) (travel_option o) v
     (total_price o) (status o) (payment_status o)
     (confirmation_date o) (cancellation_date o).

Definition with_total_price (v : Z) (o : t T) : t T :=
  mk (pk o) (booking_id o) (user o) (travel_option o) (number_of_seats o)
     v (status o) (payment_status o)
     (confirmation_date o) (cancellation_date o).

Definition with_status (v : string) (o : t T) : t T :=
  mk (pk o) (booking_id o) (user o) (travel_option o) (number_of_seats o)
     (total_price o) v (payment_status o)
     (confirmation_date o) (cancellation_date o).

Definition with_payment_status (v : string) (o : t T) : t T :=
  mk (pk o) (booking_id o) (user o) (travel_option o) (number_of_seats o)
     (total_price o) (status o) v
     (confirmation_date o) (cancellation_date o).

Definition with_confirmation_date (v : option Z) (o : t T) : t T :=
  mk (pk o) (booking_id o) (user o) (travel_option o) (number_of_seats o)
     (total_price o) (status o) (payment_status o)
     v (cancellation_date o).

Definition with_cancellation_date (v : option Z) (o : t T) : t T :=
  mk (pk o) (booking_id o) (user o) (travel_option o) (number_of_seats o)
     (total_price o) (status o) (payment_status o)
     (confirmation_date o) v.

(** The column [f] of [dst] takes its value from [src]. *)
Definition copy_column (f : string) (src dst : t T) : t T :=
  if String.eqb f "booking_id" then with_booking_id (booking_id src) dst
  else if String.eqb f "user" then with_user (user src) dst
  else if String.eqb f "travel_option"
       then with_travel_option (travel_option src) dst
  else if String.eqb f "number_of_seats"
       then with_number_of_seats (number_of_seats src) dst
  else if String.eqb f "total_price" then with_total_price (total_price src) dst
  else if String.eqb f "status" then with_status (status src) dst
  else if String.eqb f "payment_status"
       then with_payment_status (payment_status src) dst
  else if String.eqb f "confirmation_date"
       then with_confirmation_date (confirmation_date src) dst
  else if String.eqb f "cancellation_date"
       then with_cancellation_date (cancellation_date src) dst
  else dst.
End Setters.

(** The row that is stored for an instance: the related travel option is
    stored by its primary key. *)
Definition to_row (o : t TravelOptionFields.t) : t Z :=
  with_travel_option (TravelOptionFields.pk (travel_option o)) o.

End BookingFields.

(** A row of [booking_history]. *)
Record BookingHistory : Type := mkBookingHistory {
  history_booking : option Z;
  status_from : option string;
  status_to : string;
  changed_by : Z;
  reason : string;
  timestamp : Z
}.

(** The counters of a [popular_routes] row; the row is keyed by its
    (source, destination) pair, which is [unique_together]. *)
Record PopularRoute : Type := mkPopularRoute {
  search_count : Z;
  booking_count : Z
}.

(** A message queued by [messages.error] or [messages.success]: the level,
    the text around the interpolated values, and those values. *)
Inductive MessageArg : Type :=
| ArgStr (s : string)
| ArgNum (n : PyNum).

Record Message : Type := mkMessage {
  level : string;
  text : string;
  args : list MessageArg
}.

(** ** The world: database tables and queued messages *)

Record World : Type := mkWorld {
  travel_options : gmap Z TravelOptionFields.t;
  bookings : gmap Z (BookingFields.t Z);
  bookings_next_pk : Z;
  booking_history : list BookingHistory;
  popular_routes : gmap (string * string) PopularRoute;
  messages : list Message
}.

Definition with_travel_options (v : gmap Z TravelOptionFields.t) (w : World) : World :=
  mkWorld v (bookings w) (bookings_next_pk w) (booking_history w)
          (popular_routes w) (messages w).

Definition with_bookings (v : gmap Z (BookingFields.t Z)) (w : World) : World :=
  mkWorld (travel_options w) v (bookings_next_pk w) (booking_history w)
          (popular_routes w) (messages w).

Definition with_bookings_next_pk (v : Z) (w : World) : World :=
  mkWorld (travel_options w) (bookings w) v (booking_history w)
          (popular_routes w) (messages w).

Definition with_booking_history (v : list BookingHistory) (w : World) : World :=
  mkWorld (travel_options w) (bookings w) (bookings_next_pk w) v
          (popular_routes w) (messages w).

Definition with_popular_routes (v : gmap (string * string) PopularRoute) (w : World) : World :=
  mkWorld (travel_options w) (bookings w) (bookings_next_pk w) (booking_history w)
          v (messages w).

Definition with_messages (v : list Message) (w : World) : World :=
  mkWorld (travel_options w) (bookings w) (bookings_next_pk w) (booking_history w)
          (popular_routes w) v.

(** ** The monad of a request *)

(** What a request reads from outside: the clock ([timezone.now()], one
    instant for the whole request), and the draws of the random generator,
    [random.choices(string.digits, k=k)] joined to a string and
    [random.random()]. *)
Record Env : Type := mkEnv {
  now : Z;
  choices : nat -> string;
  random : float
}.

Inductive Exn : Type :=
| Http404
| AttributeError (class_name attribute : string)
| TypeError (message : string)
| ValueError (message : string)
| MultipleObjectsReturned
| IntegrityError (column : string)
| DatabaseError (message : string).

Inductive Res (A : Type) : Type :=
| Ok (a : A)
| Raise (e : Exn).

Arguments Ok {A}.
Arguments Raise {A}.

Definition M (A : Type) : Type := Env -> World -> Res A * World.

Definition ret {A : Type} (a : A) : M A := fun _ w => (Ok a, w).

Definition bind {A B : Type} (c : M A) (k : A -> M B) : M B :=
  fun e w =>
    match c e w with
    | (Ok a, w') => k a e w'
    | (Raise x, w') => (Raise x, w')
    end.

Definition raise {A : Type} (x : Exn) : M A := fun _ w => (Raise x, w).

Definition ask : M Env := fun e w => (Ok e, w).

Definition get : M World := fun _ w => (Ok w, w).

Definition modify (f : World -> World) : M unit := fun _ w => (Ok tt, f w).

(** A call that can raise outside the world, lifted into a request. *)
Definition lift {A : Type} (r : Res A) : M A := fun _ w => (r, w).

Declare Scope request_scope.
Delimit Scope request_scope with request.
Notation "x <- c ;; k" := (bind c (fun x => k))
  (at level 100, c at next level, right associativity) : request_scope.
Notation "c ;;; k" := (bind c (fun _ => k))
  (at level 100, right associativity) : request_scope.
Local Open Scope request_scope.

(** [timezone.now()] *)
Definition timezone_now : M Z := e <- ask ;; ret (now e).

(** ** [src/travel/models.py]: [TravelOption] *)

Module TravelOption.
Include TravelOptionFields.

(** Check if booking can be cancelled (24 hours before departure) *)
Definition can_be_cancelled (now : Z) (self : t) : bool :=
  let cancellation_deadline := departure_datetime self - timedelta_hours 24 in
  now <? cancellation_deadline.

(** Check if travel option is available for booking *)
Definition is_available (now : Z) (self : t) : bool :=
  String.eqb (status self) "ACTIVE"
  && (available_seats self >? 0)
  && (departure_datetime self >? now).


(** [prefix_map.get(self.travel_type, 'XX')] *)
Definition prefix_map_get (travel_type : string) : string :=
  if String.eqb travel_type "FLIGHT" then "FL"
  else if String.eqb travel_type "TRAIN" then "TR"
  else if String.eqb travel_type "BUS" then "BU"
  else "XX".

Definition generate_travel_id (self : t) : M string :=
  e <- ask ;;
  let prefix := prefix_map_get (travel_type self) in
  let random_part := choices e 6 in
  ret (prefix ++ random_part).

(** [models.Model.save]: without [update_fields] the whole row is written
    under the primary key; with [update_fields] the listed columns of the
    stored row are updated, and an UPDATE that finds no row writes
    nothing (the instances here are rows that were stored before). *)
Definition Model_save (update_fields : option (list string)) (self : t) : M unit :=
  match update_fields with
  | None =>
      modify (fun w => with_travel_options (<[pk self := self]> (travel_options w)) w)
  | Some fields =>
      modify (fun w =>
        with_travel_options
          (alter (fun row => fold_left (fun r f => copy_column f self r) fields row)
                 (pk self) (travel_options w)) w)
  end.

(** Override save to calculate duration.  The two datetimes are columns
    that are never null, so the test [if self.departure_datetime and
    self.arrival_datetime] holds. *)
Definition save (update_fields : option (list string)) (self : t) : M t :=
  let self := with_duration (arrival_datetime self - departure_datetime self) self in
  self <- (if String.eqb (travel_id self) ""
           then (id <- generate_travel_id self ;; ret (with_travel_id id self))
           else ret self) ;;
  Model_save update_fields self ;;;
  ret self.

(** Reduce available seats after booking *)
Definition reduce_available_seats (self : t) (count : Z) : M (bool * t) :=
  if available_seats self >=? count then
    let self := with_available_seats (available_seats self - count) self in
    self <- save (Some ["available_seats"]) self ;;
    ret (true, self)
  else ret (false, self).

(** Increase available seats after cancellation *)
Definition increase_available_seats (self : t) (count : Z) : M (bool * t) :=
  if available_seats self + count <=? total_seats self then
    let self := with_available_seats (available_seats self + count) self in
    self <- save (Some ["available_seats"]) self ;;
    ret (true, self)
  else ret (false, self).

(** The names that [models.py] defines on the class: columns, properties
    and methods.  [hasattr(self, name)] looks a name up here; the names
    that the base class [models.Model] adds are not asked for. *)
Definition attributes : list string :=
  [ "travel_id"; "travel_type"; "operator_name"; "source"; "destination";
    "source_code"; "destination_code"; "departure_datetime";
    "arrival_datetime"; "duration"; "base_price"; "available_seats";
    "total_seats"; "description"; "amenities"; "baggage_allowance";
    "cancellation_policy"; "status"; "is_featured"; "created_at";
    "updated_at"; "get_absolute_url"; "is_available"; "is_almost_full";
    "occupancy_percentage"; "time_until_departure"; "can_be_cancelled";
    "save"; "generate_travel_id"; "reduce_available_seats";
    "increase_available_seats" ].

Definition hasattr (name : string) : bool :=
  existsb (String.eqb name) attributes.

(** The methods of one seat count that a call [self.name(count)] can find
    on the class; a name that the class does not define raises
    [AttributeError]. *)
Definition method (name : string) : option (t -> Z -> M (bool * t)) :=
  if String.eqb name "reduce_available_seats" then Some reduce_available_seats
  else if String.eqb name "increase_available_seats" then Some increase_available_seats
  else None.

Definition call (name : string) (self : t) (count : Z) : M (bool * t) :=
  match method name with
  | Some f => f self count
  | None => raise (AttributeError "TravelOption" name)
  end.

(** *** The seat methods against the table and its constraints *)

(** [available_seats = models.PositiveIntegerField()] and
    [total_seats = models.PositiveIntegerField()]: the table has a CHECK
    constraint for each of the two columns, which a negative count fails.
    The column of a row whose constraint fails, if there is one. *)
Definition failed_check (row : t) : option string :=
  if available_seats row <? 0 then Some "available_seats"
  else if total_seats row <? 0 then Some "total_seats"
  else None.

Module Constrained.

(** [models.Model.save(update_fields=[...])] with the answers of the
    database written out: with an empty list nothing is saved; an UPDATE
    that finds no row makes [save] raise [DatabaseError]; a row that fails
    a CHECK constraint raises [IntegrityError] and is not written.  The
    names in [update_fields] are names of columns, as in every call of
    [models.py]; the upper end of the range of a column, which depends on
    the database in use, is not modelled. *)
Definition Model_save (update_fields : list string) (self : t) : M unit :=
  match update_fields with
  | [] => ret tt
  | _ :: _ =>
      w <- get ;;
      match travel_options w !! pk self with
      | None => raise (DatabaseError "Save with update_fields did not affect any rows.")
      | Some row =>
          let row := fold_left (fun r f => copy_column f self r) update_fields row in
          match failed_check row with
          | Some column => raise (IntegrityError column)
          | None =>
              modify (fun w =>
                with_travel_options (<[pk self := row]> (travel_options w)) w)
          end
      end
  end.

(** Override save to calculate duration *)
Definition save (update_fields : list string) (self : t) : M t :=
  let self := with_duration (arrival_datetime self - departure_datetime self) self in
  self <- (if String.eqb (travel_id self) ""
           then (id <- generate_travel_id self ;; ret (with_travel_id id self))
           else ret self) ;;
  Model_save update_fields self ;;;
  ret self.

(** Reduce available seats after booking *)
Definition reduce_available_seats (self : t) (count : Z) : M (bool * t) :=
  if available_seats self >=? count then
    let self := with_available_seats (available_seats self - count) self in
    self <- save ["available_seats"] self ;;
    ret (true, self)
  else ret (false, self).

(** Increase available seats after cancellation *)
Definition increase_available_seats (self : t) (count : Z) : M (bool * t) :=
  if available_seats self + count <=? total_seats self then
    let self := with_available_seats (available_seats self + count) self in
    self <- save ["available_seats"] self ;;
    ret (true, self)
  else ret (false, self).

End Constrained.

End TravelOption.

(** ** [src/bookings/models.py]: [Booking] *)

Module Booking.
Include BookingFields.

(** An instance in memory, with the related travel option it holds. *)
Definition instance : Type := t TravelOption.t.

(** A stored row, with the primary key of the travel option. *)
Definition row : Type := t Z.

(** Check if travel date has passed *)
Definition is_past_travel (now : Z) (self : instance) : bool :=
  TravelOption.departure_datetime (travel_option self) <? now.

(** Check if booking can be cancelled *)
Definition can_be_cancelled (now : Z) (self : instance) : bool :=
  if existsb (String.eqb (status self)) ["CANCELLED"; "COMPLETED"] then false
  else if is_past_travel now self then false
  else if TravelOption.hasattr "can_be_cancelled"
       then TravelOption.can_be_cancelled now (travel_option self)
  else true.

(** Get number of days until travel *)
Definition days_until_travel (now : Z) (self : instance) : Z :=
  if is_past_travel now self then 0
  else
    let delta := date (TravelOption.departure_datetime (travel_option self)) - date now in
    delta.

(** Calculate refund amount based on cancellation policy *)
Definition refund_amount (now : Z) (self : instance) : PyNum :=
  if negb (can_be_cancelled now self) then PyInt 0
  else
    let days_before := days_until_travel now self in
    if days_before >=? 7
    then PyFloat (PrimFloat.mul (float_of_decimal (total_price self)) 0.9%float)
    else if days_before >=? 3
    then PyFloat (PrimFloat.mul (float_of_decimal (total_price self)) 0.75%float)
    else if days_before >=? 1
    then PyFloat (PrimFloat.mul (float_of_decimal (total_price self)) 0.5%float)
    else PyInt 0.

(** Format: TKT + 7 digit random number (total 10 characters) *)
Definition generate_booking_id (self : instance) : M string :=
  e <- ask ;;
  let random_part := choices e 7 in
  ret ("TKT" ++ random_part)%string.

(** [models.Model.save]: without [update_fields] the whole row is written,
    under a new primary key when the instance has none yet; with
    [update_fields] the listed columns of the stored row are updated, and
    an UPDATE that finds no row writes nothing. *)
Definition Model_save (update_fields : option (list string)) (self : instance) : M instance :=
  match update_fields with
  | None =>
      match pk self with
      | None =>
          w <- get ;;
          let self := with_pk (Some (bookings_next_pk w)) self in
          modify (fun w =>
            with_bookings_next_pk (bookings_next_pk w + 1)
              (with_bookings (<[bookings_next_pk w := to_row self]> (bookings w)) w)) ;;;
          ret self
      | Some k =>
          modify (fun w => with_bookings (<[k := to_row self]> (bookings w)) w) ;;;
          ret self
      end
  | Some fields =>
      match pk self with
      | None => ret self
      | Some k =>
          modify (fun w =>
            with_bookings
              (alter (fun r => fold_left (fun r f => copy_column f (to_row self) r) fields r)
                     k (bookings w)) w) ;;;
          ret self
      end
  end.

(** Override save to generate booking ID *)
Definition save (update_fields : option (list string)) (self : instance) : M instance :=
  self <- (if String.eqb (booking_id self) ""
           then (id <- generate_booking_id self ;; ret (with_booking_id id self))
           else ret self) ;;
  (* Set confirmation date when status changes to confirmed *)
  self <- (if String.eqb (status self) "CONFIRMED"
              && negb (bool_decide (is_Some (confirmation_date self)))
           then (now <- timezone_now ;; ret (with_confirmation_date (Some now) self))
           else ret self) ;;
  (* Set cancellation date when status changes to cancelled *)
  self <- (if String.eqb (status self) "CANCELLED"
              && negb (bool_decide (is_Some (cancellation_date self)))
           then (now <- timezone_now ;; ret (with_cancellation_date (Some now) self))
           else ret self) ;;
  Model_save update_fields self.

(** Confirm the booking *)
Definition confirm_booking (self : instance) : M (bool * instance) :=
  if String.eqb (status self) "PENDING" then
    let self := with_status "CONFIRMED" self in
    now <- timezone_now ;;
    let self := with_confirmation_date (Some now) self in
    let self := with_payment_status "COMPLETED" self in
    self <- save None self ;;
    ret (true, self)
  else ret (false, self).

(** Cancel the booking and restore seats *)
Definition cancel_booking (self : instance) : M (bool * instance) :=
  e <- ask ;;
  if can_be_cancelled (now e) self && String.eqb (status self) "CONFIRMED" then
    let self := with_status "CANCELLED" self in
    now <- timezone_now ;;
    let self := with_cancellation_date (Some now) self in
    (* Restore available seats to travel option *)
    r <- TravelOption.increase_available_seats (travel_option self) (number_of_seats self) ;;
    let self := with_travel_option (snd r) self in
    self <- save None self ;;
    ret (true, self)
  else ret (false, self).

(** The names that [models.py] defines on the class: columns, properties
    and methods. *)
Definition attributes : list string :=
  [ "booking_id"; "user"; "travel_option"; "number_of_seats"; "total_price";
    "passenger_details"; "status"; "payment_status"; "booking_date";
    "confirmation_date"; "cancellation_date"; "special_requests";
    "contact_email"; "contact_phone"; "booking_reference"; "created_at";
    "updated_at"; "objects"; "get_absolute_url"; "can_be_cancelled";
    "is_past_travel"; "days_until_travel"; "refund_amount"; "save";
    "generate_booking_id"; "confirm_booking"; "cancel_booking" ].

Definition hasattr (name : string) : bool :=
  existsb (String.eqb name) attributes.

(** What a method of the class called without arguments returns, next to
    the instance it leaves. *)
Inductive MethodResult : Type :=
| ReturnsBool (result : bool) (self : instance)
| ReturnsStr (result : string)
| ReturnsNone (self : instance).

(** The methods that a call [self.name()] can find on the class; a name
    that the class does not define raises [AttributeError]. *)
Definition method (name : string) : option (instance -> M MethodResult) :=
  if String.eqb name "confirm_booking"
  then Some (fun self => r <- confirm_booking self ;; ret (ReturnsBool (fst r) (snd r)))
  else if String.eqb name "cancel_booking"
  then Some (fun self => r <- cancel_booking self ;; ret (ReturnsBool (fst r) (snd r)))
  else if String.eqb name "generate_booking_id"
  then Some (fun self => id <- generate_booking_id self ;; ret (ReturnsStr id))
  else if String.eqb name "save"
  then Some (fun self => self <- save None self ;; ret (ReturnsNone self))
  else None.

Definition call (name : string) (self : instance) : M MethodResult :=
  match method name with
  | Some f => f self
  | None => raise (AttributeError "Booking" name)
  end.

(** A stored row as an instance: the related travel option is fetched by
    its key. *)
Definition from_row (w : World) (r : row) : option instance :=
  o ← travel_options w !! travel_option r;
  Some (with_travel_option o r).

(** [get_object_or_404(Booking, ...)] and [get_object] of a view: the one
    stored row that passes the filter, given as a predicate on the row, or
    [Http404]. *)
Definition objects_get (p : row -> bool) : M instance :=
  w <- get ;;
  match List.filter p (snd <$> map_to_list (bookings w)) with
  | [] => raise Http404
  | [r] =>
      match from_row w r with
      | Some self => ret self
      | None => raise Http404
      end
  | _ => raise MultipleObjectsReturned
  end.

End Booking.

(** ** [src/bookings/models.py]: [BookingManager] *)

Module BookingManager.

(** [self.filter(...)]: the stored rows that pass the filter. *)
Definition filter (p : Booking.row -> bool) : M (list Booking.row) :=
  w <- get ;;
  ret (List.filter p (snd <$> map_to_list (bookings w))).

(** Return only confirmed bookings *)
Definition active_bookings : M (list Booking.row) :=
  filter (fun r => String.eqb (Booking.status r) "CONFIRMED").

(** Return only cancelled bookings *)
Definition cancelled_bookings : M (list Booking.row) :=
  filter (fun r => String.eqb (Booking.status r) "CANCELLED").

End BookingManager.

(** ** [src/travel/models.py]: [PopularRoute] *)

Module PopularRoute.

(** An instance in memory: the pair that keys the row, and the counters as
    they were when the instance was read or last changed. *)
Record t : Type := mk {
  source : string;
  destination : string;
  counters : PopularRoute
}.

(** [self.save(update_fields=[...])]: the listed counters of the stored row
    take the values of the instance. *)
Definition copy_column (f : string) (src dst : PopularRoute) : PopularRoute :=
  if String.eqb f "search_count" then mkPopularRoute (search_count src) (booking_count dst)
  else if String.eqb f "booking_count" then mkPopularRoute (search_count dst) (booking_count src)
  else dst.

Definition save (update_fields : list string) (self : t) : M unit :=
  modify (fun w =>
    with_popular_routes
      (alter (fun row => fold_left (fun r f => copy_column f (counters self) r)
                                   update_fields row)
             (source self, destination self) (popular_routes w)) w).

(** Increment search count for this route *)
Definition increment_search_count (self : t) : M t :=
  let self := mk (source self) (destination self)
                 (mkPopularRoute (search_count (counters self) + 1)
                                 (booking_count (counters self))) in
  save ["search_count"] self ;;;
  ret self.

(** Increment booking count for this route *)
Definition increment_booking_count (self : t) : M t :=
  let self := mk (source self) (destination self)
                 (mkPopularRoute (search_count (counters self))
                                 (booking_count (counters self) + 1)) in
  save ["booking_count"] self ;;;
  ret self.

(** Get or create a popular route *)
Definition get_or_create_route (source destination : string) : M t :=
  w <- get ;;
  match popular_routes w !! (source, destination) with
  | Some c => ret (mk source destination c)
  | None =>
      modify (fun w =>
        with_popular_routes
          (<[(source, destination) := mkPopularRoute 0 0]> (popular_routes w)) w) ;;;
      ret (mk source destination (mkPopularRoute 0 0))
  end.

End PopularRoute.

(** ** Submitted data, and calls with positional and keyword arguments *)

(** What a request submits for one form field, as the field's [to_python]
    and stock validators of Django read it: nothing, something they refuse,
    or a value. *)
Inductive Submitted (A : Type) : Type :=
| Missing
| Invalid
| Value (a : A).

Arguments Missing {A}.
Arguments Invalid {A}.
Arguments Value {A}.

(** The data of a booking form ([request.POST], or the [data] of a test). *)
Record BookingData : Type := mkBookingData {
  data_number_of_seats : Submitted Z;
  data_contact_email : Submitted string;
  data_contact_phone : Submitted string;
  data_special_requests : string;
  data_agree_terms : bool
}.

(** The data of a cancellation form. *)
Record CancellationData : Type := mkCancellationData {
  data_cancellation_reason : Submitted string;
  data_confirm_cancellation : bool
}.

(** The values that the modelled calls pass around. *)
Inductive PyVal : Type :=
| VNone
| VUser (id : Z)
| VTravelOption (o : TravelOption.t)
| VBooking (b : Booking.instance)
| VBookingData (d : BookingData)
| VCancellationData (d : CancellationData).

(** Python's binding of the arguments of a call to the parameters
    [def f(self, p1=None, ..., pn=None, *args, **kwargs)]: the positional
    arguments fill [p1 ... pn] in order and the rest goes to [*args]; a
    keyword that names a parameter filled already raises [TypeError], one
    that names a free parameter fills it, any other goes to [**kwargs]. *)
Fixpoint bind_positional (params : list string) (args : list PyVal)
  : list (string * PyVal) * list string * list PyVal :=
  match params, args with
  | p :: params', a :: args' =>
      let '(bound, free, rest) := bind_positional params' args' in
      ((p, a) :: bound, free, rest)
  | _, _ => ([], params, args)
  end.

Definition assoc (name : string) (l : list (string * PyVal)) : option PyVal :=
  snd <$> List.find (fun kv => String.eqb (fst kv) name) l.

Fixpoint bind_keywords (bound : list (string * PyVal)) (free : list string)
    (kwargs : list (string * PyVal))
  : Res (list (string * PyVal) * list (string * PyVal)) :=
  match kwargs with
  | [] => Ok (bound, [])
  | (k, v) :: kwargs' =>
      if bool_decide (is_Some (assoc k bound)) then
        Raise (TypeError ("__init__() got multiple values for argument '" ++ k ++ "'"))
      else if existsb (String.eqb k) free then
        bind_keywords ((k, v) :: bound) free kwargs'
      else
        match bind_keywords bound free kwargs' with
        | Ok (bound', extra) => Ok (bound', (k, v) :: extra)
        | Raise x => Raise x
        end
  end.

Definition bind_arguments (params : list string) (args : list PyVal)
    (kwargs : list (string * PyVal))
  : Res (list (string * PyVal) * list PyVal * list (string * PyVal)) :=
  let '(bound, free, rest) := bind_positional params args in
  match bind_keywords bound free kwargs with
  | Ok (bound', extra) => Ok (bound', rest, extra)
  | Raise x => Raise x
  end.

(** The parameters of [forms.BaseForm.__init__] and of
    [forms.BaseModelForm.__init__]; neither takes [*args] or [**kwargs]. *)
Definition BaseForm_params : list string :=
  [ "data"; "files"; "auto_id"; "prefix"; "initial"; "error_class";
    "label_suffix"; "empty_permitted"; "field_order";
    "use_required_attribute"; "renderer" ].

Definition BaseModelForm_params : list string :=
  [ "data"; "files"; "auto_id"; "prefix"; "initial"; "error_class";
    "label_suffix"; "empty_permitted"; "instance";
    "use_required_attribute"; "renderer" ].

(** The call of the base class [__init__] with the remaining positional
    and keyword arguments: the [data] the form is bound to, if any. *)
Definition Form_init (params : list string) (args : list PyVal)
    (kwargs : list (string * PyVal)) : Res (option PyVal) :=
  match bind_arguments params args kwargs with
  | Ok (bound, [], []) =>
      match assoc "data" bound with
      | Some VNone | None => Ok None
      | Some d => Ok (Some d)
      end
  | Ok (_, _ :: _, _) => Raise (TypeError "__init__() takes at most 12 positional arguments")
  | Ok (_, _, _ :: _) => Raise (TypeError "__init__() got an unexpected keyword argument")
  | Raise x => Raise x
  end.

(** ** Form validation *)

(** The errors of a form field. *)
Inductive FormError : Type :=
| ErrRequired
| ErrInvalid
| ErrMinValue (limit_value : Z)
| ErrMaxValue (limit_value : Z)
| ErrMaxLength (limit_value : Z)
| ErrMessage (message : string) (value : Z).

(** [MinValueValidator(limit)] and [MaxValueValidator(limit)] *)
Definition MinValueValidator (limit_value : Z) (value : Z) : list FormError :=
  if value <? limit_value then [ErrMinValue limit_value] else [].

Definition MaxValueValidator (limit_value : Z) (value : Z) : list FormError :=
  if value >? limit_value then [ErrMaxValue limit_value] else [].

(** [Field.run_validators]: the errors of all validators, in order. *)
Definition run_validators (validators : list (Z -> list FormError)) (value : Z)
  : list FormError :=
  flat_map (fun v => v value) validators.

(** [Field.clean] of a required [IntegerField] with [validators]. *)
Definition IntegerField_clean (validators : list (Z -> list FormError))
    (raw : Submitted Z) : Z + list FormError :=
  match raw with
  | Missing => inr [ErrRequired]
  | Invalid => inr [ErrInvalid]
  | Value n =>
      match run_validators validators n with
      | [] => inl n
      | errors => inr errors
      end
  end.

(** [Field.clean] of a required [CharField] or [EmailField], with an
    optional [max_length]. *)
Definition CharField_clean (max_length : option Z) (raw : Submitted string)
  : string + list FormError :=
  match raw with
  | Missing => inr [ErrRequired]
  | Invalid => inr [ErrInvalid]
  | Value s =>
      if String.eqb s "" then inr [ErrRequired]
      else
        match max_length with
        | Some n =>
            if Z.of_nat (String.length s) >? n then inr [ErrMaxLength n] else inl s
        | None => inl s
        end
  end.

(** [Field.clean] of a [BooleanField] with [required=True]. *)
Definition BooleanField_clean (raw : bool) : bool + list FormError :=
  if raw then inl true else inr [ErrRequired].

(** ** [src/bookings/forms.py]: [BookingForm] *)

Module BookingForm.

(** The form: what [__init__] stores and the data it is bound to, if any.
    The views are behind [LoginRequiredMixin]: the user is a logged-in
    user, given by its key. *)
Record t : Type := mk {
  travel_option : option TravelOption.t;
  user : Z;
  data : option BookingData
}.

Definition with_travel_option (v : option TravelOption.t) (o : t) : t :=
  mk v (user o) (data o).

(** The arguments as values of the classes that the form works with; a
    value of another class is outside the model. *)
Definition as_travel_option (v : option PyVal) : Res (option TravelOption.t) :=
  match v with
  | None | Some VNone => Ok None
  | Some (VTravelOption o) => Ok (Some o)
  | Some _ => Raise (TypeError "travel_option is not a TravelOption")
  end.

Definition as_user (v : option PyVal) : Res Z :=
  match v with
  | Some (VUser u) => Ok u
  | _ => Raise (TypeError "user is not a logged-in user")
  end.

Definition as_data (v : option PyVal) : Res (option BookingData) :=
  match v with
  | None | Some VNone => Ok None
  | Some (VBookingData d) => Ok (Some d)
  | Some _ => Raise (TypeError "data is not the data of a booking form")
  end.

(** [__init__(self, travel_option=None, user=None, *args, **kwargs)] *)
Definition init (args : list PyVal) (kwargs : list (string * PyVal)) : Res t :=
  match bind_arguments ["travel_option"; "user"] args kwargs with
  | Raise x => Raise x
  | Ok (bound, args', kwargs') =>
      match Form_init BaseModelForm_params args' kwargs' with
      | Raise x => Raise x
      | Ok d =>
          match as_travel_option (assoc "travel_option" bound),
                as_user (assoc "user" bound), as_data d with
          | Ok o, Ok u, Ok d => Ok (mk o u d)
          | Raise x, _, _ | _, Raise x, _ | _, _, Raise x => Raise x
          end
      end
  end.

(** The declaration of the field [number_of_seats]. *)
Definition number_of_seats_validators : list (Z -> list FormError) :=
  [MinValueValidator 1; MaxValueValidator 10].

(** [clean_number_of_seats]: a [ValidationError] is the [inr]. *)
Definition clean_number_of_seats (self : t) (seats : Z) : Z + list FormError :=
  match travel_option self with
  | Some o =>
      if seats >? TravelOption.available_seats o
      then inr [ErrMessage "Only {} seats are available." (TravelOption.available_seats o)]
      else inl seats
  | None => inl seats
  end.

(** [_clean_fields] for [number_of_seats]: the field's own [clean], and
    then, if that raised nothing, [clean_number_of_seats]. *)
Definition clean_field_number_of_seats (self : t) (raw : Submitted Z)
  : Z + list FormError :=
  match IntegerField_clean number_of_seats_validators raw with
  | inl seats => clean_number_of_seats self seats
  | inr errors => inr errors
  end.

Definition errors_of {A : Type} (r : A + list FormError) : list FormError :=
  match r with
  | inl _ => []
  | inr errors => errors
  end.

(** [form.errors]: the errors of each field of a bound form. *)
Definition errors (self : t) : list (string * list FormError) :=
  match data self with
  | None => []
  | Some d =>
      List.filter (fun fe => negb (bool_decide (snd fe = [])))
        [ ("number_of_seats",
           errors_of (clean_field_number_of_seats self (data_number_of_seats d)));
          ("contact_email", errors_of (CharField_clean None (data_contact_email d)));
          ("contact_phone", errors_of (CharField_clean (Some 15) (data_contact_phone d)));
          ("agree_terms", errors_of (BooleanField_clean (data_agree_terms d))) ]
  end.

Definition is_valid (self : t) : bool :=
  bool_decide (is_Some (data self)) && bool_decide (errors self = []).

(** [cleaned_data['number_of_seats']] of a valid form. *)
Definition cleaned_number_of_seats (self : t) : option Z :=
  match data self with
  | Some d =>
      match clean_field_number_of_seats self (data_number_of_seats d) with
      | inl seats => Some seats
      | inr _ => None
      end
  | None => None
  end.

(** [save(self, commit=True)]: the booking, and the form with the travel
    option as the call leaves it; the booking holds the same travel option
    object. *)
Definition save (commit : bool) (self : t) : M (Booking.instance * t) :=
  (* booking = super().save(commit=False) *)
  if negb (is_valid self) then
    raise (ValueError "The Booking could not be created because the data didn't validate.")
  else
    match cleaned_number_of_seats self, travel_option self with
    | Some seats, Some o =>
        let booking : Booking.instance :=
          (* booking.user = self.user; booking.travel_option = self.travel_option *)
          Booking.mk None "" (user self) o seats
            (* booking.total_price = booking.number_of_seats * self.travel_option.base_price *)
            (seats * TravelOption.base_price o)
            "PENDING" "PENDING" None None in
        if commit then
          booking <- Booking.save None booking ;;
          (* Reduce available seats *)
          r <- TravelOption.reduce_available_seats o (Booking.number_of_seats booking) ;;
          ret (Booking.with_travel_option (snd r) booking,
               with_travel_option (Some (snd r)) self)
        else ret (booking, self)
    | _, _ => raise (AttributeError "NoneType" "base_price")
    end.

End BookingForm.

(** ** [src/bookings/forms.py]: [CancellationForm] *)

Module CancellationForm.

Record t : Type := mk {
  booking : option Booking.instance;
  data : option CancellationData;
  (* the refund amount that the layout of the form shows *)
  refund_amount : PyNum
}.

Definition as_booking (v : option PyVal) : Res (option Booking.instance) :=
  match v with
  | None | Some VNone => Ok None
  | Some (VBooking b) => Ok (Some b)
  | Some _ => Raise (TypeError "booking is not a Booking")
  end.

Definition as_data (v : option PyVal) : Res (option CancellationData) :=
  match v with
  | None | Some VNone => Ok None
  | Some (VCancellationData d) => Ok (Some d)
  | Some _ => Raise (TypeError "data is not the data of a cancellation form")
  end.

(** [__init__(self, booking=None, *args, **kwargs)], at the time [now]:
    [refund_amount = booking.refund_amount if booking else 0]. *)
Definition init (now : Z) (args : list PyVal) (kwargs : list (string * PyVal)) : Res t :=
  match bind_arguments ["booking"] args kwargs with
  | Raise x => Raise x
  | Ok (bound, args', kwargs') =>
      match Form_init BaseForm_params args' kwargs' with
      | Raise x => Raise x
      | Ok d =>
          match as_booking (assoc "booking" bound), as_data d with
          | Ok (Some b), Ok d => Ok (mk (Some b) d (Booking.refund_amount now b))
          | Ok None, Ok d => Ok (mk None d (PyInt 0))
          | Raise x, _ | _, Raise x => Raise x
          end
      end
  end.

Definition errors (self : t) : list (string * list FormError) :=
  match data self with
  | None => []
  | Some d =>
      List.filter (fun fe => negb (bool_decide (snd fe = [])))
        [ ("cancellation_reason",
           BookingForm.errors_of (CharField_clean None (data_cancellation_reason d)));
          ("confirm_cancellation",
           BookingForm.errors_of (BooleanField_clean (data_confirm_cancellation d))) ]
  end.

Definition is_valid (self : t) : bool :=
  bool_decide (is_Some (data self)) && bool_decide (errors self = []).

(** [form.cleaned_data['cancellation_reason']] *)
Definition cleaned_cancellation_reason (self : t) : string :=
  match data self with
  | Some d =>
      match CharField_clean None (data_cancellation_reason d) with
      | inl s => s
      | inr _ => ""
      end
  | None => ""
  end.

End CancellationForm.

(** ** [src/bookings/views.py] *)

(** A request of a logged-in user: [request.user] and [request.POST]. *)
Record HttpRequest (D : Type) : Type := mkHttpRequest {
  request_user : Z;
  request_POST : D
}.

Arguments mkHttpRequest {D}.
Arguments request_user {D}.
Arguments request_POST {D}.

Inductive HttpResponse : Type :=
| redirect (to : string) (booking_id : string)
| render (template_name : string).

(** [messages.error(request, text)] and [messages.success(request, text)] *)
Definition messages_error (text : string) (args : list MessageArg) : M unit :=
  modify (fun w => with_messages (messages w ++ [mkMessage "error" text args]) w).

Definition messages_success (text : string) (args : list MessageArg) : M unit :=
  modify (fun w => with_messages (messages w ++ [mkMessage "success" text args]) w).

(** [BookingHistory.objects.create(...)]; [timestamp] is [auto_now_add]. *)
Definition BookingHistory_objects_create (booking : Booking.instance)
    (status_from : option string) (status_to : string) (changed_by : Z)
    (reason : string) : M unit :=
  now <- timezone_now ;;
  modify (fun w =>
    with_booking_history
      (booking_history w ++
         [mkBookingHistory (Booking.pk booking) status_from status_to changed_by reason now])
      w).

(** [PopularRoute.objects.get_or_create(source=..., destination=...)]: a
    missing row is created with its counters at their default, 0. *)
Definition PopularRoute_objects_get_or_create (source destination : string) : M unit :=
  modify (fun w =>
    match popular_routes w !! (source, destination) with
    | Some _ => w
    | None =>
        with_popular_routes (<[(source, destination) := mkPopularRoute 0 0]> (popular_routes w)) w
    end).

(** [route.booking_count = F('booking_count') + 1] followed by
    [route.save(update_fields=['booking_count'])]: the stored counter is
    incremented in the database. *)
Definition PopularRoute_increment_booking_count (source destination : string) : M unit :=
  modify (fun w =>
    with_popular_routes
      (alter (fun r => mkPopularRoute (search_count r) (booking_count r + 1))
             (source, destination) (popular_routes w)) w).

Module PaymentView.

(** [get_queryset] and [get_object]: the booking of the user with this
    [booking_id] that is PENDING, or [Http404]. *)
Definition get_object (request : HttpRequest string) (booking_id : string)
  : M Booking.instance :=
  Booking.objects_get (fun r =>
    bool_decide (Booking.user r = request_user request)
    && String.eqb (Booking.status r) "PENDING"
    && String.eqb (Booking.booking_id r) booking_id).

(** Simulate payment processing: 95% success rate for simulation.  The
    one second of [time.sleep] has no part in the result. *)
Definition process_payment (booking : Booking.instance) (payment_method : string) : M bool :=
  e <- ask ;;
  ret (PrimFloat.ltb (random e) 0.95%float).

(** Send booking confirmation email to user.  Every exception is caught and
    the mail leaves no trace in the world. *)
Definition send_booking_confirmation_email (booking : Booking.instance) : M unit :=
  ret tt.

(** [post]: the response and the booking instance as the view leaves it. *)
Definition post (request : HttpRequest string) (booking_id : string)
  : M (HttpResponse * Booking.instance) :=
  booking <- get_object request booking_id ;;
  let payment_method := request_POST request in
  (* Simulate payment processing *)
  paid <- process_payment booking payment_method ;;
  if paid : bool then
    (* Payment successful *)
    let booking := Booking.with_status "CONFIRMED" booking in
    let booking := Booking.with_payment_status "PAID" booking in
    booking <- Booking.save (Some ["status"; "payment_status"]) booking ;;
    (* Update popular route booking count *)
    PopularRoute_objects_get_or_create
      (TravelOption.source (Booking.travel_option booking))
      (TravelOption.destination (Booking.travel_option booking)) ;;;
    PopularRoute_increment_booking_count
      (TravelOption.source (Booking.travel_option booking))
      (TravelOption.destination (Booking.travel_option booking)) ;;;
    (* Create booking history *)
    BookingHistory_objects_create booking (Some "PENDING") "CONFIRMED"
      (request_user request) "Payment completed successfully" ;;;
    (* Send confirmation email *)
    send_booking_confirmation_email booking ;;;
    ret (redirect "bookings:payment_success" (Booking.booking_id booking), booking)
  else
    (* Payment failed *)
    messages_error "Payment processing failed. Please try again." [] ;;;
    ret (redirect "bookings:payment_failure" (Booking.booking_id booking), booking).

End PaymentView.

Module BookingCancelView.

(** [post], for the booking that [dispatch] stored in [self.booking]: the
    response and the booking instance as the view leaves it. *)
Definition post (request : HttpRequest CancellationData) (booking : Booking.instance)
  : M (HttpResponse * Booking.instance) :=
  e <- ask ;;
  form <- lift (CancellationForm.init (now e)
                  [VCancellationData (request_POST request)]
                  [("booking", VBooking booking)]) ;;
  if CancellationForm.is_valid form then
    (* Cancel booking *)
    let booking := Booking.with_status "CANCELLED" booking in
    now <- timezone_now ;;
    let booking := Booking.with_cancellation_date (Some now) booking in
    booking <- Booking.save (Some ["status"; "cancellation_date"]) booking ;;
    (* Restore seat availability *)
    r <- TravelOption.call "restore_available_seats"
           (Booking.travel_option booking) (Booking.number_of_seats booking) ;;
    let booking := Booking.with_travel_option (snd r) booking in
    (* Create booking history *)
    BookingHistory_objects_create booking (Some "CONFIRMED") "CANCELLED"
      (request_user request) (CancellationForm.cleaned_cancellation_reason form) ;;;
    messages_success
      "Booking {} has been cancelled successfully. Refund of {:.2f} will be processed within 5-7 business days."
      [ArgStr (Booking.booking_id booking);
       ArgNum (Booking.refund_amount now booking)] ;;;
    ret (redirect "bookings:detail" (Booking.booking_id booking), booking)
  else
    ret (render "bookings/cancel.html", booking).

(** [dispatch] of a POST request for [booking_id]. *)
Definition dispatch (request : HttpRequest CancellationData) (booking_id : string)
  : M (HttpResponse * option Booking.instance) :=
  booking <- Booking.objects_get (fun r =>
               String.eqb (Booking.booking_id r) booking_id
               && bool_decide (Booking.user r = request_user request)
               && String.eqb (Booking.status r) "CONFIRMED") ;;
  (* Check if cancellation is allowed *)
  now <- timezone_now ;;
  if TravelOption.departure_datetime (Booking.travel_option booking)
       <=? now + timedelta_hours 24
  then
    messages_error "Cancellation is not allowed within 24 hours of departure." [] ;;;
    ret (redirect "bookings:detail" (Booking.booking_id booking), Some booking)
  else
    r <- post request booking ;;
    ret (fst r, Some (snd r)).

End BookingCancelView.

Module BookingCreateView.

(** [post], for the travel option that [dispatch] stored in
    [self.travel_option]. *)
Definition post (request : HttpRequest BookingData) (travel_option : TravelOption.t)
  : M HttpResponse :=
  form <- lift (BookingForm.init
                  [VBookingData (request_POST request)]
                  [("travel_option", VTravelOption travel_option);
                   ("user", VUser (request_user request))]) ;;
  if BookingForm.is_valid form then
    (* Create booking *)
    r <- BookingForm.save true form ;;
    let booking := fst r in
    (* Create booking history entry *)
    BookingHistory_objects_create booking None "PENDING"
      (request_user request) "Booking created" ;;;
    messages_success "Booking created successfully! Your booking ID is {}"
      [ArgStr (Booking.booking_id booking)] ;;;
    (* Redirect to passenger details if multiple seats *)
    if Booking.number_of_seats booking >? 1
    then ret (redirect "bookings:passengers" (Booking.booking_id booking))
    else ret (redirect "bookings:confirm" (Booking.booking_id booking))
  else
    ret (render "bookings/create.html").

(** [dispatch] of a POST request for the travel option [travel_option_pk]. *)
Definition dispatch (request : HttpRequest BookingData) (travel_option_pk : Z)
  : M HttpResponse :=
  (* Get travel option *)
  w <- get ;;
  travel_option <-
    match travel_options w !! travel_option_pk with
    | Some o => if String.eqb (TravelOption.status o) "ACTIVE" then ret o else raise Http404
    | None => raise Http404
    end ;;
  (* Check availability *)
  if TravelOption.available_seats travel_option =? 0 then
    messages_error "This travel option is fully booked." [] ;;;
    ret (redirect "travel:detail" (pretty (TravelOption.pk travel_option)))
  else
    now <- timezone_now ;;
    if TravelOption.departure_datetime travel_option <=? now then
      messages_error "Cannot book past travel options." [] ;;;
      ret (redirect "travel:detail" (pretty (TravelOption.pk travel_option)))
    else post request travel_option.

End BookingCreateView.

(** ** [src/bookings/forms.py]: [PassengerFormSet] *)

Module PassengerFormSet.

(** The cleaned data of one passenger form that [clean] reads. *)
Record PassengerData : Type := mkPassengerData {
  first_name : string;
  last_name : string;
  date_of_birth : Z;
  DELETE : bool
}.

(** A form of the set after its own cleaning: whether it has errors, and
    its [cleaned_data], which is empty ([None]) for a form left blank. *)
Record PassengerForm : Type := mkPassengerForm {
  has_errors : bool;
  cleaned_data : option PassengerData
}.

(** The loop of [clean]: [passengers] are the keys seen so far; the [inr]
    is the [ValidationError]. *)
Fixpoint clean_loop (forms : list PassengerForm) (passengers : list (string * string * Z))
  : unit + string :=
  match forms with
  | [] => inl tt
  | form :: forms' =>
      match cleaned_data form with
      | Some d =>
          if negb (DELETE d) then
            let passenger_key := (first_name d, last_name d, date_of_birth d) in
            if bool_decide (passenger_key ∈ passengers)
            then inr "Duplicate passenger information found."
            else clean_loop forms' (passengers ++ [passenger_key])
          else clean_loop forms' passengers
      | None => clean_loop forms' passengers
      end
  end.

(** Validate the formset *)
Definition clean (forms : list PassengerForm) : unit + string :=
  if existsb has_errors forms then inl tt
  else
    (* Check for duplicate passengers (same name and DOB) *)
    clean_loop forms [].

End PassengerFormSet.

(** ** [src/travel/forms.py] *)

Module TravelOptionForm.

(** The [cleaned_data] that [clean] reads; a field that did not validate is
    missing. *)
Record CleanedData : Type := mkCleanedData {
  departure_datetime : option Z;
  arrival_datetime : option Z;
  available_seats : option Z;
  total_seats : option Z
}.

(** The truth value of an [int] that may be missing. *)
Definition truthy (v : option Z) : bool :=
  match v with
  | Some n => negb (n =? 0)
  | None => false
  end.

(** [clean]: the [inr] is the [ValidationError]. *)
Definition clean (cleaned_data : CleanedData) : CleanedData + string :=
  (* Validate datetime *)
  let late :=
    match departure_datetime cleaned_data, arrival_datetime cleaned_data with
    | Some departure, Some arrival => departure >=? arrival
    | _, _ => false
    end in
  if late then inr "Arrival time must be after departure time."
  else
    (* Validate seats *)
    let too_many :=
      if truthy (available_seats cleaned_data) && truthy (total_seats cleaned_data) then
        match available_seats cleaned_data, total_seats cleaned_data with
        | Some available, Some total => available >? total
        | _, _ => false
        end
      else false in
    if too_many then inr "Available seats cannot exceed total seats."
    else inl cleaned_data.

End TravelOptionForm.

Module TravelSearchForm.

(** The [cleaned_data] that [clean] reads: dates as day numbers, prices in
    hundredths; a field left empty or refused is missing. *)
Record CleanedData : Type := mkCleanedData {
  departure_date : option Z;
  return_date : option Z;
  min_price : option Z;
  max_price : option Z
}.

(** [clean] on the day [today] ([timezone.now().date()]). *)
Definition clean (today : Z) (cleaned_data : CleanedData) : CleanedData + string :=
  (* Validate date range *)
  let past :=
    match departure_date cleaned_data with
    | Some departure => departure <? today
    | None => false
    end in
  if past then inr "Departure date cannot be in the past."
  else
    let before :=
      match return_date cleaned_data, departure_date cleaned_data with
      | Some back, Some departure => back <? departure
      | _, _ => false
      end in
    if before then inr "Return date must be after departure date."
    else
      (* Validate price range *)
      let crossed :=
        if TravelOptionForm.truthy (min_price cleaned_data)
           && TravelOptionForm.truthy (max_price cleaned_data) then
          match min_price cleaned_data, max_price cleaned_data with
          | Some low, Some high => low >? high
          | _, _ => false
          end
        else false in
      if crossed then inr "Minimum price cannot be greater than maximum price."
      else inl cleaned_data.

End TravelSearchForm.

(** ** [src/travel/views.py]: [TravelOptionDetailView] *)

Module TravelOptionDetailView.

(** The entries of the context that tell whether the option can be
    booked. *)
Record Context : Type := mkContext {
  availability_status : string;
  booking_allowed : bool
}.

Definition get_context_data (travel : TravelOption.t) : M Context :=
  (* Check availability status *)
  let availability_status :=
    if TravelOption.available_seats travel =? 0 then "sold_out"
    else if TravelOption.available_seats travel <=? 5 then "limited"
    else "available" in
  now <- timezone_now ;;
  ret (mkContext availability_status
         ((TravelOption.available_seats travel >? 0)
          && (TravelOption.departure_datetime travel >? now))).

End TravelOptionDetailView.

(** ** [src/bookings/views.py]: the views of one booking *)

Module BookingDetailView.

(** The entries of the context on cancellation. *)
Record Context : Type := mkContext {
  can_cancel : bool;
  refund_amount : PyNum + Booking.MethodResult
}.

Definition get_context_data (booking : Booking.instance) : M Context :=
  (* Cancellation eligibility *)
  now <- timezone_now ;;
  let can_cancel :=
    String.eqb (Booking.status booking) "CONFIRMED"
    && (TravelOption.departure_datetime (Booking.travel_option booking)
        >? now + timedelta_hours 24) in
  (* Refund calculation *)
  refund_amount <-
    (if can_cancel
     then (r <- Booking.call "calculate_refund_amount" booking ;; ret (inr r))
     else ret (inl (PyInt 0))) ;;
  ret (mkContext can_cancel refund_amount).

End BookingDetailView.

Module BookingConfirmView.

(** [get_queryset] and [get_object]: the booking of the user with this
    [booking_id] that is PENDING, or [Http404]. *)
Definition get_object (request : HttpRequest unit) (booking_id : string)
  : M Booking.instance :=
  Booking.objects_get (fun r =>
    bool_decide (Booking.user r = request_user request)
    && String.eqb (Booking.status r) "PENDING"
    && String.eqb (Booking.booking_id r) booking_id).

(** [post]: the response and the booking instance as the view leaves it. *)
Definition post (request : HttpRequest unit) (booking_id : string)
  : M (HttpResponse * Booking.instance) :=
  booking <- get_object request booking_id ;;
  (* Confirm booking and redirect to payment *)
  now <- timezone_now ;;
  let booking := Booking.with_confirmation_date (Some now) booking in
  booking <- Booking.save (Some ["confirmation_date"]) booking ;;
  ret (redirect "bookings:payment" (Booking.booking_id booking), booking).

End BookingConfirmView.

(** ** [src/bookings/admin.py]: the actions of [BookingAdmin] *)

Module BookingAdmin.

(** The selected bookings that pass a filter on the stored row, as the
    evaluated queryset of the action holds them: [selected] are the keys in
    the order in which the database returns the rows, and every instance
    has a travel option instance of its own ([select_related]), read
    before the loop starts. *)
Definition queryset (selected : list Z) (p : Booking.row -> bool)
  : M (list Booking.instance) :=
  w <- get ;;
  ret (omap (fun k =>
               r ← bookings w !! k;
               if p r then Booking.from_row w r else None) selected).

(** [self.message_user(request, text)] *)
Definition message_user (text : string) (args : list MessageArg) : M unit :=
  modify (fun w => with_messages (messages w ++ [mkMessage "info" text args]) w).

(** The [for] loop of [confirm_bookings]. *)
Fixpoint confirm_loop (queryset : list Booking.instance) (updated : Z) : M Z :=
  match queryset with
  | [] => ret updated
  | booking :: queryset' =>
      r <- Booking.confirm_booking booking ;;
      if fst r then confirm_loop queryset' (updated + 1)
      else confirm_loop queryset' updated
  end.

Definition confirm_bookings (selected : list Z) : M Z :=
  bookings <- queryset selected (fun r => String.eqb (Booking.status r) "PENDING") ;;
  updated <- confirm_loop bookings 0 ;;
  message_user "{} bookings confirmed." [ArgNum (PyInt updated)] ;;;
  ret updated.

(** The [for] loop of [cancel_bookings]. *)
Fixpoint cancel_loop (queryset : list Booking.instance) (updated : Z) : M Z :=
  match queryset with
  | [] => ret updated
  | booking :: queryset' =>
      r <- Booking.cancel_booking booking ;;
      if fst r then cancel_loop queryset' (updated + 1)
      else cancel_loop queryset' updated
  end.

Definition cancel_bookings (selected : list Z) : M Z :=
  bookings <- queryset selected (fun r => String.eqb (Booking.status r) "CONFIRMED") ;;
  updated <- cancel_loop bookings 0 ;;
  message_user "{} bookings cancelled." [ArgNum (PyInt updated)] ;;;
  ret updated.

End BookingAdmin.

(** ** Call sequences and scenarios *)

(** A call of one of the two seat operations. *)
Inductive SeatCall : Type :=
| call_reduce (count : Z)
| call_increase (count : Z).

Definition seat_call_count (c : SeatCall) : Z :=
  match c with
  | call_reduce count => count
  | call_increase count => count
  end.

Definition run_seat_call (c : SeatCall) (self : TravelOption.t) : M (bool * TravelOption.t) :=
  match c with
  | call_reduce count => TravelOption.reduce_available_seats self count
  | call_increase count => TravelOption.increase_available_seats self count
  end.

(** The calls of a sequence, one after the other on the same instance. *)
Fixpoint run_seat_calls (cs : list SeatCall) (self : TravelOption.t) : M TravelOption.t :=
  match cs with
  | [] => ret self
  | c :: cs' => r <- run_seat_call c self ;; run_seat_calls cs' (snd r)
  end.

(** The invariant of the seat pool. *)
Definition seat_invariant (o : TravelOption.t) : Prop :=
  0 <= TravelOption.available_seats o <= TravelOption.total_seats o.

(** What can happen to a booking after its creation: a call of one of its
    methods, a save, or a new price on its travel option (the instance the
    booking holds is edited and saved, as the admin form does). *)
Inductive LaterOp : Type :=
| op_confirm_booking
| op_cancel_booking
| op_save (update_fields : option (list string))
| op_change_base_price (price : Z).

Definition run_later_op (op : LaterOp) (b : Booking.instance) : M Booking.instance :=
  match op with
  | op_confirm_booking => r <- Booking.confirm_booking b ;; ret (snd r)
  | op_cancel_booking => r <- Booking.cancel_booking b ;; ret (snd r)
  | op_save update_fields => Booking.save update_fields b
  | op_change_base_price price =>
      o <- TravelOption.save None
             (TravelOption.with_base_price price (Booking.travel_option b)) ;;
      ret (Booking.with_travel_option o b)
  end.

(** A sequence of later operations, each in the environment of its own
    request. *)
Fixpoint run_later_ops (ops : list (Env * LaterOp)) (b : Booking.instance) (w : World)
  : Res Booking.instance * World :=
  match ops with
  | [] => (Ok b, w)
  | (e, op) :: ops' =>
      match run_later_op op b e w with
      | (Ok b', w') => run_later_ops ops' b' w'
      | (Raise x, w') => (Raise x, w')
      end
  end.

(** The total price that the stored row of a booking holds, if there is a
    stored row. *)
Definition stored_total_price (b : Booking.instance) (w : World) : option Z :=
  k ← Booking.pk b;
  r ← bookings w !! k;
  Some (Booking.total_price r).

(** What a successful [cancel_booking] does to the seats: the count that
    [increase_available_seats] leaves. *)
Definition seats_after_cancel (o : TravelOption.t) (seats : Z) : Z :=
  if TravelOption.available_seats o + seats <=? TravelOption.total_seats o
  then TravelOption.available_seats o + seats
  else TravelOption.available_seats o.

(** *** Sample data, after the fixtures of [bookings/tests.py] *)

Definition sample_now : Z := 1700000000000000.

Definition days (n : Z) : Z := n * microseconds_per_day.

Definition sample_env : Env := mkEnv sample_now (fun k => "0123456") 0.5%float.

(** A flight from Mumbai to Delhi at 5000.00 that leaves [ahead] from
    [sample_now], with [available] of [total] seats free. *)
Definition sample_flight (ahead available total : Z) : TravelOption.t :=
  TravelOption.mk 1 "FL000001" "FLIGHT" "Mumbai" "Delhi"
    (sample_now + ahead) (sample_now + ahead + timedelta_hours 2) (timedelta_hours 2)
    500000 available total "ACTIVE".

(** A stored booking of user 7 for [seats] seats of [o] at 10000.00. *)
Definition sample_booking (o : TravelOption.t) (seats : Z) (status payment_status : string)
  : Booking.instance :=
  Booking.mk (Some 1) "TKT0000001" 7 o seats 1000000 status payment_status None None.

(** The database that holds [b] and its travel option. *)
Definition sample_world (b : Booking.instance) : World :=
  mkWorld {[ TravelOption.pk (Booking.travel_option b) := Booking.travel_option b ]}
          {[ 1 := Booking.to_row b ]} 2 [] ∅ [].


(** The data of a valid booking form for [seats] seats. *)
Definition sample_data (seats : Z) : BookingData :=
  mkBookingData (Value seats) (Value "test@example.com") (Value "9876543210") "" true.

(** The booking form of user 7 for the travel option [o], bound to [d]. *)
Definition sample_form (o : TravelOption.t) (d : BookingData) : BookingForm.t :=
  BookingForm.mk (Some o) 7 (Some d).

(** The database that holds the travel option [o] and no booking yet. *)
Definition sample_inventory (o : TravelOption.t) : World :=
  mkWorld {[ TravelOption.pk o := o ]} ∅ 1 [] ∅ [].

(** A request of user 7 to pay, and one to cancel. *)
Definition sample_payment_request : HttpRequest string :=
  mkHttpRequest 7 "card".

Definition sample_cancellation_request : HttpRequest CancellationData :=
  mkHttpRequest 7 (mkCancellationData (Value "Travel plans changed") true).

(** The environment of a request in which the payment draw fails. *)
Definition sample_env_failed_draw : Env :=
  mkEnv sample_now (choices sample_env) 0.97%float.

(** *** Calls of the two transitions, one after the other *)

Inductive LifecycleCall : Type :=
| call_confirm_booking
| call_cancel_booking.

Definition run_lifecycle_call (c : LifecycleCall) (b : Booking.instance)
  : M (bool * Booking.instance) :=
  match c with
  | call_confirm_booking => Booking.confirm_booking b
  | call_cancel_booking => Booking.cancel_booking b
  end.

(** A sequence of calls on the same instance, each in the environment of its
    own request: the calls with what they returned, and the instance at the
    end. *)
Fixpoint run_lifecycle (calls : list (Env * LifecycleCall)) (b : Booking.instance) (w : World)
  : Res (list (LifecycleCall * bool) * Booking.instance) * World :=
  match calls with
  | [] => (Ok ([], b), w)
  | (e, c) :: calls' =>
      match run_lifecycle_call c b e w with
      | (Ok (ok, b'), w') =>
          match run_lifecycle calls' b' w' with
          | (Ok (results, b''), w'') => (Ok ((c, ok) :: results, b''), w'')
          | (Raise x, w'') => (Raise x, w'')
          end
      | (Raise x, w') => (Raise x, w')
      end
  end.

(** How many calls of [confirm_booking], and of [cancel_booking], returned
    true. *)
Definition confirmations (results : list (LifecycleCall * bool)) : nat :=
  length (List.filter (fun r => match r with (call_confirm_booking, true) => true | _ => false end)
                      results).

Definition cancellations (results : list (LifecycleCall * bool)) : nat :=
  length (List.filter (fun r => match r with (call_cancel_booking, true) => true | _ => false end)
                      results).

(** Every stored booking is stored under its own primary key, as every row
    that [save] wrote is. *)
Definition bookings_keyed (w : World) : Prop :=
  forall k r, bookings w !! k = Some r -> Booking.pk r = Some k.

(** The keys of the passengers that [PassengerFormSet.clean] compares. *)
Definition passenger_keys (forms : list PassengerFormSet.PassengerForm)
  : list (string * string * Z) :=
  omap (fun form =>
          d ← PassengerFormSet.cleaned_data form;
          if PassengerFormSet.DELETE d then None
          else Some (PassengerFormSet.first_name d, PassengerFormSet.last_name d,
                     PassengerFormSet.date_of_birth d))
       forms.

(** Two confirmed bookings of user 7 on the same flight, of 2 and of 3
    seats, and the database that holds them. *)
Definition sample_second_booking (o : TravelOption.t) (seats : Z) : Booking.instance :=
  Booking.mk (Some 2) "TKT0000002" 7 o seats 1500000 "CONFIRMED" "COMPLETED" None None.

Definition sample_world_two_bookings (o : TravelOption.t) : World :=
  mkWorld {[ TravelOption.pk o := o ]}
          (<[ 2 := Booking.to_row (sample_second_booking o 3) ]>
             {[ 1 := Booking.to_row (sample_booking o 2 "CONFIRMED" "COMPLETED") ]})
          3 [] ∅ [].

(** Every stored booking refers to a stored travel option, as the foreign
    key of the table demands. *)
Definition bookings_refer (w : World) : Prop :=
  forall k r, bookings w !! k = Some r ->
              is_Some (travel_options w !! Booking.travel_option r).

(** The selected keys whose stored booking has the status [s]. *)
Definition selected_with_status (s : string) (selected : list Z) (w : World) : list Z :=
  List.filter (fun k => match bookings w !! k with
                        | Some r => String.eqb (Booking.status r) s
                        | None => false
                        end) selected.

(** * Properties *)

(** ** Running a request *)

Lemma bind_ok {A B : Type} (c : M A) (k : A -> M B) e w a w' :
  c e w = (Ok a, w') -> bind c k e w = k a e w'.
Proof. intros H. unfold bind. rewrite H. reflexivity. Qed.

(** ** Seat inventory *)

(** Saving a travel option never raises, and leaves the seat counters of
    the instance as they are. *)
Lemma TravelOption_save_ok update_fields (self : TravelOption.t) e w :
  exists self' w',
    TravelOption.save update_fields self e w = (Ok self', w')
    /\ TravelOption.available_seats self' = TravelOption.available_seats self
    /\ TravelOption.total_seats self' = TravelOption.total_seats self
    /\ TravelOption.pk self' = TravelOption.pk self
    /\ TravelOption.departure_datetime self' = TravelOption.departure_datetime self
    /\ TravelOption.base_price self' = TravelOption.base_price self
    /\ bookings w' = bookings w
    /\ booking_history w' = booking_history w
    /\ messages w' = messages w.
Proof.
  unfold TravelOption.save, TravelOption.generate_travel_id, TravelOption.Model_save.
  destruct (String.eqb _ ""); destruct update_fields; cbn;
    eexists; eexists; repeat split; reflexivity.
Qed.

Lemma reduce_available_seats_true (self : TravelOption.t) (n : Z) e w :
  n <= TravelOption.available_seats self ->
  exists self' w',
    TravelOption.reduce_available_seats self n e w = (Ok (true, self'), w')
    /\ TravelOption.available_seats self'
       = TravelOption.available_seats self - n
    /\ TravelOption.total_seats self' = TravelOption.total_seats self.
Proof.
  intros Hn. unfold TravelOption.reduce_available_seats.
  destruct (Z.geb_spec (TravelOption.available_seats self) n) as [_ | Hlt]; [| lia].
  destruct (TravelOption_save_ok (Some ["available_seats"])
              (TravelOption.with_available_seats
                 (TravelOption.available_seats self - n) self) e w)
    as (self' & w' & Hrun & Ha & Ht & _).
  exists self', w'. rewrite (bind_ok _ _ _ _ _ _ Hrun). cbn in *. auto.
Qed.

Lemma reduce_available_seats_false (self : TravelOption.t) (n : Z) e w :
  TravelOption.available_seats self < n ->
  TravelOption.reduce_available_seats self n e w = (Ok (false, self), w).
Proof.
  intros Hn. unfold TravelOption.reduce_available_seats.
  destruct (Z.geb_spec (TravelOption.available_seats self) n); [lia | reflexivity].
Qed.

Lemma increase_available_seats_true (self : TravelOption.t) (n : Z) e w :
  TravelOption.available_seats self + n <= TravelOption.total_seats self ->
  exists self' w',
    TravelOption.increase_available_seats self n e w = (Ok (true, self'), w')
    /\ TravelOption.available_seats self'
       = TravelOption.available_seats self + n
    /\ TravelOption.total_seats self' = TravelOption.total_seats self.
Proof.
  intros Hn. unfold TravelOption.increase_available_seats.
  destruct (Z.leb_spec (TravelOption.available_seats self + n)
              (TravelOption.total_seats self)) as [_ | Hlt]; [| lia].
  destruct (TravelOption_save_ok (Some ["available_seats"])
              (TravelOption.with_available_seats
                 (TravelOption.available_seats self + n) self) e w)
    as (self' & w' & Hrun & Ha & Ht & _).
  exists self', w'. rewrite (bind_ok _ _ _ _ _ _ Hrun). cbn in *. auto.
Qed.

Lemma increase_available_seats_false (self : TravelOption.t) (n : Z) e w :
  TravelOption.total_seats self < TravelOption.available_seats self + n ->
  TravelOption.increase_available_seats self n e w = (Ok (false, self), w).
Proof.
  intros Hn. unfold TravelOption.increase_available_seats.
  destruct (Z.leb_spec (TravelOption.available_seats self + n)
              (TravelOption.total_seats self)); [lia | reflexivity].
Qed.

Lemma increase_available_seats_cases (self : TravelOption.t) (n : Z) e w :
  ((exists self' w', TravelOption.increase_available_seats self n e w = (Ok (true, self'), w'))
     <-> TravelOption.available_seats self + n <= TravelOption.total_seats self)
  /\ (forall self' w',
        TravelOption.increase_available_seats self n e w = (Ok (true, self'), w') ->
        TravelOption.available_seats self' = TravelOption.available_seats self + n)
  /\ (~ TravelOption.available_seats self + n <= TravelOption.total_seats self ->
        TravelOption.increase_available_seats self n e w = (Ok (false, self), w)).
Proof.
  destruct (Z_le_gt_dec (TravelOption.available_seats self + n)
              (TravelOption.total_seats self)) as [H | H].
  - destruct (increase_available_seats_true self n e w H) as (r & wr & Hrun & Hseats & _).
    rewrite Hrun. repeat split; intros; try lia; eauto.
    congruence.
  - rewrite (increase_available_seats_false self n e w) by lia.
    repeat split; intros; try lia; try discriminate.
    destruct H0 as (? & ? & ?). discriminate.
Qed.

(** *** The seat methods against the table and its constraints *)

Lemma alter_stored {A : Type} (f : A -> A) (k : Z) (m : gmap Z A) (x : A) :
  m !! k = Some x -> alter f k m = <[k := f x]> m.
Proof.
  intros Hk. apply map_eq. intros i. destruct (decide (i = k)) as [-> | Hne].
  - rewrite lookup_alter_eq, lookup_insert_eq, Hk. reflexivity.
  - rewrite lookup_alter_ne, lookup_insert_ne by congruence. reflexivity.
Qed.

Lemma copy_column_available_seats (self row : TravelOption.t) :
  TravelOption.copy_column "available_seats" self row
  = TravelOption.with_available_seats (TravelOption.available_seats self) row.
Proof. reflexivity. Qed.

(** A count that is not negative passes the constraints of a row that
    passes them. *)
Lemma failed_check_with_available_seats (row : TravelOption.t) (v : Z) :
  TravelOption.failed_check row = None ->
  0 <= v ->
  TravelOption.failed_check (TravelOption.with_available_seats v row) = None.
Proof.
  unfold TravelOption.failed_check. cbn. intros Hrow Hv.
  destruct (Z.ltb_spec v 0) as [Hneg | _]; [lia |].
  destruct (TravelOption.available_seats row <? 0); [discriminate | exact Hrow].
Qed.



(** Where the constraints of the table hold, the methods run against the
    table as they run without it. *)
Lemma constrained_save_agrees (self row : TravelOption.t) e w :
  travel_options w !! TravelOption.pk self = Some row ->
  TravelOption.failed_check row = None ->
  0 <= TravelOption.available_seats self ->
  TravelOption.Constrained.save ["available_seats"] self e w
  = TravelOption.save (Some ["available_seats"]) self e w.
Proof.
  intros Hrow Hcheck Ha.
  unfold TravelOption.Constrained.save, TravelOption.Constrained.Model_save,
    TravelOption.save, TravelOption.Model_save,
    TravelOption.generate_travel_id, bind, ret, ask, get, modify, raise.
  pose proof (failed_check_with_available_seats row _ Hcheck Ha) as Hnew.
  destruct (String.eqb _ ""); cbn [fold_left]; cbn beta;
    cbn [TravelOption.pk TravelOption.with_duration TravelOption.with_travel_id];
    rewrite Hrow, (alter_stored _ _ _ _ Hrow), !copy_column_available_seats;
    cbn [TravelOption.available_seats TravelOption.total_seats
           TravelOption.with_duration TravelOption.with_travel_id];
    rewrite Hnew; reflexivity.
Qed.

Lemma constrained_seat_calls_agree (self row : TravelOption.t) (n : Z) e w :
  travel_options w !! TravelOption.pk self = Some row ->
  TravelOption.failed_check row = None ->
  0 <= TravelOption.available_seats self ->
  0 <= n ->
  TravelOption.Constrained.reduce_available_seats self n e w
  = TravelOption.reduce_available_seats self n e w
  /\ TravelOption.Constrained.increase_available_seats self n e w
     = TravelOption.increase_available_seats self n e w.
Proof.
  intros Hrow Hcheck Ha Hn.
  unfold TravelOption.Constrained.reduce_available_seats,
    TravelOption.Constrained.increase_available_seats,
    TravelOption.reduce_available_seats, TravelOption.increase_available_seats.
  split.
  - destruct (Z.geb_spec (TravelOption.available_seats self) n); [| reflexivity].
    unfold bind. rewrite constrained_save_agrees with (row := row);
      [reflexivity | exact Hrow | exact Hcheck | cbn; lia].
  - destruct (Z.leb_spec (TravelOption.available_seats self + n)
                (TravelOption.total_seats self)); [| reflexivity].
    unfold bind. rewrite constrained_save_agrees with (row := row);
      [reflexivity | exact Hrow | exact Hcheck | cbn; lia].
Qed.






(** One call with a count that is not negative keeps the invariant, whether
    it succeeds or not. *)
Lemma run_seat_call_invariant (c : SeatCall) (self : TravelOption.t) e w :
  seat_invariant self -> 0 <= seat_call_count c ->
  exists ok self' w',
    run_seat_call c self e w = (Ok (ok, self'), w') /\ seat_invariant self'.
Proof.
  unfold seat_invariant. intros Hinv Hc. destruct c as [n | n]; cbn in *.
  - destruct (Z_le_gt_dec n (TravelOption.available_seats self)) as [H | H].
    + destruct (reduce_available_seats_true self n e w H) as (r & wr & Hrun & Ha & Ht).
      exists true, r, wr. split; [exact Hrun | lia].
    + exists false, self, w. split; [| lia].
      apply reduce_available_seats_false. lia.
  - destruct (Z_le_gt_dec (TravelOption.available_seats self + n)
                (TravelOption.total_seats self)) as [H | H].
    + destruct (increase_available_seats_true self n e w H) as (r & wr & Hrun & Ha & Ht).
      exists true, r, wr. split; [exact Hrun | lia].
    + exists false, self, w. split; [| lia].
      apply increase_available_seats_false. lia.
Qed.

(** C2, as amended.  From a travel option with
    [0 <= available_seats <= total_seats], every finite sequence of
    [reduce_available_seats(n)] and [increase_available_seats(n)] calls whose
    counts are not negative runs to its end and leaves
    [0 <= available_seats <= total_seats]. *)
Theorem seat_invariant_preserved
    (cs : list SeatCall) (self : TravelOption.t) (e : Env) (w : World) :
  seat_invariant self ->
  Forall (fun c => 0 <= seat_call_count c) cs ->
  exists self' w',
    run_seat_calls cs self e w = (Ok self', w') /\ seat_invariant self'.
Proof.
  intros Hinv Hcs. revert self w Hinv.
  induction Hcs as [| c cs Hc _ IH]; intros self w Hinv.
  - exists self, w. split; [reflexivity | exact Hinv].
  - destruct (run_seat_call_invariant c self e w Hinv Hc)
      as (ok & self1 & w1 & Hrun & Hinv1).
    destruct (IH self1 w1 Hinv1) as (self' & w' & Hrest & Hinv').
    exists self', w'. split; [| exact Hinv'].
    cbn [run_seat_calls]. rewrite (bind_ok _ _ _ _ _ _ Hrun). exact Hrest.
Qed.

(** The theorem at work: 30 seats booked of 100, 10 given back, and a
    request for 200 that is refused. *)
Lemma seat_invariant_preserved_witness :
  exists self' w',
    run_seat_calls [call_reduce 30; call_increase 10; call_reduce 200]
      (sample_flight (days 8) 100 100) sample_env
      (sample_world (sample_booking (sample_flight (days 8) 100 100) 2 "PENDING" "PENDING"))
    = (Ok self', w')
    /\ seat_invariant self'.
Proof.
  apply seat_invariant_preserved.
  - unfold seat_invariant. cbn. lia.
  - repeat constructor; cbn; lia.
Defined.

(** C2, as stated, fails: a negative count passes the test of
    [reduce_available_seats] and adds seats beyond [total_seats]. *)
Lemma seat_invariant_broken_by_negative_count :
  seat_invariant (sample_flight (days 8) 10 10)
  /\ exists self' w',
       run_seat_calls [call_reduce (-5)] (sample_flight (days 8) 10 10) sample_env
         (sample_world (sample_booking (sample_flight (days 8) 10 10) 2 "PENDING" "PENDING"))
       = (Ok self', w')
       /\ TravelOption.available_seats self' = 15
       /\ TravelOption.total_seats self' = 10
       /\ ~ seat_invariant self'.
Proof.
  split.
  - unfold seat_invariant. cbn. lia.
  - eexists. eexists. split; [vm_compute; reflexivity |].
    unfold seat_invariant. cbn. lia.
Qed.

(** What a seat operation leaves alone, and what it stores: the column
    [available_seats] of the stored row of the travel option, when the call
    succeeds. *)
Lemma run_seat_call_frame (c : SeatCall) (self : TravelOption.t) e w :
  exists ok self' w',
    run_seat_call c self e w = (Ok (ok, self'), w')
    /\ TravelOption.pk self' = TravelOption.pk self
    /\ TravelOption.total_seats self' = TravelOption.total_seats self
    /\ TravelOption.departure_datetime self' = TravelOption.departure_datetime self
    /\ TravelOption.base_price self' = TravelOption.base_price self
    /\ bookings w' = bookings w
    /\ bookings_next_pk w' = bookings_next_pk w
    /\ booking_history w' = booking_history w
    /\ messages w' = messages w
    /\ travel_options w'
       = (if ok
          then alter (TravelOption.with_available_seats (TravelOption.available_seats self'))
                     (TravelOption.pk self) (travel_options w)
          else travel_options w).
Proof.
  destruct c as [n | n]; cbn [run_seat_call].
  - unfold TravelOption.reduce_available_seats.
    destruct (TravelOption.available_seats self >=? n).
    + unfold TravelOption.save, TravelOption.generate_travel_id, TravelOption.Model_save,
        bind, ret, ask, modify.
      destruct self; cbn. destruct (String.eqb _ ""); cbn;
        eexists; eexists; eexists; (split; [reflexivity |]); cbn;
        repeat split; reflexivity.
    + exists false, self, w. repeat split; reflexivity.
  - unfold TravelOption.increase_available_seats.
    destruct (TravelOption.available_seats self + n <=? TravelOption.total_seats self).
    + unfold TravelOption.save, TravelOption.generate_travel_id, TravelOption.Model_save,
        bind, ret, ask, modify.
      destruct self; cbn. destruct (String.eqb _ ""); cbn;
        eexists; eexists; eexists; (split; [reflexivity |]); cbn;
        repeat split; reflexivity.
    + exists false, self, w. repeat split; reflexivity.
Qed.

(** ** Cancellation eligibility and refund *)

Lemma hasattr_can_be_cancelled : TravelOption.hasattr "can_be_cancelled" = true.
Proof. vm_compute. reflexivity. Qed.

Lemma timedelta_24_hours : timedelta_hours 24 = microseconds_per_day.
Proof. reflexivity. Qed.

Lemma microseconds_per_day_pos : 0 < microseconds_per_day.
Proof. reflexivity. Qed.

Lemma status_in_cancelled_completed (s : string) :
  existsb (String.eqb s) ["CANCELLED"; "COMPLETED"] = false
  <-> s <> "CANCELLED" /\ s <> "COMPLETED".
Proof.
  cbn [existsb]. rewrite !orb_false_iff, !String.eqb_neq. tauto.
Qed.

(** When the property is true, in terms of the status and the clock. *)
Lemma can_be_cancelled_true (now : Z) (b : Booking.instance) :
  Booking.can_be_cancelled now b = true <->
    Booking.status b <> "CANCELLED" /\ Booking.status b <> "COMPLETED"
    /\ now < TravelOption.departure_datetime (Booking.travel_option b)
             - microseconds_per_day.
Proof.
  unfold Booking.can_be_cancelled, Booking.is_past_travel,
    TravelOption.can_be_cancelled.
  rewrite hasattr_can_be_cancelled, timedelta_24_hours.
  pose proof microseconds_per_day_pos as Hday.
  destruct (existsb _ _) eqn:Hin.
  - split; [discriminate |]. intros (H1 & H2 & _).
    apply not_false_iff_true in Hin. exfalso. apply Hin.
    apply status_in_cancelled_completed. auto.
  - apply status_in_cancelled_completed in Hin.
    destruct (Z.ltb_spec (TravelOption.departure_datetime (Booking.travel_option b)) now).
    + split; [discriminate | lia].
    + rewrite Z.ltb_lt. tauto.
Qed.

(** C1, as amended.  [can_be_cancelled] of a booking is true exactly when
    its status is neither CANCELLED nor COMPLETED and the time is strictly
    more than 24 hours before the departure of its travel option; so it is
    false for a booking that is CANCELLED or COMPLETED, false once the
    departure has passed, and false as well within the last 24 hours before
    departure. *)
Theorem can_be_cancelled_iff (now : Z) (b : Booking.instance) :
  (Booking.can_be_cancelled now b = true <->
     Booking.status b <> "CANCELLED" /\ Booking.status b <> "COMPLETED"
     /\ now < TravelOption.departure_datetime (Booking.travel_option b)
              - timedelta_hours 24)
  /\ (Booking.status b = "CANCELLED" \/ Booking.status b = "COMPLETED" ->
      Booking.can_be_cancelled now b = false)
  /\ (TravelOption.departure_datetime (Booking.travel_option b) < now ->
      Booking.can_be_cancelled now b = false)
  /\ (TravelOption.departure_datetime (Booking.travel_option b) - timedelta_hours 24 <= now ->
      Booking.can_be_cancelled now b = false).
Proof.
  rewrite timedelta_24_hours. pose proof microseconds_per_day_pos.
  pose proof (can_be_cancelled_true now b) as Hiff.
  split; [exact Hiff |].
  repeat split; intros; apply not_true_iff_false; rewrite Hiff; try lia.
  intros (H1 & H2 & _). tauto.
Qed.

(** C1, as stated, fails: a CONFIRMED booking one hour before departure,
    which has not passed, cannot be cancelled. *)
Lemma can_be_cancelled_false_within_24_hours :
  Booking.status
    (sample_booking (sample_flight (timedelta_hours 1) 98 100) 2 "CONFIRMED" "COMPLETED")
  = "CONFIRMED"
  /\ sample_now
     < TravelOption.departure_datetime (sample_flight (timedelta_hours 1) 98 100)
  /\ Booking.is_past_travel sample_now
       (sample_booking (sample_flight (timedelta_hours 1) 98 100) 2 "CONFIRMED" "COMPLETED")
     = false
  /\ Booking.can_be_cancelled sample_now
       (sample_booking (sample_flight (timedelta_hours 1) 98 100) 2 "CONFIRMED" "COMPLETED")
     = false.
Proof. repeat split. Qed.



(** A booking that cannot be cancelled, as any booking within 24 hours of
    its departure, is refunded nothing, whatever its [days_until_travel]. *)
Lemma refund_amount_when_not_cancellable (now : Z) (b : Booking.instance) :
  Booking.can_be_cancelled now b = false -> Booking.refund_amount now b = PyInt 0.
Proof. intros H. unfold Booking.refund_amount. rewrite H. reflexivity. Qed.




(** Eight days ahead, 90% of 10000.00 is refunded; two days ahead, 50%. *)
Example refund_eight_days_ahead :
  Booking.refund_amount sample_now
    (sample_booking (sample_flight (days 8) 98 100) 2 "CONFIRMED" "COMPLETED")
  = PyFloat 9000%float.
Proof. vm_compute. reflexivity. Qed.

Example refund_two_days_ahead :
  Booking.refund_amount sample_now
    (sample_booking (sample_flight (days 2) 98 100) 2 "CONFIRMED" "COMPLETED")
  = PyFloat 5000%float.
Proof. vm_compute. reflexivity. Qed.

(** ** The booking state machine *)

(** An UPDATE of some columns from a row with the same total price leaves
    the total price of the stored row as it is. *)
Lemma copy_column_total_price (f : string) (src dst : Booking.row) :
  Booking.total_price src = Booking.total_price dst ->
  Booking.total_price (Booking.copy_column f src dst) = Booking.total_price dst.
Proof.
  intros H. unfold Booking.copy_column.
  repeat match goal with
  | |- context [if ?c then _ else _] => destruct c
  end; cbn; auto.
Qed.

Lemma copy_columns_total_price (fields : list string) (src dst : Booking.row) :
  Booking.total_price src = Booking.total_price dst ->
  Booking.total_price (fold_left (fun r f => Booking.copy_column f src r) fields dst)
  = Booking.total_price dst.
Proof.
  revert dst. induction fields as [| f fields IH]; intros dst H; cbn; [reflexivity |].
  rewrite IH; rewrite copy_column_total_price; auto.
Qed.

(** [save] never raises.  It leaves every column of the instance but the
    identifier, the primary key and the two dates as it is, stamps a date
    only where none is set, and writes to the table of bookings alone. *)
Lemma Booking_save_ok update_fields (self : Booking.instance) e w :
  exists self' w',
    Booking.save update_fields self e w = (Ok self', w')
    /\ Booking.status self' = Booking.status self
    /\ Booking.payment_status self' = Booking.payment_status self
    /\ Booking.total_price self' = Booking.total_price self
    /\ Booking.number_of_seats self' = Booking.number_of_seats self
    /\ Booking.user self' = Booking.user self
    /\ Booking.travel_option self' = Booking.travel_option self
    /\ Booking.confirmation_date self'
       = (if String.eqb (Booking.status self) "CONFIRMED"
             && negb (bool_decide (is_Some (Booking.confirmation_date self)))
          then Some (now e) else Booking.confirmation_date self)
    /\ Booking.cancellation_date self'
       = (if String.eqb (Booking.status self) "CANCELLED"
             && negb (bool_decide (is_Some (Booking.cancellation_date self)))
          then Some (now e) else Booking.cancellation_date self)
    /\ travel_options w' = travel_options w
    /\ booking_history w' = booking_history w
    /\ popular_routes w' = popular_routes w
    /\ messages w' = messages w
    /\ (forall p, Booking.total_price self = p ->
                  stored_total_price self w = Some p ->
                  stored_total_price self' w' = Some p)
    /\ (update_fields = None ->
        exists k, Booking.pk self' = Some k
                  /\ bookings w' !! k = Some (Booking.to_row self')).
Proof.
  unfold Booking.save, Booking.generate_booking_id, Booking.Model_save, timezone_now.
  destruct self as [pk bid u o n p st pst cd xd]. cbn.
  unfold bind, ret, ask, get, modify.
  destruct (String.eqb bid ""); cbn.
  all: destruct (String.eqb st "CONFIRMED" && negb (bool_decide (is_Some cd))); cbn.
  all: destruct (String.eqb st "CANCELLED" && negb (bool_decide (is_Some xd))); cbn.
  all: destruct update_fields as [fields |]; destruct pk as [k |]; cbn.
  all: eexists; eexists; (split; [reflexivity |]); cbn.
  all: repeat (split; [reflexivity |]).
  all: unfold stored_total_price; cbn.
  all: split; [| try discriminate].
  all: try (intros _; eexists; split; [reflexivity | apply lookup_insert_eq]).
  all: intros p' Hp Hs; try discriminate.
  all: try (rewrite lookup_insert_eq; cbn; congruence).
  all: try (rewrite lookup_alter_eq;
            destruct (bookings w !! k) as [r0 |] eqn:Hr0; cbn in Hs |- *; [| discriminate];
            rewrite copy_columns_total_price; cbn; congruence).
Qed.

(** C4.  [confirm_booking()] returns true exactly when the status is
    PENDING at the call; it then sets the status to CONFIRMED, the payment
    status to COMPLETED and the confirmation date to the time of the call,
    and stores the row.  Otherwise it returns false and neither the
    instance nor the database changes; so a second call right after a
    successful one returns false and leaves everything, the confirmation
    date included, as the first call set it. *)
Theorem confirm_booking_only_from_pending
    (b : Booking.instance) (e : Env) (w : World) :
  ((exists b' w', Booking.confirm_booking b e w = (Ok (true, b'), w'))
     <-> Booking.status b = "PENDING")
  /\ (forall b' w',
        Booking.confirm_booking b e w = (Ok (true, b'), w') ->
        Booking.status b' = "CONFIRMED"
        /\ Booking.payment_status b' = "COMPLETED"
        /\ Booking.confirmation_date b' = Some (now e)
        /\ (exists k, Booking.pk b' = Some k
                      /\ bookings w' !! k = Some (Booking.to_row b'))
        /\ forall e2, Booking.confirm_booking b' e2 w' = (Ok (false, b'), w'))
  /\ (Booking.status b <> "PENDING" ->
      Booking.confirm_booking b e w = (Ok (false, b), w)).
Proof.
  unfold Booking.confirm_booking at 1 2 4.
  destruct (String.eqb_spec (Booking.status b) "PENDING") as [Hp | Hp].
  - unfold timezone_now.
    set (b1 := Booking.with_payment_status "COMPLETED"
                 (Booking.with_confirmation_date (Some (now e))
                    (Booking.with_status "CONFIRMED" b))).
    destruct (Booking_save_ok None b1 e w)
      as (b' & w' & Hrun & Hst & Hpay & _ & _ & _ & _ & Hcd & _ & _ & _ & _ & _ & _ & Hrow).
    assert (Heq : bind (e0 <- ask ;; ret (now e0))
                    (fun now0 =>
                       self <- Booking.save None
                                 (Booking.with_payment_status "COMPLETED"
                                    (Booking.with_confirmation_date (Some now0)
                                       (Booking.with_status "CONFIRMED" b))) ;;
                       ret (true, self)) e w = (Ok (true, b'), w')).
    { unfold bind at 1. cbn. fold b1. rewrite (bind_ok _ _ _ _ _ _ Hrun). reflexivity. }
    rewrite Heq. split; [split; [auto | eauto] |]. split; [| intros; contradiction].
    intros b2 w2 H. injection H as <- <-.
    cbn in Hst, Hpay, Hcd. repeat split; auto.
    intros e2. unfold Booking.confirm_booking. rewrite Hst. reflexivity.
  - split; [split; [intros (? & ? & ?); discriminate | contradiction] |].
    split; [intros; discriminate | reflexivity].
Qed.

Lemma cancel_booking_true (b : Booking.instance) (e : Env) (w : World) :
  Booking.can_be_cancelled (now e) b && String.eqb (Booking.status b) "CONFIRMED" = true ->
  exists b' w',
    Booking.cancel_booking b e w = (Ok (true, b'), w')
    /\ Booking.status b' = "CANCELLED"
    /\ Booking.cancellation_date b' = Some (now e)
    /\ Booking.total_price b' = Booking.total_price b
    /\ Booking.payment_status b' = Booking.payment_status b
    /\ TravelOption.total_seats (Booking.travel_option b')
       = TravelOption.total_seats (Booking.travel_option b)
    /\ TravelOption.available_seats (Booking.travel_option b')
       = seats_after_cancel (Booking.travel_option b) (Booking.number_of_seats b)
    /\ travel_options w'
       = (if TravelOption.available_seats (Booking.travel_option b)
               + Booking.number_of_seats b
             <=? TravelOption.total_seats (Booking.travel_option b)
          then alter (TravelOption.with_available_seats
                        (TravelOption.available_seats (Booking.travel_option b)
                         + Booking.number_of_seats b))
                     (TravelOption.pk (Booking.travel_option b)) (travel_options w)
          else travel_options w)
    /\ (exists k, Booking.pk b' = Some k
                  /\ bookings w' !! k = Some (Booking.to_row b'))
    /\ (forall p, Booking.total_price b = p ->
                  stored_total_price b w = Some p ->
                  stored_total_price b' w' = Some p).
Proof.
  intros Hc. unfold Booking.cancel_booking, bind at 1, ask. rewrite Hc.
  unfold timezone_now, bind at 1, bind at 1, ask, ret at 1.
  set (b1 := Booking.with_cancellation_date (Some (now e))
               (Booking.with_status "CANCELLED" b)).
  destruct (run_seat_call_frame (call_increase (Booking.number_of_seats b1))
              (Booking.travel_option b1) e w)
    as (ok & o' & w1 & Hrun & Hpk & Htot & _ & _ & Hbk & _ & _ & _ & Hrows).
  cbn [run_seat_call] in Hrun. rewrite (bind_ok _ _ _ _ _ _ Hrun). cbn [snd].
  destruct (Booking_save_ok None (Booking.with_travel_option o' b1) e w1)
    as (b' & w' & Hsave & Hst & Hpay & Hprice & _ & _ & Hopt & _ & Hxd & Hto & _ & _ & _
        & Hheld & Hrow).
  rewrite (bind_ok _ _ _ _ _ _ Hsave). exists b', w'.
  split; [reflexivity |]. cbn in Hst, Hpay, Hprice, Hopt, Hxd.
  rewrite Hopt, Hto. subst b1. cbn in Hrun, Hpk, Htot, Hrows.
  repeat split; auto.
  - unfold seats_after_cancel.
    destruct (increase_available_seats_cases (Booking.travel_option b)
                (Booking.number_of_seats b) e w) as (Hiff & Hseats & Hno).
    destruct (Z.leb_spec (TravelOption.available_seats (Booking.travel_option b)
                          + Booking.number_of_seats b)
                (TravelOption.total_seats (Booking.travel_option b))) as [Hle | Hgt].
    + apply Hiff in Hle as (o2 & w2 & Hrun2).
      rewrite Hrun in Hrun2. injection Hrun2 as -> -> ->. eapply Hseats; eauto.
    + rewrite Hno in Hrun by lia. injection Hrun as <- <- <-. reflexivity.
  - rewrite Hrows.
    destruct (increase_available_seats_cases (Booking.travel_option b)
                (Booking.number_of_seats b) e w) as (Hiff & Hseats & Hno).
    destruct (Z.leb_spec (TravelOption.available_seats (Booking.travel_option b)
                          + Booking.number_of_seats b)
                (TravelOption.total_seats (Booking.travel_option b))) as [Hle | Hgt].
    + apply Hiff in Hle as (o2 & w2 & Hrun2).
      rewrite Hrun in Hrun2. injection Hrun2 as -> -> ->.
      rewrite (Hseats _ _ Hrun). reflexivity.
    + rewrite Hno in Hrun by lia. injection Hrun as <- <- <-. reflexivity.
  - intros p Hp Hs. apply Hheld; [exact Hp |].
    unfold stored_total_price in *. cbn. rewrite Hbk. exact Hs.
Qed.

Lemma cancel_booking_false (b : Booking.instance) (e : Env) (w : World) :
  Booking.can_be_cancelled (now e) b && String.eqb (Booking.status b) "CONFIRMED" = false ->
  Booking.cancel_booking b e w = (Ok (false, b), w).
Proof.
  intros Hc. unfold Booking.cancel_booking, bind at 1, ask. rewrite Hc. reflexivity.
Qed.

Lemma cancel_condition (now : Z) (b : Booking.instance) :
  Booking.can_be_cancelled now b && String.eqb (Booking.status b) "CONFIRMED" = true
  <-> Booking.status b = "CONFIRMED" /\ Booking.can_be_cancelled now b = true.
Proof. rewrite andb_true_iff, String.eqb_eq. tauto. Qed.

(** C5, as amended.  [cancel_booking()] returns false and changes neither
    the instance nor the database unless the status is CONFIRMED and
    [can_be_cancelled] holds.  After a successful call the status is
    CANCELLED, the cancellation date is the time of the call, and the
    [available_seats] of the travel option, on the instance and in its
    stored row, are [number_of_seats] more when that sum does not exceed
    [total_seats], and are left as they were when it does. *)
Theorem cancel_booking_only_confirmed_and_cancellable
    (b : Booking.instance) (e : Env) (w : World) :
  ((exists b' w', Booking.cancel_booking b e w = (Ok (true, b'), w'))
     <-> Booking.status b = "CONFIRMED" /\ Booking.can_be_cancelled (now e) b = true)
  /\ (~ (Booking.status b = "CONFIRMED" /\ Booking.can_be_cancelled (now e) b = true) ->
      Booking.cancel_booking b e w = (Ok (false, b), w))
  /\ (forall b' w',
        Booking.cancel_booking b e w = (Ok (true, b'), w') ->
        Booking.status b' = "CANCELLED"
        /\ Booking.cancellation_date b' = Some (now e)
        /\ TravelOption.total_seats (Booking.travel_option b')
           = TravelOption.total_seats (Booking.travel_option b)
        /\ (TravelOption.available_seats (Booking.travel_option b)
              + Booking.number_of_seats b
            <= TravelOption.total_seats (Booking.travel_option b) ->
            TravelOption.available_seats (Booking.travel_option b')
            = TravelOption.available_seats (Booking.travel_option b)
              + Booking.number_of_seats b
            /\ travel_options w'
               = alter (TravelOption.with_available_seats
                          (TravelOption.available_seats (Booking.travel_option b)
                           + Booking.number_of_seats b))
                       (TravelOption.pk (Booking.travel_option b)) (travel_options w))
        /\ (TravelOption.total_seats (Booking.travel_option b)
            < TravelOption.available_seats (Booking.travel_option b)
              + Booking.number_of_seats b ->
            TravelOption.available_seats (Booking.travel_option b')
            = TravelOption.available_seats (Booking.travel_option b)
            /\ travel_options w' = travel_options w)).
Proof.
  destruct (Booking.can_be_cancelled (now e) b
            && String.eqb (Booking.status b) "CONFIRMED") eqn:Hc.
  - destruct (cancel_booking_true b e w Hc)
      as (b1 & w1 & Hrun & Hst & Hxd & _ & _ & Htot & Hseats & Hrows & _).
    apply cancel_condition in Hc. rewrite Hrun.
    split; [split; [auto | eauto] |]. split; [tauto |].
    intros b' w' H. injection H as <- <-.
    unfold seats_after_cancel in Hseats.
    do 3 (split; [assumption |]).
    destruct (Z.leb_spec (TravelOption.available_seats (Booking.travel_option b)
                          + Booking.number_of_seats b)
                (TravelOption.total_seats (Booking.travel_option b)));
      (split; intros Hcmp; [try lia | try lia]); auto.
  - rewrite (cancel_booking_false b e w Hc).
    assert (Hn : ~ (Booking.status b = "CONFIRMED"
                    /\ Booking.can_be_cancelled (now e) b = true)).
    { rewrite <- cancel_condition, Hc. discriminate. }
    split; [split; [intros (? & ? & ?); discriminate | tauto] |].
    split; [reflexivity | intros; discriminate].
Qed.

(** C5, as stated, fails: with 9 of 10 seats free, cancelling a confirmed
    booking of 2 seats succeeds and leaves 9 seats free, which is neither 2
    more nor [total_seats]. *)
Lemma cancel_booking_beyond_total_seats_restores_nothing :
  exists b' w',
    Booking.cancel_booking
      (sample_booking (sample_flight (days 8) 9 10) 2 "CONFIRMED" "COMPLETED")
      sample_env
      (sample_world (sample_booking (sample_flight (days 8) 9 10) 2 "CONFIRMED" "COMPLETED"))
    = (Ok (true, b'), w')
    /\ Booking.status b' = "CANCELLED"
    /\ TravelOption.available_seats (Booking.travel_option b') = 9
    /\ TravelOption.available_seats <$> (travel_options w' !! 1) = Some 9
    /\ 9 <> 9 + 2
    /\ 9 <> Z.min (9 + 2) 10.
Proof.
  eexists. eexists. split; [vm_compute; reflexivity |].
  repeat split; try reflexivity; vm_compute; discriminate.
Qed.

(** A confirmed booking of 30 seats cancelled eight days ahead: the seats
    go back from 70 to 100 and the refund quoted before was 90%. *)
Example cancel_booking_restores_seats :
  exists b' w',
    Booking.cancel_booking
      (sample_booking (sample_flight (days 8) 70 100) 30 "CONFIRMED" "COMPLETED")
      sample_env
      (sample_world (sample_booking (sample_flight (days 8) 70 100) 30 "CONFIRMED" "COMPLETED"))
    = (Ok (true, b'), w')
    /\ Booking.status b' = "CANCELLED"
    /\ TravelOption.available_seats (Booking.travel_option b') = 100
    /\ TravelOption.available_seats <$> (travel_options w' !! 1) = Some 100.
Proof.
  eexists. eexists. split; [vm_compute; reflexivity |].
  repeat split; vm_compute; reflexivity.
Qed.

(** ** The total price of a booking *)

(** What [BookingForm.save] returns when it returns: a PENDING booking at
    the seat count times the price of the travel option of the form, stored
    at that price when [commit] is true. *)
Lemma BookingForm_save_creates (commit : bool) (form : BookingForm.t) e w b form' w' :
  BookingForm.save commit form e w = (Ok (b, form'), w') ->
  (exists o, BookingForm.travel_option form = Some o
             /\ Booking.total_price b
                = Booking.number_of_seats b * TravelOption.base_price o)
  /\ Booking.status b = "PENDING"
  /\ Booking.payment_status b = "PENDING"
  /\ (commit = true -> stored_total_price b w' = Some (Booking.total_price b)).
Proof.
  unfold BookingForm.save.
  destruct (negb (BookingForm.is_valid form)); [discriminate |].
  destruct (BookingForm.cleaned_number_of_seats form) as [seats |]; [| discriminate].
  destruct (BookingForm.travel_option form) as [o |]; [| discriminate].
  destruct commit.
  - set (b0 := Booking.mk None "" (BookingForm.user form) o seats
                 (seats * TravelOption.base_price o)
                 "PENDING" "PENDING" None None).
    destruct (Booking_save_ok None b0 e w)
      as (b1 & w1 & Hsave & Hst & Hpay & Hprice & Hn & _ & _ & _ & _ & _ & _ & _ & _ & _ & Hrow).
    rewrite (bind_ok _ _ _ _ _ _ Hsave).
    destruct (run_seat_call_frame (call_reduce (Booking.number_of_seats b1)) o e w1)
      as (ok & o' & w2 & Hrun & _ & _ & _ & _ & Hbk & _).
    cbn [run_seat_call] in Hrun. rewrite (bind_ok _ _ _ _ _ _ Hrun).
    intros H. injection H as <- <- <-. cbn in *.
    rewrite Hprice, Hn, Hst, Hpay. repeat split; eauto.
    intros _. destruct (Hrow eq_refl) as (k & Hk & Hlook).
    unfold stored_total_price. cbn. rewrite Hk, Hbk. cbn. rewrite Hlook. cbn.
    rewrite Hprice. reflexivity.
  - intros H. injection H as <- <- <-. cbn. repeat split; eauto. discriminate.
Qed.

(** A later operation never raises, and leaves the total price as it is, on
    the instance and in the stored row. *)
Lemma run_later_op_total_price (op : LaterOp) (b : Booking.instance) e w p :
  Booking.total_price b = p ->
  stored_total_price b w = Some p ->
  exists b' w',
    run_later_op op b e w = (Ok b', w')
    /\ Booking.total_price b' = p
    /\ stored_total_price b' w' = Some p.
Proof.
  intros Hp Hs. destruct op as [| | update_fields | price]; cbn [run_later_op].
  - unfold Booking.confirm_booking.
    destruct (String.eqb (Booking.status b) "PENDING").
    + unfold timezone_now, bind at 1, bind at 1, bind at 1, ask, ret at 1.
      set (b1 := Booking.with_payment_status "COMPLETED" _).
      destruct (Booking_save_ok None b1 e w)
        as (b' & w' & Hsave & _ & _ & Hprice & _ & _ & _ & _ & _ & _ & _ & _ & _ & Hheld & _).
      rewrite (bind_ok _ _ _ _ _ _ Hsave). exists b', w'.
      split; [reflexivity |]. cbn. split; [rewrite Hprice; exact Hp |].
      apply Hheld; [exact Hp | exact Hs].
    + exists b, w. repeat split; assumption.
  - destruct (Booking.can_be_cancelled (now e) b
              && String.eqb (Booking.status b) "CONFIRMED") eqn:Hc.
    + destruct (cancel_booking_true b e w Hc)
        as (b' & w' & Hrun & _ & _ & Hprice & _ & _ & _ & _ & _ & Hheld).
      rewrite (bind_ok _ _ _ _ _ _ Hrun). exists b', w'.
      split; [reflexivity |]. cbn. split; [congruence | auto].
    + rewrite (bind_ok _ _ _ _ _ _ (cancel_booking_false b e w Hc)).
      exists b, w. repeat split; assumption.
  - destruct (Booking_save_ok update_fields b e w)
      as (b' & w' & Hsave & _ & _ & Hprice & _ & _ & _ & _ & _ & _ & _ & _ & _ & Hheld & _).
    exists b', w'. split; [exact Hsave |]. split; [congruence | auto].
  - destruct (TravelOption_save_ok None
                (TravelOption.with_base_price price (Booking.travel_option b)) e w)
      as (o' & w' & Hsave & _ & _ & _ & _ & _ & Hbk & _).
    rewrite (bind_ok _ _ _ _ _ _ Hsave). eexists. exists w'.
    split; [reflexivity |]. split; [exact Hp |].
    unfold stored_total_price in *. cbn. rewrite Hbk. exact Hs.
Qed.

Lemma run_later_ops_total_price (ops : list (Env * LaterOp)) (b : Booking.instance) w p :
  Booking.total_price b = p ->
  stored_total_price b w = Some p ->
  exists b' w',
    run_later_ops ops b w = (Ok b', w')
    /\ Booking.total_price b' = p
    /\ stored_total_price b' w' = Some p.
Proof.
  revert b w. induction ops as [| [e op] ops IH]; intros b w Hp Hs.
  - exists b, w. repeat split; assumption.
  - destruct (run_later_op_total_price op b e w p Hp Hs) as (b1 & w1 & Hrun & Hp1 & Hs1).
    destruct (IH b1 w1 Hp1 Hs1) as (b' & w' & Hrest & Hp' & Hs').
    exists b', w'. cbn [run_later_ops]. rewrite Hrun. auto.
Qed.

(** C9.  The booking that [BookingForm.save] creates has as total price its
    number of seats times the base price that the travel option has at that
    moment, and that is the price of the stored row.  Whatever comes later,
    in any order and at any time ([confirm_booking], [cancel_booking], a
    save of the whole row or of some columns, a new base price on the
    travel option), runs without an exception and leaves the total price of
    the instance and of the stored row at that value. *)
Theorem total_price_fixed_at_creation
    (form : BookingForm.t) (e : Env) (w : World)
    (b : Booking.instance) (form' : BookingForm.t) (w' : World)
    (ops : list (Env * LaterOp)) :
  BookingForm.save true form e w = (Ok (b, form'), w') ->
  (exists o, BookingForm.travel_option form = Some o
             /\ Booking.total_price b
                = Booking.number_of_seats b * TravelOption.base_price o)
  /\ stored_total_price b w' = Some (Booking.total_price b)
  /\ exists b'' w'',
       run_later_ops ops b w' = (Ok b'', w'')
       /\ Booking.total_price b'' = Booking.total_price b
       /\ stored_total_price b'' w'' = Some (Booking.total_price b).
Proof.
  intros Hsave.
  destruct (BookingForm_save_creates true form e w b form' w' Hsave)
    as (Hprice & _ & _ & Hstored).
  split; [exact Hprice |]. split; [auto |].
  apply run_later_ops_total_price; auto.
Qed.

(** The theorem at work: two seats at 5000.00 are booked for 10000.00; the
    price of the flight rises to 9900.00, the booking is confirmed and, a day
    later, cancelled; its total price is 10000.00 throughout. *)
Lemma total_price_fixed_at_creation_witness :
  exists b form' w',
    BookingForm.save true
      (sample_form (sample_flight (days 8) 100 100) (sample_data 2))
      sample_env (sample_inventory (sample_flight (days 8) 100 100))
    = (Ok (b, form'), w')
    /\ Booking.total_price b = 1000000
    /\ exists b'' w'',
         run_later_ops
           [ (sample_env, op_change_base_price 990000);
             (sample_env, op_confirm_booking);
             (mkEnv (sample_now + days 1) (choices sample_env) (random sample_env),
              op_cancel_booking) ] b w'
         = (Ok b'', w'')
         /\ Booking.total_price b'' = 1000000
         /\ stored_total_price b'' w'' = Some 1000000.
Proof.
  eexists. eexists. eexists.
  match goal with
  | |- ?run /\ _ => assert (Hrun : run) by (vm_compute; reflexivity)
  end.
  split; [exact Hrun |]. split; [reflexivity |].
  exact (proj2 (proj2 (total_price_fixed_at_creation _ _ _ _ _ _
    [ (sample_env, op_change_base_price 990000);
      (sample_env, op_confirm_booking);
      (mkEnv (sample_now + days 1) (choices sample_env) (random sample_env),
       op_cancel_booking) ] Hrun))).
Defined.

(** ** The booking form *)

Lemma IntegerField_clean_number_of_seats (n : Z) :
  IntegerField_clean BookingForm.number_of_seats_validators (Value n)
  = if n <? 1 then inr [ErrMinValue 1]
    else if n >? 10 then inr [ErrMaxValue 10]
    else inl n.
Proof.
  unfold IntegerField_clean, BookingForm.number_of_seats_validators, run_validators,
    MinValueValidator, MaxValueValidator.
  cbn [flat_map]. destruct (n <? 1) eqn:H1; destruct (n >? 10) eqn:H2; cbn; try reflexivity.
  apply Z.ltb_lt in H1. apply Z.gtb_lt in H2. lia.
Qed.

(** A seat count passes the cleaning of the field exactly when it is from 1
    to 10 and within the seats that the travel option of the form has
    free. *)
Lemma number_of_seats_accepted_iff (form : BookingForm.t) (n : Z) :
  BookingForm.clean_field_number_of_seats form (Value n) = inl n
  <-> 1 <= n <= 10
      /\ forall o, BookingForm.travel_option form = Some o ->
                   n <= TravelOption.available_seats o.
Proof.
  unfold BookingForm.clean_field_number_of_seats, BookingForm.clean_number_of_seats.
  rewrite IntegerField_clean_number_of_seats.
  destruct (Z.ltb_spec n 1); [split; [discriminate | lia] |].
  destruct (n >? 10) eqn:H10.
  - apply Z.gtb_lt in H10. split; [discriminate | lia].
  - assert (n <= 10) by (destruct (Z.gtb_spec n 10); [discriminate | lia]).
    destruct (BookingForm.travel_option form) as [o |].
    + destruct (Z.gtb_spec n (TravelOption.available_seats o)).
      * split; [discriminate |]. intros (_ & Ho). specialize (Ho o eq_refl). lia.
      * split; [| reflexivity]. intros _. split; [lia |].
        intros o' Ho'. injection Ho' as <-. lia.
    + split; [| reflexivity]. intros _. split; [lia | discriminate].
Qed.

(** C10.  A booking form bound to data that ask for more than 10 seats is
    not valid, whatever the travel option has free: the field
    [number_of_seats] carries the error of [MaxValueValidator(10)], and
    [save] raises without a booking or a change of the seats.  The cap
    stands next to the test against [available_seats]: a count is accepted
    exactly when it is from 1 to 10 and not above the seats free. *)
Theorem booking_form_rejects_more_than_ten_seats
    (form : BookingForm.t) (d : BookingData) (n : Z) :
  BookingForm.data form = Some d ->
  data_number_of_seats d = Value n ->
  10 < n ->
  BookingForm.is_valid form = false
  /\ In ("number_of_seats", [ErrMaxValue 10]) (BookingForm.errors form)
  /\ (forall commit e w, exists x, BookingForm.save commit form e w = (Raise x, w))
  /\ (forall m, BookingForm.clean_field_number_of_seats form (Value m) = inl m
                <-> 1 <= m <= 10
                    /\ forall o, BookingForm.travel_option form = Some o ->
                                 m <= TravelOption.available_seats o).
Proof.
  intros Hd Hn Hgt.
  assert (Hclean : BookingForm.clean_field_number_of_seats form (Value n)
                   = inr [ErrMaxValue 10]).
  { unfold BookingForm.clean_field_number_of_seats.
    rewrite IntegerField_clean_number_of_seats.
    destruct (Z.ltb_spec n 1); [lia |].
    destruct (Z.gtb_spec n 10); [reflexivity | lia]. }
  assert (Herr : exists rest,
             BookingForm.errors form = ("number_of_seats", [ErrMaxValue 10]) :: rest).
  { unfold BookingForm.errors. rewrite Hd, Hn, Hclean. cbn. eexists. reflexivity. }
  destruct Herr as (rest & Herr).
  assert (Hvalid : BookingForm.is_valid form = false).
  { unfold BookingForm.is_valid. rewrite Herr. apply andb_false_r. }
  split; [exact Hvalid |].
  split; [rewrite Herr; left; reflexivity |].
  split; [| intros m; apply number_of_seats_accepted_iff].
  intros commit e w. unfold BookingForm.save. rewrite Hvalid. cbn.
  eexists. reflexivity.
Qed.

(** The theorem at work: 11 seats of a flight with 50 seats free. *)
Lemma booking_form_rejects_more_than_ten_seats_witness :
  BookingForm.is_valid (sample_form (sample_flight (days 8) 50 100) (sample_data 11))
  = false
  /\ In ("number_of_seats", [ErrMaxValue 10])
        (BookingForm.errors (sample_form (sample_flight (days 8) 50 100) (sample_data 11))).
Proof.
  pose proof (booking_form_rejects_more_than_ten_seats
                (sample_form (sample_flight (days 8) 50 100) (sample_data 11))
                (sample_data 11) 11 eq_refl eq_refl ltac:(lia)) as (H1 & H2 & _).
  exact (conj H1 H2).
Defined.

(** Ten seats of that flight are accepted; ten seats of a flight with five
    free are refused by [clean_number_of_seats]. *)
Example booking_form_accepts_ten_seats :
  BookingForm.is_valid (sample_form (sample_flight (days 8) 50 100) (sample_data 10))
  = true.
Proof. vm_compute. reflexivity. Qed.

Example booking_form_refuses_above_available :
  BookingForm.errors (sample_form (sample_flight (days 8) 5 100) (sample_data 10))
  = [("number_of_seats", [ErrMessage "Only {} seats are available." 5])].
Proof. vm_compute. reflexivity. Qed.

(** The constructor as the tests call it, with [data] by keyword, builds the
    form; as [BookingCreateView.post] calls it, with [request.POST] in the
    first position next to the keyword [travel_option], it raises. *)
Example booking_form_init_by_keyword :
  BookingForm.init []
    [("data", VBookingData (sample_data 2));
     ("travel_option", VTravelOption (sample_flight (days 8) 50 100));
     ("user", VUser 7)]
  = Ok (sample_form (sample_flight (days 8) 50 100) (sample_data 2)).
Proof. vm_compute. reflexivity. Qed.

Lemma booking_create_view_post_raises
    (request : HttpRequest BookingData) (o : TravelOption.t) (e : Env) (w : World) :
  BookingCreateView.post request o e w
  = (Raise (TypeError "__init__() got multiple values for argument 'travel_option'"), w).
Proof. reflexivity. Qed.

(** ** The payment and cancellation views *)

(** A save of some columns of a stored booking writes them into its row. *)
Lemma Booking_save_update_fields (fields : list string) (self : Booking.instance) e w k :
  Booking.pk self = Some k ->
  exists self' w',
    Booking.save (Some fields) self e w = (Ok self', w')
    /\ bookings w'
       = alter (fun r => fold_left (fun r f => Booking.copy_column f (Booking.to_row self') r)
                                   fields r)
               k (bookings w).
Proof.
  intros Hk.
  unfold Booking.save, Booking.generate_booking_id, Booking.Model_save, timezone_now.
  destruct self as [pk bid u o n p st pst cd xd]. cbn in Hk. subst pk. cbn.
  unfold bind, ret, ask, get, modify.
  destruct (String.eqb bid ""); cbn.
  all: destruct (String.eqb st "CONFIRMED" && negb (bool_decide (is_Some cd))); cbn.
  all: destruct (String.eqb st "CANCELLED" && negb (bool_decide (is_Some xd))); cbn.
  all: eexists; eexists; split; reflexivity.
Qed.

(** What [PaymentView.post] does with the PENDING booking it finds when the
    draw passes: it writes CONFIRMED and PAID, on the instance and in the
    stored row, and redirects to the success page. *)
Lemma payment_view_post_passed_draw
    (request : HttpRequest string) (booking_id : string) e w (b : Booking.instance) k :
  PaymentView.get_object request booking_id e w = (Ok b, w) ->
  Booking.pk b = Some k ->
  PrimFloat.ltb (random e) 0.95%float = true ->
  exists b' w',
    PaymentView.post request booking_id e w
    = (Ok (redirect "bookings:payment_success" (Booking.booking_id b'), b'), w')
    /\ Booking.status b' = "CONFIRMED"
    /\ Booking.payment_status b' = "PAID"
    /\ bookings w'
       = alter (fun r => Booking.with_payment_status "PAID"
                           (Booking.with_status "CONFIRMED" r)) k (bookings w).
Proof.
  intros Hget Hk Hdraw. unfold PaymentView.post.
  rewrite (bind_ok _ _ _ _ _ _ Hget).
  unfold PaymentView.process_payment, bind at 1, bind at 1, ask, ret at 1. rewrite Hdraw.
  set (b1 := Booking.with_payment_status "PAID" (Booking.with_status "CONFIRMED" b)).
  destruct (Booking_save_ok (Some ["status"; "payment_status"]) b1 e w)
    as (b' & w' & Hsave & Hst & Hpay & _).
  destruct (Booking_save_update_fields ["status"; "payment_status"] b1 e w k Hk)
    as (b2 & w2 & Hsave2 & Hrows).
  rewrite Hsave in Hsave2. injection Hsave2 as <- <-.
  rewrite (bind_ok _ _ _ _ _ _ Hsave).
  eexists. eexists. split; [reflexivity |].
  cbn in Hst, Hpay. split; [exact Hst |]. split; [exact Hpay |].
  unfold PopularRoute_objects_get_or_create, modify.
  destruct (popular_routes w' !! _); cbn; rewrite Hrows; cbn; rewrite Hst, Hpay;
    reflexivity.
Qed.

(** What it does when the draw fails: it queues an error message, redirects
    to the failure page, and writes to no table. *)
Lemma payment_view_post_failed_draw
    (request : HttpRequest string) (booking_id : string) e w (b : Booking.instance) :
  PaymentView.get_object request booking_id e w = (Ok b, w) ->
  PrimFloat.ltb (random e) 0.95%float = false ->
  PaymentView.post request booking_id e w
  = (Ok (redirect "bookings:payment_failure" (Booking.booking_id b), b),
     with_messages
       (messages w ++ [mkMessage "error" "Payment processing failed. Please try again." []])
       w).
Proof.
  intros Hget Hdraw. unfold PaymentView.post.
  rewrite (bind_ok _ _ _ _ _ _ Hget).
  unfold PaymentView.process_payment, bind at 1, bind at 1, ask, ret at 1. rewrite Hdraw.
  reflexivity.
Qed.

(** C7, on the code.  For the PENDING booking TKT0000001 and a draw of 0.5,
    which passes, [PaymentView.post] leaves the booking CONFIRMED with
    payment status PAID, on the instance and in the stored row, where
    [confirm_booking] on the same booking leaves COMPLETED; PAID is none of
    the choices of the column.  For a draw of 0.97, which fails, status and
    payment status stay PENDING and an error message is queued. *)
Theorem payment_view_post_sets_paid_not_completed :
  (exists response b' w',
     PaymentView.post sample_payment_request "TKT0000001" sample_env
       (sample_world (sample_booking (sample_flight (days 8) 98 100) 2 "PENDING" "PENDING"))
     = (Ok (response, b'), w')
     /\ response = redirect "bookings:payment_success" "TKT0000001"
     /\ Booking.status b' = "CONFIRMED"
     /\ Booking.payment_status b' = "PAID"
     /\ Booking.payment_status <$> (bookings w' !! 1) = Some "PAID"
     /\ Booking.status <$> (bookings w' !! 1) = Some "CONFIRMED"
     /\ ~ In "PAID" ["PENDING"; "COMPLETED"; "FAILED"; "REFUNDED"])
  /\ (exists b' w',
        Booking.confirm_booking
          (sample_booking (sample_flight (days 8) 98 100) 2 "PENDING" "PENDING")
          sample_env
          (sample_world (sample_booking (sample_flight (days 8) 98 100) 2 "PENDING" "PENDING"))
        = (Ok (true, b'), w')
        /\ Booking.payment_status b' = "COMPLETED")
  /\ (exists response b' w',
        PaymentView.post sample_payment_request "TKT0000001" sample_env_failed_draw
          (sample_world (sample_booking (sample_flight (days 8) 98 100) 2 "PENDING" "PENDING"))
        = (Ok (response, b'), w')
        /\ response = redirect "bookings:payment_failure" "TKT0000001"
        /\ Booking.status b' = "PENDING"
        /\ Booking.payment_status b' = "PENDING"
        /\ Booking.status <$> (bookings w' !! 1) = Some "PENDING"
        /\ Booking.payment_status <$> (bookings w' !! 1) = Some "PENDING"
        /\ level <$> messages w' = ["error"]).
Proof.
  split; [| split].
  - eexists. eexists. eexists. split; [vm_compute; reflexivity |].
    repeat split; try reflexivity.
    cbn. intros [H | [H | [H | [H | []]]]]; discriminate.
  - eexists. eexists. split; [vm_compute; reflexivity |]. reflexivity.
  - eexists. eexists. eexists. split; [vm_compute; reflexivity |].
    repeat split; reflexivity.
Qed.

(** The constructor of the cancellation form as the tests call it, with
    [data] by keyword, builds the form. *)
Example cancellation_form_init_by_keyword :
  exists form,
    CancellationForm.init sample_now []
      [("data", VCancellationData (request_POST sample_cancellation_request));
       ("booking",
        VBooking (sample_booking (sample_flight (days 8) 98 100) 2 "CONFIRMED" "COMPLETED"))]
    = Ok form
    /\ CancellationForm.is_valid form = true.
Proof. eexists. split; vm_compute; reflexivity. Qed.

(** As [BookingCancelView.post] calls it, with [request.POST] in the first
    position next to the keyword [booking], the constructor raises: [post]
    ends there for every request, and nothing is written. *)
Lemma cancel_view_post_raises
    (request : HttpRequest CancellationData) (b : Booking.instance) (e : Env) (w : World) :
  BookingCancelView.post request b e w
  = (Raise (TypeError "__init__() got multiple values for argument 'booking'"), w).
Proof. reflexivity. Qed.

(** The class [TravelOption] has no method [restore_available_seats], which
    [post] calls to give the seats back. *)
Lemma restore_available_seats_undefined (o : TravelOption.t) (n : Z) (e : Env) (w : World) :
  TravelOption.hasattr "restore_available_seats" = false
  /\ TravelOption.call "restore_available_seats" o n e w
     = (Raise (AttributeError "TravelOption" "restore_available_seats"), w).
Proof. split; reflexivity. Qed.

(** C8, on the code.  For the CONFIRMED booking TKT0000001 of 2 seats, eight
    days before departure, the request to cancel it passes the 24 hour
    window of [dispatch] and then ends in the [TypeError] of [post]: the
    stored booking is still CONFIRMED, the travel option still has 98 seats
    free, no history row is written and no message reports a refund. *)
Theorem cancel_view_leaves_booking_confirmed :
  TravelOption.departure_datetime (sample_flight (days 8) 98 100)
    > now sample_env + timedelta_hours 24
  /\ exists w',
       BookingCancelView.dispatch sample_cancellation_request "TKT0000001" sample_env
         (sample_world (sample_booking (sample_flight (days 8) 98 100) 2 "CONFIRMED" "COMPLETED"))
       = (Raise (TypeError "__init__() got multiple values for argument 'booking'"), w')
       /\ Booking.status <$> (bookings w' !! 1) = Some "CONFIRMED"
       /\ Booking.cancellation_date <$> (bookings w' !! 1) = Some None
       /\ TravelOption.available_seats <$> (travel_options w' !! 1) = Some 98
       /\ booking_history w' = []
       /\ messages w' = [].
Proof.
  split; [reflexivity |].
  eexists. split; [vm_compute; reflexivity |].
  repeat split; reflexivity.
Qed.

(** * Further properties of the code *)

(** ** Travel options: time left, availability *)

Lemma microseconds_per_day_value : microseconds_per_day = 86400000000.
Proof. reflexivity. Qed.


(** X2.  For a travel option that is ACTIVE and has no negative seat count,
    the detail page allows booking exactly when [is_available] holds, and
    never when it shows the option as sold out. *)
Theorem detail_page_allows_booking_iff_available
    (o : TravelOption.t) (e : Env) (w : World) :
  TravelOption.status o = "ACTIVE" ->
  0 <= TravelOption.available_seats o ->
  exists context,
    TravelOptionDetailView.get_context_data o e w = (Ok context, w)
    /\ TravelOptionDetailView.booking_allowed context
       = TravelOption.is_available (now e) o
    /\ (TravelOptionDetailView.availability_status context = "sold_out"
        <-> TravelOption.available_seats o = 0)
    /\ (TravelOptionDetailView.availability_status context = "sold_out" ->
        TravelOptionDetailView.booking_allowed context = false).
Proof.
  intros Hst Hseats. eexists. split; [reflexivity |]. cbn.
  unfold TravelOption.is_available. rewrite Hst. cbn.
  split; [reflexivity |].
  destruct (Z.eqb_spec (TravelOption.available_seats o) 0) as [H0 | H0].
  - split; [tauto |]. intros _. rewrite H0. reflexivity.
  - destruct (TravelOption.available_seats o <=? 5);
      (split; [split; [discriminate | contradiction] | discriminate]).
Qed.

Lemma detail_page_allows_booking_iff_available_witness :
  exists context,
    TravelOptionDetailView.get_context_data (sample_flight (days 8) 3 100) sample_env
      (sample_inventory (sample_flight (days 8) 3 100))
    = (Ok context, sample_inventory (sample_flight (days 8) 3 100))
    /\ TravelOptionDetailView.booking_allowed context = true
    /\ TravelOptionDetailView.availability_status context = "limited".
Proof.
  destruct (detail_page_allows_booking_iff_available (sample_flight (days 8) 3 100)
              sample_env (sample_inventory (sample_flight (days 8) 3 100))
              eq_refl ltac:(cbn; lia))
    as (context & Hrun & Hallowed & _).
  exists context. split; [exact Hrun |].
  injection Hrun as <-. split; reflexivity.
Defined.

(** X3.  [BookingCreateView.dispatch] hands a request for a stored travel
    option with no negative seat count over to [post] exactly when
    [is_available] holds for the option; otherwise it answers [Http404] (the
    option is not ACTIVE) or redirects to the detail page with an error
    message, and writes nothing else. *)
Theorem booking_create_view_gate
    (request : HttpRequest BookingData) (k : Z) (o : TravelOption.t)
    (e : Env) (w : World) :
  travel_options w !! k = Some o ->
  0 <= TravelOption.available_seats o ->
  (TravelOption.is_available (now e) o = true ->
   BookingCreateView.dispatch request k e w = BookingCreateView.post request o e w)
  /\ (TravelOption.is_available (now e) o = false ->
      (TravelOption.status o <> "ACTIVE"
       /\ BookingCreateView.dispatch request k e w = (Raise Http404, w))
      \/ (exists text,
            BookingCreateView.dispatch request k e w
            = (Ok (redirect "travel:detail" (pretty (TravelOption.pk o))),
               with_messages (messages w ++ [mkMessage "error" text []]) w))).
Proof.
  intros Hrow Hseats. unfold BookingCreateView.dispatch, TravelOption.is_available.
  unfold bind, get, ret, raise, timezone_now, ask, messages_error, modify. cbn beta.
  rewrite Hrow.
  destruct (String.eqb_spec (TravelOption.status o) "ACTIVE") as [Hst | Hst]; cbn.
  - destruct (Z.eqb_spec (TravelOption.available_seats o) 0) as [H0 | H0].
    + rewrite H0. cbn. split; [discriminate |]. intros _. right. eexists. reflexivity.
    + replace (TravelOption.available_seats o >? 0) with true
        by (symmetry; apply Z.gtb_lt; lia).
      cbn.
      destruct (Z.leb_spec (TravelOption.departure_datetime o) (now e)) as [Hd | Hd].
      * replace (TravelOption.departure_datetime o >? now e) with false
          by (symmetry; rewrite Z.gtb_ltb; apply Z.ltb_ge; lia).
        split; [discriminate |]. intros _. right. eexists. reflexivity.
      * replace (TravelOption.departure_datetime o >? now e) with true
          by (symmetry; apply Z.gtb_lt; lia).
        split; [reflexivity | discriminate].
  - split; [discriminate |]. intros _. left. split; [exact Hst | reflexivity].
Qed.

Lemma booking_create_view_gate_witness :
  BookingCreateView.dispatch (mkHttpRequest 7 (sample_data 2)) 1 sample_env
    (sample_inventory (sample_flight (days 8) 50 100))
  = BookingCreateView.post (mkHttpRequest 7 (sample_data 2))
      (sample_flight (days 8) 50 100) sample_env
      (sample_inventory (sample_flight (days 8) 50 100)).
Proof.
  apply (booking_create_view_gate (mkHttpRequest 7 (sample_data 2)) 1
           (sample_flight (days 8) 50 100) sample_env
           (sample_inventory (sample_flight (days 8) 50 100))).
  - reflexivity.
  - cbn. lia.
  - reflexivity.
Defined.

(** X4.  No POST request to [BookingCreateView] creates a booking or takes a
    seat: whatever the request and the database, [dispatch] ends without a
    write to the bookings, the travel options or the history.  A request
    that passes the checks of [dispatch] ends in the [TypeError] of the
    form constructor, which [post] calls with [request.POST] in the first
    position next to the keyword [travel_option]. *)
Theorem booking_create_view_never_creates
    (request : HttpRequest BookingData) (k : Z) (e : Env) (w : World) :
  exists r w',
    BookingCreateView.dispatch request k e w = (r, w')
    /\ bookings w' = bookings w
    /\ travel_options w' = travel_options w
    /\ booking_history w' = booking_history w
    /\ (forall response, r = Ok response ->
          exists pk, response = redirect "travel:detail" pk).
Proof.
  unfold BookingCreateView.dispatch.
  unfold bind, get, ret, raise, timezone_now, ask, messages_error, modify. cbn beta.
  destruct (travel_options w !! k) as [o |];
    [| eexists; eexists; split; [reflexivity |]; repeat split; intros; discriminate].
  destruct (String.eqb (TravelOption.status o) "ACTIVE"); cbn;
    [| eexists; eexists; split; [reflexivity |]; repeat split; intros; discriminate].
  destruct (TravelOption.available_seats o =? 0); cbn.
  - eexists. eexists. split; [reflexivity |]. repeat split.
    intros response H. injection H as <-. eexists. reflexivity.
  - destruct (TravelOption.departure_datetime o <=? now e); cbn.
    + eexists. eexists. split; [reflexivity |]. repeat split.
      intros response H. injection H as <-. eexists. reflexivity.
    + eexists. eexists. split; [reflexivity |]. repeat split. intros; discriminate.
Qed.

(** ** The booking form: what a saved booking takes from the seat pool *)

Lemma clean_field_number_of_seats_inr (form : BookingForm.t) (raw : Submitted Z) errors :
  BookingForm.clean_field_number_of_seats form raw = inr errors -> errors <> [].
Proof.
  unfold BookingForm.clean_field_number_of_seats, BookingForm.clean_number_of_seats.
  destruct raw as [| | n];
    [cbn; intros H; injection H as <-; discriminate
    | cbn; intros H; injection H as <-; discriminate |].
  rewrite IntegerField_clean_number_of_seats.
  destruct (n <? 1); [intros H; injection H as <-; discriminate |].
  destruct (n >? 10); [intros H; injection H as <-; discriminate |].
  destruct (BookingForm.travel_option form) as [o |]; [| discriminate].
  destruct (n >? TravelOption.available_seats o); [| discriminate].
  intros H; injection H as <-; discriminate.
Qed.

Lemma clean_field_number_of_seats_inl (form : BookingForm.t) (raw : Submitted Z) (n : Z) :
  BookingForm.clean_field_number_of_seats form raw = inl n ->
  raw = Value n
  /\ 1 <= n <= 10
  /\ forall o, BookingForm.travel_option form = Some o ->
               n <= TravelOption.available_seats o.
Proof.
  intros H.
  assert (Hraw : raw = Value n).
  { revert H. unfold BookingForm.clean_field_number_of_seats,
      BookingForm.clean_number_of_seats.
    destruct raw as [| | m]; [cbn; discriminate | cbn; discriminate |].
    rewrite IntegerField_clean_number_of_seats.
    destruct (m <? 1); [discriminate |]. destruct (m >? 10); [discriminate |].
    destruct (BookingForm.travel_option form) as [o |].
    - destruct (m >? TravelOption.available_seats o); [discriminate |]. congruence.
    - congruence. }
  subst raw. split; [reflexivity |]. apply number_of_seats_accepted_iff. exact H.
Qed.

(** A valid form has cleaned a seat count from 1 to 10 that the travel
    option of the form has free. *)
Lemma is_valid_number_of_seats (form : BookingForm.t) :
  BookingForm.is_valid form = true ->
  exists n,
    BookingForm.cleaned_number_of_seats form = Some n
    /\ 1 <= n <= 10
    /\ forall o, BookingForm.travel_option form = Some o ->
                 n <= TravelOption.available_seats o.
Proof.
  unfold BookingForm.is_valid, BookingForm.errors, BookingForm.cleaned_number_of_seats.
  destruct (BookingForm.data form) as [d |]; [| discriminate].
  rewrite andb_true_iff. intros (_ & Herr). apply bool_decide_eq_true in Herr.
  destruct (BookingForm.clean_field_number_of_seats form (data_number_of_seats d))
    as [n | errors] eqn:Hclean.
  - exists n. split; [reflexivity |].
    apply (clean_field_number_of_seats_inl _ _ _ Hclean).
  - exfalso. apply clean_field_number_of_seats_inr in Hclean.
    destruct errors as [| err errors]; [congruence |].
    cbn in Herr. discriminate.
Qed.

(** X5.  When [BookingForm.save(commit=True)] returns, it has stored a
    PENDING booking of 1 to 10 seats, not more than the travel option of the
    form had free, and the travel option, on the booking, on the form and in
    its stored row, has exactly that many seats fewer, never a negative
    count.  With [commit=False] nothing is written. *)
Theorem booking_form_save_takes_the_seats
    (form : BookingForm.t) (e : Env) (w : World)
    (b : Booking.instance) (form' : BookingForm.t) (w' : World) :
  BookingForm.save true form e w = (Ok (b, form'), w') ->
  (exists o,
     BookingForm.travel_option form = Some o
     /\ 1 <= Booking.number_of_seats b <= 10
     /\ Booking.number_of_seats b <= TravelOption.available_seats o
     /\ Booking.status b = "PENDING"
     /\ TravelOption.available_seats (Booking.travel_option b)
        = TravelOption.available_seats o - Booking.number_of_seats b
     /\ 0 <= TravelOption.available_seats (Booking.travel_option b)
     /\ BookingForm.travel_option form' = Some (Booking.travel_option b)
     /\ travel_options w'
        = alter (TravelOption.with_available_seats
                   (TravelOption.available_seats o - Booking.number_of_seats b))
                (TravelOption.pk o) (travel_options w)
     /\ exists k, Booking.pk b = Some k
                  /\ bookings w' !! k = Some (Booking.to_row b))
  /\ (forall r w0, BookingForm.save false form e w = (r, w0) -> w0 = w).
Proof.
  intros Hsave. split.
  - revert Hsave. unfold BookingForm.save.
    destruct (BookingForm.is_valid form) eqn:Hvalid; [| discriminate]. cbn [negb].
    destruct (is_valid_number_of_seats form Hvalid) as (n & Hn & Hrange & Hfree).
    rewrite Hn.
    destruct (BookingForm.travel_option form) as [o |] eqn:Ho; [| discriminate].
    specialize (Hfree o eq_refl).
    set (b0 := Booking.mk None "" (BookingForm.user form) o n
                 (n * TravelOption.base_price o) "PENDING" "PENDING" None None).
    destruct (Booking_save_ok None b0 e w)
      as (b1 & w1 & Hrun1 & Hst & _ & _ & Hseats & _ & Hopt & _ & _ & Hto & _ & _ & _ & _ & Hrow).
    rewrite (bind_ok _ _ _ _ _ _ Hrun1). cbn in Hst, Hseats, Hopt.
    rewrite Hseats.
    destruct (reduce_available_seats_true o n e w1 Hfree)
      as (o' & w2 & Hrun2 & Havail & _).
    destruct (run_seat_call_frame (call_reduce n) o e w1)
      as (ok & o2 & w3 & Hrun3 & Hpk & _ & _ & _ & Hbk & _ & _ & _ & Hrows).
    cbn [run_seat_call] in Hrun3. rewrite Hrun2 in Hrun3.
    injection Hrun3 as <- <- <-.
    rewrite (bind_ok _ _ _ _ _ _ Hrun2). cbn [snd].
    intros H. injection H as <- <- <-. cbn.
    exists o. rewrite Hseats, Hst, Havail, Hrows, Hto, Havail.
    repeat split; try reflexivity; try lia.
    destruct (Hrow eq_refl) as (k & Hk & Hlook). exists k.
    split; [exact Hk |]. rewrite Hbk, Hlook.
    unfold Booking.to_row. cbn. rewrite Hopt, Hpk. reflexivity.
  - unfold BookingForm.save.
    destruct (negb (BookingForm.is_valid form)); [intros r w0 H; injection H; auto |].
    destruct (BookingForm.cleaned_number_of_seats form);
      [| intros r w0 H; injection H; auto].
    destruct (BookingForm.travel_option form);
      intros r w0 H; injection H; auto.
Qed.

Lemma booking_form_save_takes_the_seats_witness :
  exists b form' w',
    BookingForm.save true
      (sample_form (sample_flight (days 8) 5 100) (sample_data 5))
      sample_env (sample_inventory (sample_flight (days 8) 5 100))
    = (Ok (b, form'), w')
    /\ TravelOption.available_seats (Booking.travel_option b) = 0
    /\ TravelOption.available_seats <$> (travel_options w' !! 1) = Some 0.
Proof.
  eexists. eexists. eexists.
  match goal with
  | |- ?run /\ _ => assert (Hrun : run) by (vm_compute; reflexivity)
  end.
  split; [exact Hrun |].
  destruct (booking_form_save_takes_the_seats _ _ _ _ _ _ Hrun)
    as ((o & Ho & _ & _ & _ & Hseats & _ & _ & Hrows & _) & _).
  split; reflexivity.
Defined.

(** ** The passenger formset *)

Lemma passenger_clean_loop_spec (forms : list PassengerFormSet.PassengerForm)
    (passengers : list (string * string * Z)) :
  NoDup passengers ->
  PassengerFormSet.clean_loop forms passengers = inl tt
  <-> NoDup (passengers ++ passenger_keys forms).
Proof.
  revert passengers. induction forms as [| form forms IH]; intros passengers Hnd.
  - cbn. rewrite app_nil_r. tauto.
  - cbn [PassengerFormSet.clean_loop]. unfold passenger_keys. cbn [omap list_omap].
    fold (passenger_keys forms).
    destruct (PassengerFormSet.cleaned_data form) as [d |]; cbn; [| apply IH; exact Hnd].
    destruct (PassengerFormSet.DELETE d); cbn; [apply IH; exact Hnd |].
    set (key := (PassengerFormSet.first_name d, PassengerFormSet.last_name d,
                 PassengerFormSet.date_of_birth d)).
    destruct (bool_decide_reflect (key ∈ passengers)) as [Hin | Hout].
    + split; [discriminate |]. intros H. exfalso.
      apply NoDup_app in H as (_ & Hdisj & _).
      apply (Hdisj key Hin). left.
    + rewrite IH, <- app_assoc; [reflexivity |].
      apply NoDup_app. split; [exact Hnd |].
      split; [| apply NoDup_singleton].
      intros x Hx Hx'. apply list_elem_of_singleton in Hx'. subst x. exact (Hout Hx).
Qed.

Lemma passenger_clean_loop_results (forms : list PassengerFormSet.PassengerForm)
    (passengers : list (string * string * Z)) :
  PassengerFormSet.clean_loop forms passengers = inl tt
  \/ PassengerFormSet.clean_loop forms passengers
     = inr "Duplicate passenger information found.".
Proof.
  revert passengers. induction forms as [| form forms IH]; intros passengers; cbn.
  - left. reflexivity.
  - destruct (PassengerFormSet.cleaned_data form) as [d |]; [| apply IH].
    destruct (PassengerFormSet.DELETE d); cbn; [apply IH |].
    destruct (bool_decide _); [right; reflexivity | apply IH].
Qed.

(** X9.  When no form of the set has errors, [PassengerFormSet.clean] raises
    its [ValidationError] exactly when two filled-in forms give the same
    first name, last name and date of birth; when some form has errors it
    returns without the check. *)
Theorem passenger_formset_rejects_duplicates
    (forms : list PassengerFormSet.PassengerForm) :
  (existsb PassengerFormSet.has_errors forms = true ->
   PassengerFormSet.clean forms = inl tt)
  /\ (existsb PassengerFormSet.has_errors forms = false ->
      (PassengerFormSet.clean forms = inl tt <-> NoDup (passenger_keys forms))
      /\ (PassengerFormSet.clean forms = inr "Duplicate passenger information found."
          <-> ~ NoDup (passenger_keys forms))).
Proof.
  unfold PassengerFormSet.clean. split; intros Herr; rewrite Herr; [reflexivity |].
  pose proof (passenger_clean_loop_spec forms [] (NoDup_nil_2)) as Hspec.
  cbn [app] in Hspec. split; [exact Hspec |].
  rewrite <- Hspec.
  destruct (passenger_clean_loop_results forms []) as [H | H]; rewrite H.
  - split; [discriminate | intros Hn; contradiction Hn; reflexivity].
  - split; [intros _; discriminate | reflexivity].
Qed.

(** Two forms for the same passenger are refused. *)
Example passenger_formset_duplicate :
  PassengerFormSet.clean
    [ PassengerFormSet.mkPassengerForm false
        (Some (PassengerFormSet.mkPassengerData "Jane" "Smith" 9000 false));
      PassengerFormSet.mkPassengerForm false None;
      PassengerFormSet.mkPassengerForm false
        (Some (PassengerFormSet.mkPassengerData "Jane" "Smith" 9000 false)) ]
  = inr "Duplicate passenger information found.".
Proof. vm_compute. reflexivity. Qed.

(** ** The forms of the travel application *)

(** X10.  [TravelOptionForm.clean] accepts complete data exactly when the
    departure is before the arrival and the available seats are not more
    than the total seats, or one of the two seat counts is 0, which skips the
    seat test.  So accepted data with a positive total and an available
    count that is not negative satisfy
    [0 <= available_seats <= total_seats], and with a total of 0 every
    available count is accepted. *)
Theorem travel_option_form_clean_accepts (departure arrival available total : Z) :
  (TravelOptionForm.clean
     (TravelOptionForm.mkCleanedData (Some departure) (Some arrival)
        (Some available) (Some total))
   = inl (TravelOptionForm.mkCleanedData (Some departure) (Some arrival)
            (Some available) (Some total))
   <-> departure < arrival /\ (available = 0 \/ total = 0 \/ available <= total))
  /\ (TravelOptionForm.clean
        (TravelOptionForm.mkCleanedData (Some departure) (Some arrival)
           (Some available) (Some total))
      = inl (TravelOptionForm.mkCleanedData (Some departure) (Some arrival)
               (Some available) (Some total)) ->
      0 <= available -> 0 < total -> 0 <= available <= total)
  /\ (departure < arrival ->
      TravelOptionForm.clean
        (TravelOptionForm.mkCleanedData (Some departure) (Some arrival)
           (Some available) (Some 0))
      = inl (TravelOptionForm.mkCleanedData (Some departure) (Some arrival)
               (Some available) (Some 0))).
Proof.
  assert (Hiff : forall total',
    TravelOptionForm.clean
      (TravelOptionForm.mkCleanedData (Some departure) (Some arrival)
         (Some available) (Some total'))
    = inl (TravelOptionForm.mkCleanedData (Some departure) (Some arrival)
             (Some available) (Some total'))
    <-> departure < arrival /\ (available = 0 \/ total' = 0 \/ available <= total')).
  { intros total'. unfold TravelOptionForm.clean, TravelOptionForm.truthy.
    cbn -[Z.geb Z.gtb Z.eqb Z.ltb].
    destruct (Z.geb_spec departure arrival); [split; [discriminate | lia] |].
    destruct (Z.eqb_spec available 0); cbn -[Z.geb Z.gtb Z.eqb Z.ltb];
      [split; [lia | reflexivity] |].
    destruct (Z.eqb_spec total' 0); cbn -[Z.geb Z.gtb Z.eqb Z.ltb];
      [split; [lia | reflexivity] |].
    destruct (Z.gtb_spec available total'); [split; [discriminate | lia] |].
    split; [lia | reflexivity]. }
  split; [apply Hiff |]. split.
  - intros H. apply Hiff in H. lia.
  - intros H. apply Hiff. lia.
Qed.

(** Five seats free of a total of none are accepted. *)
Example travel_option_form_accepts_seats_without_total :
  TravelOptionForm.clean (TravelOptionForm.mkCleanedData (Some 10) (Some 20) (Some 5) (Some 0))
  = inl (TravelOptionForm.mkCleanedData (Some 10) (Some 20) (Some 5) (Some 0)).
Proof. reflexivity. Qed.

(** X11.  [TravelSearchForm.clean] accepts the data exactly when the
    departure date, if given, is not before today, the return date, if both
    are given, is not before the departure date, and the minimum price is
    not above the maximum price when both are given and neither is 0.  A
    price of 0 skips the price test: a maximum of 0 is accepted under any
    minimum. *)
Theorem travel_search_form_clean_accepts (today : Z) (d : TravelSearchForm.CleanedData) :
  (TravelSearchForm.clean today d = inl d
   <-> (forall departure, TravelSearchForm.departure_date d = Some departure ->
                          today <= departure)
       /\ (forall back departure,
             TravelSearchForm.return_date d = Some back ->
             TravelSearchForm.departure_date d = Some departure ->
             departure <= back)
       /\ (forall low high,
             TravelSearchForm.min_price d = Some low ->
             TravelSearchForm.max_price d = Some high ->
             low <> 0 -> high <> 0 -> low <= high))
  /\ (forall departure low,
        today <= departure ->
        TravelSearchForm.clean today
          (TravelSearchForm.mkCleanedData (Some departure) None (Some low) (Some 0))
        = inl (TravelSearchForm.mkCleanedData (Some departure) None (Some low) (Some 0))).
Proof.
  split.
  - unfold TravelSearchForm.clean, TravelOptionForm.truthy.
    destruct d as [dep back low high]. cbn -[Z.geb Z.gtb Z.eqb Z.ltb].
    destruct dep as [dep |]; destruct back as [back |];
      destruct low as [low |]; destruct high as [high |]; cbn -[Z.geb Z.gtb Z.eqb Z.ltb].
    all: repeat match goal with
         | |- context [?a <? ?b] => destruct (Z.ltb_spec a b); cbn -[Z.geb Z.gtb Z.eqb Z.ltb]
         | |- context [?a =? ?b] => destruct (Z.eqb_spec a b); cbn -[Z.geb Z.gtb Z.eqb Z.ltb]
         | |- context [?a >? ?b] => destruct (Z.gtb_spec a b); cbn -[Z.geb Z.gtb Z.eqb Z.ltb]
         end.
    all: split;
         [ try discriminate; intros _; repeat split; intros; simplify_eq; lia
         | try reflexivity; intros (Hdate & Hback & Hprice); exfalso;
           try (specialize (Hdate _ eq_refl));
           try (specialize (Hback _ _ eq_refl eq_refl));
           try (specialize (Hprice _ _ eq_refl eq_refl)); lia ].
  - intros departure low Hd. unfold TravelSearchForm.clean, TravelOptionForm.truthy.
    cbn -[Z.geb Z.gtb Z.eqb Z.ltb].
    destruct (Z.ltb_spec departure today); [lia |].
    rewrite andb_false_r. reflexivity.
Qed.

(** ** Saving a booking, and the two transitions in sequence *)

Lemma generated_booking_id_not_empty (random_part : string) :
  String.eqb ("TKT" ++ random_part)%string "" = false.
Proof. reflexivity. Qed.

(** X6.  Saving a stored booking a second time, at any later time and with
    any [update_fields], leaves the instance exactly as the first save left
    it: an identifier or a date that is set is never overwritten, the
    identifier is generated only when there is none, and a confirmation
    (cancellation) date is stamped only on a CONFIRMED (CANCELLED) booking
    that has none. *)
Theorem booking_save_stamps_once
    (update_fields1 update_fields2 : option (list string))
    (b : Booking.instance) (e1 e2 : Env) (w : World) (k : Z) :
  Booking.pk b = Some k ->
  exists b1 w1 w2,
    Booking.save update_fields1 b e1 w = (Ok b1, w1)
    /\ Booking.save update_fields2 b1 e2 w1 = (Ok b1, w2)
    /\ (Booking.booking_id b <> "" -> Booking.booking_id b1 = Booking.booking_id b)
    /\ (forall t, Booking.confirmation_date b = Some t ->
                  Booking.confirmation_date b1 = Some t)
    /\ (forall t, Booking.cancellation_date b = Some t ->
                  Booking.cancellation_date b1 = Some t)
    /\ (Booking.confirmation_date b = None ->
        Booking.confirmation_date b1
        = if String.eqb (Booking.status b) "CONFIRMED" then Some (now e1) else None)
    /\ (Booking.cancellation_date b = None ->
        Booking.cancellation_date b1
        = if String.eqb (Booking.status b) "CANCELLED" then Some (now e1) else None).
Proof.
  intros Hk.
  unfold Booking.save, Booking.generate_booking_id, Booking.Model_save, timezone_now.
  destruct b as [pk bid u o n p st pst cd xd]. cbn in Hk. subst pk. cbn.
  unfold bind, ret, ask, get, modify.
  destruct (String.eqb bid "") eqn:Hbid; cbn.
  all: destruct (String.eqb st "CONFIRMED") eqn:Hc; destruct cd as [t1 |]; cbn.
  all: destruct (String.eqb st "CANCELLED") eqn:Hx; destruct xd as [t2 |]; cbn.
  all: destruct update_fields1, update_fields2; cbn.
  all: eexists; eexists; eexists; (split; [reflexivity |]).
  all: repeat (progress (cbn; rewrite ?generated_booking_id_not_empty, ?Hbid, ?Hc, ?Hx)).
  all: (split; [reflexivity |]).
  all: cbn; repeat split; intros; try congruence.
  all: apply String.eqb_eq in Hbid; congruence.
Qed.

Lemma booking_save_stamps_once_witness :
  exists b1 w1 w2,
    Booking.save None
      (sample_booking (sample_flight (days 8) 98 100) 2 "CONFIRMED" "COMPLETED")
      sample_env
      (sample_world (sample_booking (sample_flight (days 8) 98 100) 2 "CONFIRMED" "COMPLETED"))
    = (Ok b1, w1)
    /\ Booking.save (Some ["status"]) b1
         (mkEnv (sample_now + days 1) (choices sample_env) (random sample_env)) w1
       = (Ok b1, w2)
    /\ Booking.confirmation_date b1 = Some sample_now.
Proof.
  destruct (booking_save_stamps_once None (Some ["status"])
              (sample_booking (sample_flight (days 8) 98 100) 2 "CONFIRMED" "COMPLETED")
              sample_env
              (mkEnv (sample_now + days 1) (choices sample_env) (random sample_env))
              (sample_world
                 (sample_booking (sample_flight (days 8) 98 100) 2 "CONFIRMED" "COMPLETED"))
              1 eq_refl)
    as (b1 & w1 & w2 & H1 & H2 & _ & _ & _ & Hcd & _).
  exists b1, w1, w2. split; [exact H1 |]. split; [exact H2 |].
  exact (Hcd eq_refl).
Defined.

(** What one call of [confirm_booking] does. *)
Lemma confirm_booking_effect (b : Booking.instance) (e : Env) (w : World) :
  exists ok b' w',
    Booking.confirm_booking b e w = (Ok (ok, b'), w')
    /\ (ok = true -> Booking.status b = "PENDING" /\ Booking.status b' = "CONFIRMED")
    /\ (ok = false -> b' = b /\ w' = w)
    /\ Booking.travel_option b' = Booking.travel_option b
    /\ Booking.number_of_seats b' = Booking.number_of_seats b.
Proof.
  unfold Booking.confirm_booking.
  destruct (String.eqb_spec (Booking.status b) "PENDING") as [Hp | Hp].
  - unfold timezone_now, bind at 1, bind at 1, ask, ret at 1.
    set (b1 := Booking.with_payment_status "COMPLETED" _).
    destruct (Booking_save_ok None b1 e w)
      as (b' & w' & Hsave & Hst & _ & _ & Hn & _ & Hopt & _).
    rewrite (bind_ok _ _ _ _ _ _ Hsave). exists true, b', w'.
    split; [reflexivity |]. cbn in Hst, Hn, Hopt.
    repeat split; auto; discriminate.
  - exists false, b, w. repeat split; auto; discriminate.
Qed.

(** What one call of [cancel_booking] does. *)
Lemma cancel_booking_effect (b : Booking.instance) (e : Env) (w : World) :
  exists ok b' w',
    Booking.cancel_booking b e w = (Ok (ok, b'), w')
    /\ (ok = true ->
        Booking.status b = "CONFIRMED" /\ Booking.status b' = "CANCELLED"
        /\ TravelOption.available_seats (Booking.travel_option b')
           = seats_after_cancel (Booking.travel_option b) (Booking.number_of_seats b))
    /\ (ok = false -> b' = b /\ w' = w)
    /\ Booking.number_of_seats b' = Booking.number_of_seats b.
Proof.
  destruct (Booking.can_be_cancelled (now e) b
            && String.eqb (Booking.status b) "CONFIRMED") eqn:Hc.
  - pose proof Hc as Hcond. apply cancel_condition in Hcond as (Hst & _).
    destruct (cancel_booking_true b e w Hc)
      as (b' & w' & Hrun & Hst' & _ & _ & _ & _ & Hseats & _).
    exists true, b', w'. split; [exact Hrun |].
    split; [auto |]. split; [discriminate |].
    (* the seat count of the booking: through the steps of the call *)
    revert Hrun. unfold Booking.cancel_booking, bind at 1, ask. rewrite Hc.
    unfold timezone_now, bind at 1, bind at 1, ask, ret at 1.
    set (b1 := Booking.with_cancellation_date (Some (now e))
                 (Booking.with_status "CANCELLED" b)).
    destruct (run_seat_call_frame (call_increase (Booking.number_of_seats b1))
                (Booking.travel_option b1) e w)
      as (ok & o' & w1 & Hinc & _).
    cbn [run_seat_call] in Hinc. rewrite (bind_ok _ _ _ _ _ _ Hinc). cbn [snd].
    destruct (Booking_save_ok None (Booking.with_travel_option o' b1) e w1)
      as (b2 & w2 & Hsave & _ & _ & _ & Hn & _).
    rewrite (bind_ok _ _ _ _ _ _ Hsave). intros H. injection H as <- <-.
    exact Hn.
  - rewrite (cancel_booking_false b e w Hc). exists false, b, w.
    repeat split; auto; discriminate.
Qed.

(** X7.  Over any sequence of [confirm_booking] and [cancel_booking] calls
    on a booking, at any times, no call raises, at most one confirmation
    and at most one cancellation succeed (none of either unless the booking
    starts PENDING or, for the cancellation, CONFIRMED), and the seats are
    given back at most once: the travel option of the booking is untouched
    when no cancellation succeeds, and holds what the one call of
    [increase_available_seats] left when one does. *)
Theorem lifecycle_transitions_happen_once
    (calls : list (Env * LifecycleCall)) (b : Booking.instance) (w : World) :
  exists results b' w',
    run_lifecycle calls b w = (Ok (results, b'), w')
    /\ (confirmations results <= 1)%nat
    /\ (cancellations results <= 1)%nat
    /\ (Booking.status b <> "PENDING" -> confirmations results = 0%nat)
    /\ (Booking.status b <> "PENDING" -> Booking.status b <> "CONFIRMED" ->
        cancellations results = 0%nat)
    /\ Booking.number_of_seats b' = Booking.number_of_seats b
    /\ (cancellations results = 0%nat ->
        Booking.travel_option b' = Booking.travel_option b)
    /\ (cancellations results = 1%nat ->
        TravelOption.available_seats (Booking.travel_option b')
        = seats_after_cancel (Booking.travel_option b) (Booking.number_of_seats b)).
Proof.
  revert b w. induction calls as [| [e c] calls IH]; intros b w.
  - exists [], b, w. cbn. repeat split; auto; discriminate.
  - cbn [run_lifecycle]. destruct c; cbn [run_lifecycle_call].
    + destruct (confirm_booking_effect b e w)
        as (ok & b1 & w1 & Hrun & Htrue & Hfalse & Hopt & Hn).
      rewrite Hrun.
      destruct (IH b1 w1)
        as (results & b' & w' & Hrest & Hc1 & Hx1 & Hc0 & Hx0 & Hn' & Hsame & Hback).
      rewrite Hrest. eexists. exists b', w'. split; [reflexivity |].
      destruct ok.
      * destruct (Htrue eq_refl) as (Hp & Hconf).
        assert (Hzero : confirmations results = 0%nat)
          by (apply Hc0; rewrite Hconf; discriminate).
        unfold confirmations, cancellations in *. cbn.
        rewrite Hzero, <- Hopt, <- Hn.
        repeat split; auto; try lia; try congruence.
      * destruct (Hfalse eq_refl) as (-> & ->).
        unfold confirmations, cancellations in *. cbn.
        repeat split; auto.
    + destruct (cancel_booking_effect b e w)
        as (ok & b1 & w1 & Hrun & Htrue & Hfalse & Hn).
      rewrite Hrun.
      destruct (IH b1 w1)
        as (results & b' & w' & Hrest & Hc1 & Hx1 & Hc0 & Hx0 & Hn' & Hsame & Hback).
      rewrite Hrest. eexists. exists b', w'. split; [reflexivity |].
      destruct ok.
      * destruct (Htrue eq_refl) as (Hconf & Hcanc & Hseats).
        assert (Hzc : confirmations results = 0%nat)
          by (apply Hc0; rewrite Hcanc; discriminate).
        assert (Hzx : cancellations results = 0%nat)
          by (apply Hx0; rewrite Hcanc; discriminate).
        unfold confirmations, cancellations in *. cbn.
        rewrite Hzc, Hzx.
        repeat split; auto; try lia; try congruence.
        intros _. rewrite (Hsame Hzx). exact Hseats.
      * destruct (Hfalse eq_refl) as (-> & ->).
        unfold confirmations, cancellations in *. cbn.
        repeat split; auto.
Qed.

(** ** The managers after a transition *)

Lemma confirm_booking_true (b : Booking.instance) (e : Env) (w : World) :
  Booking.status b = "PENDING" ->
  exists b' w',
    Booking.confirm_booking b e w = (Ok (true, b'), w')
    /\ Booking.status b' = "CONFIRMED"
    /\ Booking.payment_status b' = "COMPLETED"
    /\ Booking.confirmation_date b' = Some (now e)
    /\ travel_options w' = travel_options w
    /\ exists k, Booking.pk b' = Some k
                 /\ (forall k0, Booking.pk b = Some k0 -> k = k0)
                 /\ bookings w' !! k = Some (Booking.to_row b')
                 /\ forall k', k' <> k -> bookings w' !! k' = bookings w !! k'.
Proof.
  intros Hp. unfold Booking.confirm_booking. rewrite Hp. cbn [String.eqb].
  replace (String.eqb "PENDING" "PENDING") with true by reflexivity.
  unfold timezone_now, bind at 1, bind at 1, ask, ret at 1.
  unfold Booking.save, Booking.generate_booking_id, Booking.Model_save, timezone_now.
  destruct b as [pk bid u o n p st pst cd xd]. cbn.
  unfold bind, ret, ask, get, modify.
  destruct (String.eqb bid ""); destruct pk as [k0 |]; cbn.
  all: eexists; eexists; (split; [reflexivity |]); cbn.
  all: repeat (split; [reflexivity |]).
  all: eexists; (split; [reflexivity |]).
  all: split; [intros; congruence |].
  all: split; [apply lookup_insert_eq |].
  all: intros k' Hk'; rewrite lookup_insert_ne by congruence; reflexivity.
Qed.

Lemma stored_row_in_filter (p : Booking.row -> bool) (r : Booking.row) (k : Z)
    (e : Env) (w : World) :
  bookings w !! k = Some r ->
  exists rows,
    BookingManager.filter p e w = (Ok rows, w)
    /\ (In r rows <-> p r = true).
Proof.
  intros Hrow. eexists. split; [reflexivity |].
  rewrite filter_In. split; [tauto |]. intros Hp. split; [| exact Hp].
  apply list_elem_of_In, list_elem_of_fmap. exists (k, r).
  split; [reflexivity |]. apply elem_of_map_to_list. exact Hrow.
Qed.

(** X8.  After a successful [confirm_booking] the stored row of the booking
    is one of [active_bookings()] and none of [cancelled_bookings()]; after
    a successful [cancel_booking] it is one of [cancelled_bookings()] and
    none of [active_bookings()]. *)
Theorem managers_follow_the_transitions (b : Booking.instance) (e : Env) (w : World) :
  (forall b' w',
     Booking.confirm_booking b e w = (Ok (true, b'), w') ->
     exists active cancelled,
       BookingManager.active_bookings e w' = (Ok active, w')
       /\ BookingManager.cancelled_bookings e w' = (Ok cancelled, w')
       /\ In (Booking.to_row b') active
       /\ ~ In (Booking.to_row b') cancelled)
  /\ (forall b' w',
        Booking.cancel_booking b e w = (Ok (true, b'), w') ->
        exists active cancelled,
          BookingManager.active_bookings e w' = (Ok active, w')
          /\ BookingManager.cancelled_bookings e w' = (Ok cancelled, w')
          /\ In (Booking.to_row b') cancelled
          /\ ~ In (Booking.to_row b') active).
Proof.
  split; intros b' w' Hrun.
  - assert (Hp : Booking.status b = "PENDING").
    { destruct (confirm_booking_effect b e w) as (ok & b1 & w1 & Hrun1 & Htrue & _).
      rewrite Hrun in Hrun1. injection Hrun1 as <- <- <-. apply Htrue. reflexivity. }
    destruct (confirm_booking_true b e w Hp)
      as (b1 & w1 & Hrun1 & Hst & _ & _ & _ & k & _ & _ & Hrow & _).
    rewrite Hrun in Hrun1. injection Hrun1 as <- <-.
    destruct (stored_row_in_filter
                (fun r => String.eqb (Booking.status r) "CONFIRMED") _ k e w' Hrow)
      as (active & Ha & Hin).
    destruct (stored_row_in_filter
                (fun r => String.eqb (Booking.status r) "CANCELLED") _ k e w' Hrow)
      as (cancelled & Hc & Hout).
    exists active, cancelled. split; [exact Ha |]. split; [exact Hc |].
    rewrite Hin, Hout. cbn. rewrite Hst. split; [reflexivity | discriminate].
  - destruct (Booking.can_be_cancelled (now e) b
              && String.eqb (Booking.status b) "CONFIRMED") eqn:Hcond;
      [| rewrite (cancel_booking_false b e w Hcond) in Hrun; discriminate].
    destruct (cancel_booking_true b e w Hcond)
      as (b1 & w1 & Hrun1 & Hst & _ & _ & _ & _ & _ & _ & (k & _ & Hrow) & _).
    rewrite Hrun in Hrun1. injection Hrun1 as <- <-.
    destruct (stored_row_in_filter
                (fun r => String.eqb (Booking.status r) "CONFIRMED") _ k e w' Hrow)
      as (active & Ha & Hout).
    destruct (stored_row_in_filter
                (fun r => String.eqb (Booking.status r) "CANCELLED") _ k e w' Hrow)
      as (cancelled & Hc & Hin).
    exists active, cancelled. split; [exact Ha |]. split; [exact Hc |].
    rewrite Hin, Hout. cbn. rewrite Hst. split; [reflexivity | discriminate].
Qed.

Lemma managers_follow_the_transitions_witness :
  exists b' w' active,
    Booking.confirm_booking
      (sample_booking (sample_flight (days 8) 98 100) 2 "PENDING" "PENDING") sample_env
      (sample_world (sample_booking (sample_flight (days 8) 98 100) 2 "PENDING" "PENDING"))
    = (Ok (true, b'), w')
    /\ BookingManager.active_bookings sample_env w' = (Ok active, w')
    /\ In (Booking.to_row b') active.
Proof.
  destruct (confirm_booking_true
              (sample_booking (sample_flight (days 8) 98 100) 2 "PENDING" "PENDING")
              sample_env
              (sample_world
                 (sample_booking (sample_flight (days 8) 98 100) 2 "PENDING" "PENDING"))
              eq_refl)
    as (b' & w' & Hrun & _).
  destruct (proj1 (managers_follow_the_transitions _ _ _) b' w' Hrun)
    as (active & cancelled & Ha & _ & Hin & _).
  exists b', w', active. auto.
Defined.

(** ** The views of one booking *)

(** What [get_object_or_404] returns is a stored row that passes the filter,
    with its travel option; the lookup writes nothing. *)
Lemma objects_get_sound (p : Booking.row -> bool) (e : Env) (w w' : World)
    (b : Booking.instance) :
  Booking.objects_get p e w = (Ok b, w') ->
  w' = w
  /\ exists r, p r = true /\ Booking.from_row w r = Some b.
Proof.
  unfold Booking.objects_get, bind, get. cbn beta.
  destruct (List.filter p (snd <$> map_to_list (bookings w))) as [| r [| r' rest]] eqn:Hf;
    try discriminate.
  destruct (Booking.from_row w r) as [b0 |] eqn:Hrow; [| discriminate].
  intros H. injection H as <- <-. split; [reflexivity |]. exists r.
  split; [| exact Hrow].
  assert (Hin : In r (List.filter p (snd <$> map_to_list (bookings w))))
    by (rewrite Hf; left; reflexivity).
  apply filter_In in Hin. tauto.
Qed.

Lemma from_row_columns (w : World) (r : Booking.row) (b : Booking.instance) :
  Booking.from_row w r = Some b ->
  Booking.status b = Booking.status r
  /\ Booking.user b = Booking.user r
  /\ Booking.booking_id b = Booking.booking_id r
  /\ Booking.pk b = Booking.pk r.
Proof.
  unfold Booking.from_row. destruct (travel_options w !! Booking.travel_option r); cbn;
    [| discriminate].
  intros H. injection H as <-. repeat split.
Qed.

(** For a CONFIRMED booking the property of the booking is the property of
    its travel option. *)
Lemma can_be_cancelled_of_confirmed (now : Z) (b : Booking.instance) :
  Booking.status b = "CONFIRMED" ->
  Booking.can_be_cancelled now b
  = TravelOption.can_be_cancelled now (Booking.travel_option b).
Proof.
  intros Hst. unfold Booking.can_be_cancelled, Booking.is_past_travel. rewrite Hst.
  rewrite hasattr_can_be_cancelled. cbn.
  destruct (Z.ltb_spec (TravelOption.departure_datetime (Booking.travel_option b)) now);
    [| reflexivity].
  unfold TravelOption.can_be_cancelled.
  rewrite timedelta_24_hours, microseconds_per_day_value.
  symmetry. apply Z.ltb_ge. lia.
Qed.

(** X12.  The window of [BookingCancelView.dispatch] is [can_be_cancelled]:
    for the CONFIRMED booking that the view finds, the request is turned
    away, with an error message, a redirect and no other write, exactly
    when [can_be_cancelled] of the booking is false; when it is true the
    request goes on to [post]. *)
Theorem cancel_view_window_is_can_be_cancelled
    (request : HttpRequest CancellationData) (booking_id : string)
    (e : Env) (w : World) (b : Booking.instance) :
  Booking.objects_get
    (fun r => String.eqb (Booking.booking_id r) booking_id
              && bool_decide (Booking.user r = request_user request)
              && String.eqb (Booking.status r) "CONFIRMED") e w = (Ok b, w) ->
  Booking.status b = "CONFIRMED"
  /\ (Booking.can_be_cancelled (now e) b = false ->
      BookingCancelView.dispatch request booking_id e w
      = (Ok (redirect "bookings:detail" (Booking.booking_id b), Some b),
         with_messages
           (messages w
            ++ [mkMessage "error"
                  "Cancellation is not allowed within 24 hours of departure." []]) w))
  /\ (Booking.can_be_cancelled (now e) b = true ->
      BookingCancelView.dispatch request booking_id e w
      = (let (r, w') := BookingCancelView.post request b e w in
         match r with
         | Ok r => (Ok (fst r, Some (snd r)), w')
         | Raise x => (Raise x, w')
         end)).
Proof.
  intros Hget.
  assert (Hst : Booking.status b = "CONFIRMED").
  { destruct (objects_get_sound _ _ _ _ _ Hget) as (_ & r & Hp & Hrow).
    destruct (from_row_columns _ _ _ Hrow) as (-> & _).
    rewrite !andb_true_iff in Hp. destruct Hp as (_ & Hp). apply String.eqb_eq. exact Hp. }
  split; [exact Hst |].
  rewrite (can_be_cancelled_of_confirmed _ _ Hst).
  unfold BookingCancelView.dispatch. rewrite (bind_ok _ _ _ _ _ _ Hget).
  unfold timezone_now, bind, ask, ret. cbn beta.
  unfold TravelOption.can_be_cancelled.
  rewrite timedelta_24_hours, microseconds_per_day_value.
  destruct (Z.leb_spec (TravelOption.departure_datetime (Booking.travel_option b))
              (now e + 86400000000)) as [Hle | Hgt].
  - split; [intros _; reflexivity |].
    intros H. apply Z.ltb_lt in H. lia.
  - split; [intros H; apply Z.ltb_ge in H; lia |].
    intros _. reflexivity.
Qed.

Lemma cancel_view_window_is_can_be_cancelled_witness :
  BookingCancelView.dispatch sample_cancellation_request "TKT0000001" sample_env
    (sample_world
       (sample_booking (sample_flight (timedelta_hours 5) 98 100) 2 "CONFIRMED" "COMPLETED"))
  = (Ok (redirect "bookings:detail" "TKT0000001",
         Some (sample_booking (sample_flight (timedelta_hours 5) 98 100) 2
                 "CONFIRMED" "COMPLETED")),
     with_messages
       [mkMessage "error" "Cancellation is not allowed within 24 hours of departure." []]
       (sample_world
          (sample_booking (sample_flight (timedelta_hours 5) 98 100) 2
             "CONFIRMED" "COMPLETED"))).
Proof.
  refine (proj1 (proj2 (cancel_view_window_is_can_be_cancelled
            sample_cancellation_request "TKT0000001" sample_env
            (sample_world
               (sample_booking (sample_flight (timedelta_hours 5) 98 100) 2
                  "CONFIRMED" "COMPLETED"))
            (sample_booking (sample_flight (timedelta_hours 5) 98 100) 2
               "CONFIRMED" "COMPLETED") _)) _).
  - vm_compute. reflexivity.
  - vm_compute. reflexivity.
Defined.

(** X13.  The detail page of a booking that is CONFIRMED and can be
    cancelled raises [AttributeError]: it calls [calculate_refund_amount],
    which the class does not define.  For every other booking the context
    says that it cannot be cancelled and shows a refund of 0. *)
Theorem booking_detail_view_context (b : Booking.instance) (e : Env) (w : World) :
  (Booking.status b = "CONFIRMED" /\ Booking.can_be_cancelled (now e) b = true ->
   BookingDetailView.get_context_data b e w
   = (Raise (AttributeError "Booking" "calculate_refund_amount"), w))
  /\ (~ (Booking.status b = "CONFIRMED" /\ Booking.can_be_cancelled (now e) b = true) ->
      BookingDetailView.get_context_data b e w
      = (Ok (BookingDetailView.mkContext false (inl (PyInt 0))), w))
  /\ Booking.hasattr "calculate_refund_amount" = false.
Proof.
  assert (Hflag :
    String.eqb (Booking.status b) "CONFIRMED"
    && (TravelOption.departure_datetime (Booking.travel_option b)
        >? now e + timedelta_hours 24) = true
    <-> Booking.status b = "CONFIRMED" /\ Booking.can_be_cancelled (now e) b = true).
  { rewrite andb_true_iff, String.eqb_eq, can_be_cancelled_true.
    rewrite timedelta_24_hours, microseconds_per_day_value.
    rewrite <- Zgt_is_gt_bool.
    split.
    - intros (Hst & Hgt). rewrite Hst. repeat split; try discriminate. lia.
    - intros (Hst & _ & _ & Hlt). split; [exact Hst | lia]. }
  unfold BookingDetailView.get_context_data.
  unfold timezone_now, bind, ask, ret. cbn beta.
  destruct (String.eqb (Booking.status b) "CONFIRMED"
            && (TravelOption.departure_datetime (Booking.travel_option b)
                >? now e + timedelta_hours 24)) eqn:Hc.
  - split; [intros _; reflexivity |]. split; [| reflexivity].
    intros Hn. exfalso. apply Hn. apply Hflag. reflexivity.
  - split; [| split; [intros _; reflexivity | reflexivity]].
    intros H. apply Hflag in H. discriminate.
Qed.

(** A save of a stored booking keeps its key. *)
Lemma booking_save_keeps_key update_fields (self : Booking.instance) e w k :
  Booking.pk self = Some k ->
  exists self' w',
    Booking.save update_fields self e w = (Ok self', w')
    /\ Booking.pk self' = Some k.
Proof.
  intros Hk.
  unfold Booking.save, Booking.generate_booking_id, Booking.Model_save, timezone_now.
  destruct self as [pk bid u o n p st pst cd xd]. cbn in Hk. subst pk. cbn.
  unfold bind, ret, ask, get, modify.
  destruct (String.eqb bid ""); cbn.
  all: destruct (String.eqb st "CONFIRMED" && negb (bool_decide (is_Some cd))); cbn.
  all: destruct (String.eqb st "CANCELLED" && negb (bool_decide (is_Some xd))); cbn.
  all: destruct update_fields; cbn.
  all: eexists; eexists; split; reflexivity.
Qed.

(** X14.  A payment that passes adds exactly one to the booking count of
    the route from the source to the destination of the booking, creating
    the route with both counters at 0 first when it is missing, and leaves
    its search count and every other route alone; it appends one history
    row for PENDING to CONFIRMED by the user at the time of the request;
    it queues no message and takes or gives no seat; and it does not write
    the confirmation date, which the stored row keeps as it was. *)
Theorem payment_success_bookkeeping
    (request : HttpRequest string) (booking_id : string) (e : Env) (w : World)
    (b : Booking.instance) (k : Z) :
  PaymentView.get_object request booking_id e w = (Ok b, w) ->
  Booking.pk b = Some k ->
  PrimFloat.ltb (random e) 0.95%float = true ->
  exists b' w',
    PaymentView.post request booking_id e w
    = (Ok (redirect "bookings:payment_success" (Booking.booking_id b'), b'), w')
    /\ popular_routes w'
         !! (TravelOption.source (Booking.travel_option b),
             TravelOption.destination (Booking.travel_option b))
       = Some
           (match popular_routes w
                    !! (TravelOption.source (Booking.travel_option b),
                        TravelOption.destination (Booking.travel_option b)) with
            | Some route => mkPopularRoute (search_count route) (booking_count route + 1)
            | None => mkPopularRoute 0 1
            end)
    /\ (forall route,
          route <> (TravelOption.source (Booking.travel_option b),
                    TravelOption.destination (Booking.travel_option b)) ->
          popular_routes w' !! route = popular_routes w !! route)
    /\ booking_history w'
       = (booking_history w
          ++ [mkBookingHistory (Some k) (Some "PENDING") "CONFIRMED"
                (request_user request) "Payment completed successfully" (now e)])%list
    /\ messages w' = messages w
    /\ travel_options w' = travel_options w
    /\ Booking.confirmation_date <$> (bookings w' !! k)
       = Booking.confirmation_date <$> (bookings w !! k).
Proof.
  intros Hget Hk Hdraw. unfold PaymentView.post.
  rewrite (bind_ok _ _ _ _ _ _ Hget).
  unfold PaymentView.process_payment, bind at 1, bind at 1, ask, ret at 1. rewrite Hdraw.
  set (b1 := Booking.with_payment_status "PAID" (Booking.with_status "CONFIRMED" b)).
  destruct (Booking_save_ok (Some ["status"; "payment_status"]) b1 e w)
    as (b' & w1 & Hsave & _ & _ & _ & _ & _ & Hopt & _ & _ & Hto & Hhist & Hroutes & Hmsg & _).
  destruct (Booking_save_update_fields ["status"; "payment_status"] b1 e w k Hk)
    as (b2 & w2 & Hsave2 & Hrows).
  rewrite Hsave in Hsave2. injection Hsave2 as <- <-.
  assert (Hpk : Booking.pk b' = Some k).
  { destruct (booking_save_keeps_key (Some ["status"; "payment_status"]) b1 e w k Hk)
      as (b3 & w3 & Hsave3 & Hpk3).
    rewrite Hsave in Hsave3. injection Hsave3 as <- <-. exact Hpk3. }
  rewrite (bind_ok _ _ _ _ _ _ Hsave).
  eexists. eexists. split; [reflexivity |].
  cbn in Hopt. rewrite Hopt.
  unfold PopularRoute_objects_get_or_create, PopularRoute_increment_booking_count,
    BookingHistory_objects_create, PaymentView.send_booking_confirmation_email,
    timezone_now, bind, ret, ask, modify. cbn beta.
  set (route := (TravelOption.source (Booking.travel_option b),
                 TravelOption.destination (Booking.travel_option b))).
  destruct (popular_routes w1 !! route) as [c |] eqn:Hroute; cbn.
  - rewrite lookup_alter_eq, Hroute, <- Hroutes, Hroute, Hhist, Hmsg, Hto, Hpk. cbn.
    repeat split; try reflexivity.
    + intros r Hr. rewrite lookup_alter_ne by congruence. reflexivity.
    + rewrite Hrows, lookup_alter_eq. destruct (bookings w !! k); reflexivity.
  - rewrite lookup_alter_eq, lookup_insert_eq, <- Hroutes, Hroute, Hhist, Hmsg, Hto, Hpk. cbn.
    repeat split; try reflexivity.
    + intros r Hr. rewrite lookup_alter_ne, lookup_insert_ne by congruence. reflexivity.
    + rewrite Hrows, lookup_alter_eq. destruct (bookings w !! k); reflexivity.
Qed.

Lemma payment_success_bookkeeping_witness :
  exists b' w',
    PaymentView.post sample_payment_request "TKT0000001" sample_env
      (sample_world (sample_booking (sample_flight (days 8) 98 100) 2 "PENDING" "PENDING"))
    = (Ok (redirect "bookings:payment_success" (Booking.booking_id b'), b'), w')
    /\ popular_routes w' !! ("Mumbai", "Delhi") = Some (mkPopularRoute 0 1).
Proof.
  destruct (payment_success_bookkeeping sample_payment_request "TKT0000001" sample_env
              (sample_world
                 (sample_booking (sample_flight (days 8) 98 100) 2 "PENDING" "PENDING"))
              (sample_booking (sample_flight (days 8) 98 100) 2 "PENDING" "PENDING") 1
              ltac:(vm_compute; reflexivity) eq_refl eq_refl)
    as (b' & w' & Hrun & Hroute & _).
  exists b', w'. split; [exact Hrun | exact Hroute].
Defined.

(** X15.  [BookingConfirmView.post] stamps the confirmation date of the
    PENDING booking it finds, on the instance and in the stored row, and
    leaves the booking PENDING: status and payment status, the seats, the
    history and the messages are as before. *)
Theorem confirm_view_stamps_a_pending_booking
    (request : HttpRequest unit) (booking_id : string) (e : Env) (w : World)
    (b : Booking.instance) (k : Z) :
  BookingConfirmView.get_object request booking_id e w = (Ok b, w) ->
  Booking.pk b = Some k ->
  exists b' w',
    BookingConfirmView.post request booking_id e w
    = (Ok (redirect "bookings:payment" (Booking.booking_id b'), b'), w')
    /\ Booking.status b' = "PENDING"
    /\ Booking.payment_status b' = Booking.payment_status b
    /\ Booking.confirmation_date b' = Some (now e)
    /\ bookings w'
       = alter (Booking.with_confirmation_date (Some (now e))) k (bookings w)
    /\ travel_options w' = travel_options w
    /\ booking_history w' = booking_history w
    /\ messages w' = messages w.
Proof.
  intros Hget Hk.
  assert (Hst : Booking.status b = "PENDING").
  { destruct (objects_get_sound _ _ _ _ _ Hget) as (_ & r & Hp & Hrow).
    destruct (from_row_columns _ _ _ Hrow) as (-> & _).
    rewrite !andb_true_iff in Hp. destruct Hp as ((_ & Hp) & _).
    apply String.eqb_eq. exact Hp. }
  unfold BookingConfirmView.post. rewrite (bind_ok _ _ _ _ _ _ Hget).
  unfold timezone_now, bind at 1, bind at 1, ask, ret at 1.
  set (b1 := Booking.with_confirmation_date (Some (now e)) b).
  destruct (Booking_save_ok (Some ["confirmation_date"]) b1 e w)
    as (b' & w' & Hsave & Hst' & Hpay & _ & _ & _ & _ & Hcd & _ & Hto & Hhist & _ & Hmsg & _).
  destruct (Booking_save_update_fields ["confirmation_date"] b1 e w k Hk)
    as (b2 & w2 & Hsave2 & Hrows).
  rewrite Hsave in Hsave2. injection Hsave2 as <- <-.
  rewrite (bind_ok _ _ _ _ _ _ Hsave). exists b', w'.
  split; [reflexivity |]. cbn in Hst', Hpay, Hcd.
  rewrite Hst in Hcd. cbn in Hcd.
  repeat split; auto; [congruence |].
  rewrite Hrows. apply alter_ext. intros r _. cbn.
  unfold Booking.with_confirmation_date. cbn. rewrite Hcd. reflexivity.
Qed.

Lemma confirm_view_stamps_a_pending_booking_witness :
  exists b' w',
    BookingConfirmView.post (mkHttpRequest 7 tt) "TKT0000001" sample_env
      (sample_world (sample_booking (sample_flight (days 8) 98 100) 2 "PENDING" "PENDING"))
    = (Ok (redirect "bookings:payment" (Booking.booking_id b'), b'), w')
    /\ Booking.status b' = "PENDING"
    /\ Booking.confirmation_date b' = Some sample_now.
Proof.
  destruct (confirm_view_stamps_a_pending_booking (mkHttpRequest 7 tt) "TKT0000001"
              sample_env
              (sample_world
                 (sample_booking (sample_flight (days 8) 98 100) 2 "PENDING" "PENDING"))
              (sample_booking (sample_flight (days 8) 98 100) 2 "PENDING" "PENDING") 1
              ltac:(vm_compute; reflexivity) eq_refl)
    as (b' & w' & Hrun & Hst & _ & Hcd & _).
  exists b', w'. split; [exact Hrun |]. split; [exact Hst | exact Hcd].
Defined.

(** ** The actions of the admin site *)

(** Saving the whole row of an instance that has a key writes that row
    under that key, and nothing else. *)
Lemma Booking_save_keyed (self : Booking.instance) e w k :
  Booking.pk self = Some k ->
  exists self' w',
    Booking.save None self e w = (Ok self', w')
    /\ Booking.pk self' = Some k
    /\ Booking.status self' = Booking.status self
    /\ bookings w' = <[k := Booking.to_row self']> (bookings w)
    /\ travel_options w' = travel_options w
    /\ messages w' = messages w.
Proof.
  intros Hk.
  unfold Booking.save, Booking.generate_booking_id, Booking.Model_save, timezone_now.
  destruct self as [pk bid u o n p st pst cd xd]. cbn in Hk. subst pk. cbn.
  unfold bind, ret, ask, get, modify.
  destruct (String.eqb bid ""); cbn.
  all: destruct (String.eqb st "CONFIRMED" && negb (bool_decide (is_Some cd))); cbn.
  all: destruct (String.eqb st "CANCELLED" && negb (bool_decide (is_Some xd))); cbn.
  all: eexists; eexists; repeat split; reflexivity.
Qed.

Lemma confirm_booking_keyed (b : Booking.instance) e w k :
  Booking.status b = "PENDING" ->
  Booking.pk b = Some k ->
  exists b' w',
    Booking.confirm_booking b e w = (Ok (true, b'), w')
    /\ Booking.status b' = "CONFIRMED"
    /\ bookings w' = <[k := Booking.to_row b']> (bookings w)
    /\ travel_options w' = travel_options w
    /\ messages w' = messages w.
Proof.
  intros Hp Hk. unfold Booking.confirm_booking. rewrite Hp, String.eqb_refl.
  unfold timezone_now, bind at 1, bind at 1, ask, ret at 1.
  set (b1 := Booking.with_payment_status "COMPLETED" _).
  destruct (Booking_save_keyed b1 e w k Hk) as (b' & w' & Hsave & _ & Hst & Hrows & Hto & Hmsg).
  rewrite (bind_ok _ _ _ _ _ _ Hsave). exists b', w'. auto.
Qed.

Lemma cancel_booking_keyed (b : Booking.instance) e w k :
  Booking.can_be_cancelled (now e) b && String.eqb (Booking.status b) "CONFIRMED" = true ->
  Booking.pk b = Some k ->
  TravelOption.available_seats (Booking.travel_option b) + Booking.number_of_seats b
    <= TravelOption.total_seats (Booking.travel_option b) ->
  exists b' w',
    Booking.cancel_booking b e w = (Ok (true, b'), w')
    /\ Booking.status b' = "CANCELLED"
    /\ bookings w' = <[k := Booking.to_row b']> (bookings w)
    /\ travel_options w'
       = alter (TravelOption.with_available_seats
                  (TravelOption.available_seats (Booking.travel_option b)
                   + Booking.number_of_seats b))
               (TravelOption.pk (Booking.travel_option b)) (travel_options w)
    /\ messages w' = messages w.
Proof.
  intros Hc Hk Hn. unfold Booking.cancel_booking, bind at 1, ask. rewrite Hc.
  unfold timezone_now, bind at 1, bind at 1, ask, ret at 1.
  set (b1 := Booking.with_cancellation_date (Some (now e))
               (Booking.with_status "CANCELLED" b)).
  destruct (run_seat_call_frame (call_increase (Booking.number_of_seats b1))
              (Booking.travel_option b1) e w)
    as (ok & o' & w1 & Hrun & _ & _ & _ & _ & Hbk & _ & _ & Hmsg1 & Hrows).
  destruct (increase_available_seats_true (Booking.travel_option b1)
              (Booking.number_of_seats b1) e w Hn)
    as (o2 & w2 & Hrun2 & Ha & _).
  cbn [run_seat_call] in Hrun. rewrite Hrun in Hrun2. injection Hrun2 as -> <- <-.
  rewrite (bind_ok _ _ _ _ _ _ Hrun). cbn [snd].
  destruct (Booking_save_keyed (Booking.with_travel_option o' b1) e w1 k Hk)
    as (b' & w' & Hsave & _ & Hst & Hbook & Hto & Hmsg).
  rewrite (bind_ok _ _ _ _ _ _ Hsave). exists b', w'.
  split; [reflexivity |]. split; [exact Hst |].
  split; [rewrite Hbook, Hbk; reflexivity |].
  split; [rewrite Hto, Hrows, Ha; reflexivity | congruence].
Qed.

(** What the queryset of an action holds. *)
Lemma admin_queryset_members (selected : list Z) (p : Booking.row -> bool) (w : World)
    (b : Booking.instance) :
  b ∈ omap (fun k => r ← bookings w !! k;
                     if p r then Booking.from_row w r else None) selected ->
  exists k r, k ∈ selected /\ bookings w !! k = Some r /\ p r = true
              /\ Booking.from_row w r = Some b.
Proof.
  intros Hb. apply list_elem_of_omap in Hb as (k & Hin & Hf).
  destruct (bookings w !! k) as [r |] eqn:Hr; [| discriminate]. cbn in Hf.
  destruct (p r) eqn:Hp; [| discriminate]. exists k, r. auto.
Qed.

Lemma admin_queryset_length (s : string) (selected : list Z) (w : World) :
  bookings_refer w ->
  length (omap (fun k => r ← bookings w !! k;
                         if String.eqb (Booking.status r) s
                         then Booking.from_row w r else None) selected)
  = length (selected_with_status s selected w).
Proof.
  intros Href. unfold selected_with_status.
  induction selected as [| k l IH]; [reflexivity |].
  cbn [omap list_omap List.filter].
  destruct (bookings w !! k) as [r |] eqn:Hr; cbn [mbind option_bind]; [| exact IH].
  destruct (String.eqb (Booking.status r) s); [| exact IH].
  destruct (Href k r Hr) as [o Ho]. unfold Booking.from_row. rewrite Ho.
  cbn [mbind option_bind length]. f_equal. exact IH.
Qed.

(** The loop of [confirm_bookings] over PENDING instances with a key. *)
Lemma confirm_loop_spec (bs : list Booking.instance) :
  forall (updated : Z) (e : Env) (w : World),
    (forall b, b ∈ bs -> Booking.status b = "PENDING" /\ is_Some (Booking.pk b)) ->
    exists w',
      BookingAdmin.confirm_loop bs updated e w
      = (Ok (updated + Z.of_nat (length bs)), w')
      /\ travel_options w' = travel_options w
      /\ messages w' = messages w
      /\ (forall k, Booking.status <$> (bookings w !! k) = Some "CONFIRMED" ->
                    Booking.status <$> (bookings w' !! k) = Some "CONFIRMED")
      /\ (forall b k, b ∈ bs -> Booking.pk b = Some k ->
                      Booking.status <$> (bookings w' !! k) = Some "CONFIRMED")
      /\ (forall k, (forall b, b ∈ bs -> Booking.pk b <> Some k) ->
                    bookings w' !! k = bookings w !! k).
Proof.
  induction bs as [| b bs IH]; intros updated e w Hbs.
  - exists w. cbn. rewrite Z.add_0_r. repeat split; auto.
    intros b k Hin. apply elem_of_nil in Hin. destruct Hin.
  - destruct (Hbs b (list_elem_of_here _ _)) as (Hp & k0 & Hk0).
    destruct (confirm_booking_keyed b e w k0 Hp Hk0)
      as (b' & w1 & Hrun & Hst & Hrows & Hto & Hmsg).
    destruct (IH (updated + 1) e w1) as (w' & Hloop & Hto' & Hmsg' & Hkeep & Hdone & Hframe).
    { intros b0 Hin. apply Hbs. apply list_elem_of_further. exact Hin. }
    exists w'. cbn [BookingAdmin.confirm_loop].
    rewrite (bind_ok _ _ _ _ _ _ Hrun). cbn [fst]. rewrite Hloop.
    assert (Hk0' : Booking.status <$> (bookings w1 !! k0) = Some "CONFIRMED").
    { rewrite Hrows, lookup_insert_eq. cbn. rewrite <- Hst. destruct b'; reflexivity. }
    split; [f_equal; f_equal; cbn [length]; lia |].
    split; [congruence |]. split; [congruence |].
    split; [| split].
    + intros k Hk. apply Hkeep. destruct (decide (k = k0)) as [-> | Hne]; [exact Hk0' |].
      rewrite Hrows, lookup_insert_ne by congruence. exact Hk.
    + intros b0 k Hin Hk. apply elem_of_cons in Hin as [-> | Hin].
      * apply Hkeep. replace k with k0 by congruence. exact Hk0'.
      * apply (Hdone b0 k Hin Hk).
    + intros k Hk. rewrite Hframe.
      * rewrite Hrows, lookup_insert_ne; [reflexivity |].
        intros ->. apply (Hk b (list_elem_of_here _ _)). exact Hk0.
      * intros b0 Hin. apply Hk. apply list_elem_of_further. exact Hin.
Qed.

(** X16.  In a database whose bookings are stored under their own keys and
    refer to stored travel options, the admin action [confirm_bookings]
    confirms every selected booking that is PENDING: it reports their
    number in one message, each of them is CONFIRMED in the database
    afterwards, and every other booking and every travel option is as
    before. *)
Theorem admin_confirm_bookings_confirms_every_pending
    (selected : list Z) (e : Env) (w : World) :
  bookings_keyed w ->
  bookings_refer w ->
  exists w',
    BookingAdmin.confirm_bookings selected e w
    = (Ok (Z.of_nat (length (selected_with_status "PENDING" selected w))), w')
    /\ messages w'
       = (messages w
          ++ [mkMessage "info" "{} bookings confirmed."
                [ArgNum (PyInt (Z.of_nat (length (selected_with_status "PENDING" selected w))))]])%list
    /\ travel_options w' = travel_options w
    /\ (forall k, k ∈ selected ->
                  Booking.status <$> (bookings w !! k) = Some "PENDING" ->
                  Booking.status <$> (bookings w' !! k) = Some "CONFIRMED")
    /\ (forall k, k ∉ selected
                  \/ Booking.status <$> (bookings w !! k) <> Some "PENDING" ->
                  bookings w' !! k = bookings w !! k).
Proof.
  intros Hkeyed Href.
  set (p := fun r : Booking.row => String.eqb (Booking.status r) "PENDING").
  set (bs := omap (fun k => r ← bookings w !! k;
                            if p r then Booking.from_row w r else None) selected).
  assert (Hbs : forall b, b ∈ bs ->
             exists k r, k ∈ selected /\ bookings w !! k = Some r
                         /\ Booking.status r = "PENDING"
                         /\ Booking.status b = "PENDING" /\ Booking.pk b = Some k).
  { intros b Hin. apply admin_queryset_members in Hin as (k & r & Hin & Hr & Hp & Hrow).
    apply String.eqb_eq in Hp.
    destruct (from_row_columns _ _ _ Hrow) as (Hst & _ & _ & Hpk).
    exists k, r. rewrite Hst, Hpk, (Hkeyed k r Hr). auto. }
  destruct (confirm_loop_spec bs 0 e w)
    as (w1 & Hloop & Hto & Hmsg & _ & Hdone & Hframe).
  { intros b Hin. destruct (Hbs b Hin) as (k & r & _ & _ & _ & Hst & Hpk). eauto. }
  rewrite Z.add_0_l in Hloop.
  assert (Hlen : length bs = length (selected_with_status "PENDING" selected w))
    by exact (admin_queryset_length "PENDING" selected w Href).
  rewrite Hlen in Hloop.
  eexists. unfold BookingAdmin.confirm_bookings, BookingAdmin.queryset.
  unfold bind at 1, bind at 1, get, ret at 1. fold p. fold bs.
  rewrite (bind_ok _ _ _ _ _ _ Hloop).
  unfold BookingAdmin.message_user, bind, modify, ret. cbn.
  split; [reflexivity |]. split; [rewrite Hmsg; reflexivity |].
  split; [exact Hto |]. split.
  - intros k Hin Hst.
    destruct (bookings w !! k) as [r |] eqn:Hr; [| discriminate].
    cbn in Hst. injection Hst as Hst.
    destruct (Href k r Hr) as [o Ho].
    apply (Hdone (Booking.with_travel_option o r) k); [| exact (Hkeyed k r Hr)].
    apply list_elem_of_omap. exists k. split; [exact Hin |].
    unfold Booking.row in *. cbn beta. rewrite Hr. cbn [mbind option_bind]. unfold p.
    rewrite Hst, String.eqb_refl.
    unfold Booking.from_row. rewrite Ho. reflexivity.
  - intros k Hk. apply Hframe. intros b Hin Hpk.
    destruct (Hbs b Hin) as (k0 & r & Hin0 & Hr & Hst & _ & Hpk0).
    assert (k0 = k) by congruence. subst k0.
    destruct Hk as [Hk | Hk]; [exact (Hk Hin0) |]. apply Hk. rewrite Hr. cbn. congruence.
Qed.

Lemma admin_confirm_bookings_confirms_every_pending_witness :
  exists w',
    BookingAdmin.confirm_bookings [1] sample_env
      (sample_world (sample_booking (sample_flight (days 8) 98 100) 2 "PENDING" "PENDING"))
    = (Ok 1, w')
    /\ Booking.status <$> (bookings w' !! 1) = Some "CONFIRMED".
Proof.
  assert (Hkeyed : bookings_keyed
            (sample_world
               (sample_booking (sample_flight (days 8) 98 100) 2 "PENDING" "PENDING"))).
  { intros k r Hr. unfold sample_world in Hr. cbn [bookings] in Hr.
    apply lookup_singleton_Some in Hr as [<- <-]. reflexivity. }
  assert (Href : bookings_refer
            (sample_world
               (sample_booking (sample_flight (days 8) 98 100) 2 "PENDING" "PENDING"))).
  { intros k r Hr. unfold sample_world in Hr. cbn [bookings] in Hr.
    apply lookup_singleton_Some in Hr as [<- <-]. eexists.
    vm_compute. reflexivity. }
  destruct (admin_confirm_bookings_confirms_every_pending [1] sample_env _ Hkeyed Href)
    as (w' & Hrun & _ & _ & Hdone & _).
  exists w'. split; [exact Hrun |].
  apply Hdone; [apply list_elem_of_here | vm_compute; reflexivity].
Defined.

(** X17.  The admin action [cancel_bookings] on two CONFIRMED bookings of
    the same travel option, both cancellable and both within the total
    number of seats, reports two cancellations and marks both bookings
    CANCELLED, but the stored travel option gets back the seats of the last
    booking only: each booking adds its seats to the count that its own
    copy of the travel option held when the queryset was read. *)
Theorem admin_cancel_bookings_restores_last_booking_only
    (k1 k2 : Z) (r1 r2 : Booking.row) (o : TravelOption.t) (e : Env) (w : World) :
  k1 <> k2 ->
  bookings w !! k1 = Some r1 ->
  bookings w !! k2 = Some r2 ->
  Booking.pk r1 = Some k1 ->
  Booking.pk r2 = Some k2 ->
  Booking.status r1 = "CONFIRMED" ->
  Booking.status r2 = "CONFIRMED" ->
  Booking.travel_option r1 = TravelOption.pk o ->
  Booking.travel_option r2 = TravelOption.pk o ->
  travel_options w !! TravelOption.pk o = Some o ->
  now e < TravelOption.departure_datetime o - microseconds_per_day ->
  TravelOption.available_seats o + Booking.number_of_seats r1 <= TravelOption.total_seats o ->
  TravelOption.available_seats o + Booking.number_of_seats r2 <= TravelOption.total_seats o ->
  exists w',
    BookingAdmin.cancel_bookings [k1; k2] e w = (Ok 2, w')
    /\ messages w'
       = (messages w
          ++ [mkMessage "info" "{} bookings cancelled." [ArgNum (PyInt 2)]])%list
    /\ Booking.status <$> (bookings w' !! k1) = Some "CANCELLED"
    /\ Booking.status <$> (bookings w' !! k2) = Some "CANCELLED"
    /\ TravelOption.available_seats <$> (travel_options w' !! TravelOption.pk o)
       = Some (TravelOption.available_seats o + Booking.number_of_seats r2).
Proof.
  intros Hne Hr1 Hr2 Hk1 Hk2 Hs1 Hs2 Ho1 Ho2 Ho Hnow Hn1 Hn2.
  set (b1 := Booking.with_travel_option o r1 : Booking.instance).
  set (b2 := Booking.with_travel_option o r2 : Booking.instance).
  assert (Hc : forall r : Booking.row,
             Booking.status r = "CONFIRMED" ->
             Booking.can_be_cancelled (now e) (Booking.with_travel_option o r)
             && String.eqb (Booking.status (Booking.with_travel_option o r)) "CONFIRMED"
             = true).
  { intros r Hs. apply cancel_condition. split; [exact Hs |].
    apply can_be_cancelled_true. cbn. rewrite Hs.
    split; [discriminate |]. split; [discriminate | exact Hnow]. }
  assert (Hq : BookingAdmin.queryset [k1; k2]
                 (fun r => String.eqb (Booking.status r) "CONFIRMED") e w
               = (Ok [b1; b2], w)).
  { unfold BookingAdmin.queryset, bind, get, ret. cbn [omap list_omap].
    unfold Booking.row in *. rewrite Hr1, Hr2. cbn [mbind option_bind].
    rewrite Hs1, Hs2, String.eqb_refl. unfold Booking.from_row.
    rewrite Ho1, Ho2, Ho. reflexivity. }
  destruct (cancel_booking_keyed b1 e w k1 (Hc r1 Hs1) Hk1 Hn1)
    as (b1' & w1 & Hrun1 & Hst1 & Hrows1 & Hto1 & Hmsg1).
  destruct (cancel_booking_keyed b2 e w1 k2 (Hc r2 Hs2) Hk2 Hn2)
    as (b2' & w2 & Hrun2 & Hst2 & Hrows2 & Hto2 & Hmsg2).
  assert (Hloop : BookingAdmin.cancel_loop [b1; b2] 0 e w = (Ok 2, w2)).
  { cbn [BookingAdmin.cancel_loop].
    rewrite (bind_ok _ _ _ _ _ _ Hrun1). cbn [fst].
    rewrite (bind_ok _ _ _ _ _ _ Hrun2). cbn [fst]. reflexivity. }
  eexists. unfold BookingAdmin.cancel_bookings.
  rewrite (bind_ok _ _ _ _ _ _ Hq), (bind_ok _ _ _ _ _ _ Hloop).
  unfold BookingAdmin.message_user, bind, modify, ret. cbn.
  split; [reflexivity |]. cbn [bookings messages travel_options with_messages].
  split; [rewrite Hmsg2, Hmsg1; reflexivity |].
  split; [| split].
  - rewrite Hrows2, lookup_insert_ne by congruence.
    rewrite Hrows1, lookup_insert_eq. cbn. rewrite <- Hst1. destruct b1'; reflexivity.
  - rewrite Hrows2, lookup_insert_eq. cbn. rewrite <- Hst2. destruct b2'; reflexivity.
  - rewrite Hto2, Hto1. cbn. rewrite !lookup_alter_eq, Ho. reflexivity.
Qed.

Lemma admin_cancel_bookings_restores_last_booking_only_witness :
  exists w',
    BookingAdmin.cancel_bookings [1; 2] sample_env
      (sample_world_two_bookings (sample_flight (days 8) 90 100))
    = (Ok 2, w')
    /\ TravelOption.available_seats
         <$> (travel_options w' !! TravelOption.pk (sample_flight (days 8) 90 100))
       = Some 93.
Proof.
  destruct (admin_cancel_bookings_restores_last_booking_only 1 2
              (Booking.to_row
                 (sample_booking (sample_flight (days 8) 90 100) 2 "CONFIRMED" "COMPLETED"))
              (Booking.to_row (sample_second_booking (sample_flight (days 8) 90 100) 3))
              (sample_flight (days 8) 90 100) sample_env
              (sample_world_two_bookings (sample_flight (days 8) 90 100))
              ltac:(discriminate)
              ltac:(vm_compute; reflexivity) ltac:(vm_compute; reflexivity)
              eq_refl eq_refl eq_refl eq_refl eq_refl eq_refl
              ltac:(vm_compute; reflexivity)
              ltac:(vm_compute; reflexivity)
              ltac:(vm_compute; discriminate) ltac:(vm_compute; discriminate))
    as (w' & Hrun & _ & _ & _ & Hseats).
  exists w'. split; [exact Hrun | exact Hseats].
Defined.

(** ** Popular routes *)

(** X18.  [PopularRoute.get_or_create_route] followed by
    [increment_booking_count] on the route it returns never raises and
    leaves the database exactly as the bookkeeping of [PaymentView.post]
    does: the stored booking count of the route is one more than before (1
    for a route that was not stored), which is also the count of the
    instance; its search count and every other route are as before. *)
Theorem popular_route_methods_count_a_booking
    (source destination : string) (e : Env) (w : World) :
  exists route w',
    (route <- PopularRoute.get_or_create_route source destination ;;
     PopularRoute.increment_booking_count route) e w = (Ok route, w')
    /\ (PopularRoute_objects_get_or_create source destination ;;;
        PopularRoute_increment_booking_count source destination) e w = (Ok tt, w')
    /\ PopularRoute.source route = source
    /\ PopularRoute.destination route = destination
    /\ popular_routes w' !! (source, destination) = Some (PopularRoute.counters route)
    /\ booking_count (PopularRoute.counters route)
       = match popular_routes w !! (source, destination) with
         | Some c => booking_count c + 1
         | None => 1
         end
    /\ search_count (PopularRoute.counters route)
       = match popular_routes w !! (source, destination) with
         | Some c => search_count c
         | None => 0
         end
    /\ forall other, other <> (source, destination) ->
                     popular_routes w' !! other = popular_routes w !! other.
Proof.
  unfold PopularRoute.get_or_create_route, PopularRoute.increment_booking_count,
    PopularRoute.save, PopularRoute_objects_get_or_create,
    PopularRoute_increment_booking_count, bind, get, modify, ret. cbn beta.
  destruct (popular_routes w !! (source, destination)) as [c |] eqn:Hc; cbn.
  - eexists; eexists. split; [reflexivity |]. rewrite ?Hc. cbn.
    split.
    { do 2 f_equal. apply alter_ext. intros x Hx. rewrite Hc in Hx.
      injection Hx as <-. reflexivity. }
    rewrite lookup_alter_eq, Hc. cbn.
    repeat split; auto.
    intros other Hother. rewrite lookup_alter_ne by congruence. reflexivity.
  - eexists; eexists. split; [reflexivity |]. rewrite ?Hc. cbn.
    split.
    { do 2 f_equal. apply alter_ext. intros x Hx. rewrite lookup_insert_eq in Hx.
      injection Hx as <-. reflexivity. }
    rewrite lookup_alter_eq, lookup_insert_eq. cbn.
    repeat split; auto.
    intros other Hother.
    rewrite lookup_alter_ne, lookup_insert_ne by congruence. reflexivity.
Qed.
